(** * bibbly backend: request -> conversation lifecycle, payment gate, packs

    A shallow embedding of the Mongoose models and Express / Socket.IO
    handlers that make up the messaging core:

    - [Conversation]       : models/Conversation.js
    - [Message]            : models/Message.js
    - [MessageRequest]     : models/MessageRequest.js
    - [PurchasedPack]      : models/PurchasedPack.js
    - [RequestController]  : controllers/messageRequestController.js
    - [MessageController]  : the message controller
    - [PurchaseController] : the purchase controller
    - [Socket]             : socket/index.js
    - [Async]              : [sendRequest] and [blockUser] once more, one
                             database operation per [await], on the ids as
                             the request body carries them

    Push notifications, in-app notifications and socket fan-out are
    collaborators whose calls leave the modelled collections alone; they are
    left out of the handlers.

    Conventions.  An ObjectId is an integer; [toString() === toString()] on
    ids is integer equality ([ObjectIdText] has the printed form, for the
    places that compare an id with text of the request).  A [Date] is its
    millisecond timestamp, and every [new Date()] / [Date.now()] of a call is
    the [now] argument of its model.  A JavaScript Number that holds a
    counter is an integer in [Z].  A thrown [Error] is [Err] with the
    message.  [save()] commits the mutated document; storage failures are
    outside the model.

    The handlers of the controller modules are functions from a database to a
    database: a call runs from its first database operation to its last
    before the next call starts, and [step] and [run] compose such calls.
    [Task], [complete] and [interleave] describe calls whose operations take
    turns at the database. *)

From Stdlib Require Import ZArith List Bool String Ascii Lia Sorted Permutation.
Import ListNotations.

Open Scope string_scope.
Open Scope Z_scope.

(** ** JavaScript helpers *)

Definition ObjectId := Z.
Definition Date := Z.

Inductive result (A : Type) : Type :=
| Ok (a : A)
| Err (message : string).
Arguments Ok {A} a.
Arguments Err {A} message.

(** [x || d] on a Number: 0 is the falsy number. *)
Definition or_else (x d : Z) : Z := if x =? 0 then d else x.

(** [x || 0]. *)
Definition or_zero (x : Z) : Z := or_else x 0.

(** [Array.prototype.findIndex], with [None] for -1. *)
Fixpoint findIndex {A : Type} (f : A -> bool) (l : list A) : option nat :=
  match l with
  | [] => None
  | x :: r => if f x then Some O else option_map S (findIndex f r)
  end.

(** [arr[i].field = v], written as an update of the element at index [i]. *)
Fixpoint update_nth {A : Type} (i : nat) (f : A -> A) (l : list A) : list A :=
  match l, i with
  | [], _ => []
  | x :: r, O => f x :: r
  | x :: r, S j => x :: update_nth j f r
  end.

Inductive MessageType := text | image | reveal | system.

(** ** models/Conversation.js *)

Module Conversation.

Record Participant := mkParticipant {
  user : ObjectId;
  isRevealed : bool;
  revealedAt : option Date;
  revealedFields : list string;
  isMuted : bool;
  mutedUntil : option Date;
  isArchived : bool;
  archivedAt : option Date;
  lastReadAt : option Date;
  unreadCount : Z
}.

Record LastMessage := mkLastMessage {
  content : string;
  senderId : ObjectId;
  sentAt : Date;
  type : MessageType
}.

Record Payment := mkPayment {
  paymentId : string;
  orderId : string;
  paidAt : Date;
  amountPaisa : Z
}.

Inductive Status := active | blocked | deleted | reported.

(** [blockedBy], [blockedAt], [deletedBy] and the timestamps are written by
    the block controller and by Mongoose only; no operation modelled here
    reads or writes them, and they are left out. *)
Record t := mk {
  _id : ObjectId;
  participants : list Participant;
  initiator : option ObjectId;
  messageRequest : ObjectId;
  isAnonymous : bool;
  lastMessage : option LastMessage;
  messageCount : Z;
  initiatorMessageCount : Z;
  initiatorPaidCycles : Z;
  lastMessagePayment : option Payment;
  mutualRevealRequested : bool;
  revealRequestedBy : option ObjectId;
  revealRequestedAt : option Date;
  status : Status
}.

(** Field assignments. *)

Definition set_revealed (at_ : Date) (fields : list string) (p : Participant) : Participant :=
  mkParticipant (user p) true (Some at_) fields (isMuted p) (mutedUntil p)
                (isArchived p) (archivedAt p) (lastReadAt p) (unreadCount p).

Definition set_muted (m : bool) (until : option Date) (p : Participant) : Participant :=
  mkParticipant (user p) (isRevealed p) (revealedAt p) (revealedFields p) m until
                (isArchived p) (archivedAt p) (lastReadAt p) (unreadCount p).

Definition set_archived (a : bool) (at_ : option Date) (p : Participant) : Participant :=
  mkParticipant (user p) (isRevealed p) (revealedAt p) (revealedFields p) (isMuted p)
                (mutedUntil p) a at_ (lastReadAt p) (unreadCount p).

Definition set_read (at_ : Date) (p : Participant) : Participant :=
  mkParticipant (user p) (isRevealed p) (revealedAt p) (revealedFields p) (isMuted p)
                (mutedUntil p) (isArchived p) (archivedAt p) (Some at_) 0.

Definition set_unreadCount (n : Z) (p : Participant) : Participant :=
  mkParticipant (user p) (isRevealed p) (revealedAt p) (revealedFields p) (isMuted p)
                (mutedUntil p) (isArchived p) (archivedAt p) (lastReadAt p) n.

Definition set_participants (ps : list Participant) (c : t) : t :=
  mk (_id c) ps (initiator c) (messageRequest c) (isAnonymous c) (lastMessage c)
     (messageCount c) (initiatorMessageCount c) (initiatorPaidCycles c)
     (lastMessagePayment c) (mutualRevealRequested c) (revealRequestedBy c)
     (revealRequestedAt c) (status c).

Definition set_isAnonymous (b : bool) (c : t) : t :=
  mk (_id c) (participants c) (initiator c) (messageRequest c) b (lastMessage c)
     (messageCount c) (initiatorMessageCount c) (initiatorPaidCycles c)
     (lastMessagePayment c) (mutualRevealRequested c) (revealRequestedBy c)
     (revealRequestedAt c) (status c).

Definition set_lastMessage (m : LastMessage) (c : t) : t :=
  mk (_id c) (participants c) (initiator c) (messageRequest c) (isAnonymous c) (Some m)
     (messageCount c) (initiatorMessageCount c) (initiatorPaidCycles c)
     (lastMessagePayment c) (mutualRevealRequested c) (revealRequestedBy c)
     (revealRequestedAt c) (status c).

Definition set_messageCount (n : Z) (c : t) : t :=
  mk (_id c) (participants c) (initiator c) (messageRequest c) (isAnonymous c)
     (lastMessage c) n (initiatorMessageCount c) (initiatorPaidCycles c)
     (lastMessagePayment c) (mutualRevealRequested c) (revealRequestedBy c)
     (revealRequestedAt c) (status c).

Definition set_initiatorMessageCount (n : Z) (c : t) : t :=
  mk (_id c) (participants c) (initiator c) (messageRequest c) (isAnonymous c)
     (lastMessage c) (messageCount c) n (initiatorPaidCycles c)
     (lastMessagePayment c) (mutualRevealRequested c) (revealRequestedBy c)
     (revealRequestedAt c) (status c).

Definition set_payment (cycles : Z) (p : Payment) (c : t) : t :=
  mk (_id c) (participants c) (initiator c) (messageRequest c) (isAnonymous c)
     (lastMessage c) (messageCount c) (initiatorMessageCount c) cycles
     (Some p) (mutualRevealRequested c) (revealRequestedBy c)
     (revealRequestedAt c) (status c).

Definition set_revealRequest (by_ : ObjectId) (at_ : Date) (c : t) : t :=
  mk (_id c) (participants c) (initiator c) (messageRequest c) (isAnonymous c)
     (lastMessage c) (messageCount c) (initiatorMessageCount c) (initiatorPaidCycles c)
     (lastMessagePayment c) true (Some by_) (Some at_) (status c).

(** [getOtherParticipant]: the first participant whose user differs. *)
Definition getOtherParticipant (c : t) (userId : ObjectId) : option Participant :=
  find (fun p => negb (user p =? userId)) (participants c).

Definition getParticipantData (c : t) (userId : ObjectId) : option Participant :=
  find (fun p => user p =? userId) (participants c).

Definition isUserRevealed (c : t) (userId : ObjectId) : bool :=
  match getParticipantData c userId with
  | Some p => isRevealed p
  | None => false
  end.

Definition revealIdentity (c : t) (userId : ObjectId) (fieldsToReveal : list string)
           (now : Date) : result t :=
  match findIndex (fun p => user p =? userId) (participants c) with
  | None => Err "User is not a participant in this conversation"
  | Some participantIndex =>
      let c1 := set_participants
                  (update_nth participantIndex (set_revealed now fieldsToReveal)
                              (participants c)) c in
      let allRevealed := forallb isRevealed (participants c1) in
      Ok (if allRevealed then set_isAnonymous false c1 else c1)
  end.

Definition updateLastMessage (c : t) (content_ : string) (senderId_ : ObjectId)
           (type_ : MessageType) (now : Date) : t :=
  let c1 := set_lastMessage (mkLastMessage (substring 0 100 content_) senderId_ now type_) c in
  let c2 := set_messageCount (messageCount c1 + 1) c1 in
  let isInitiator :=
    match initiator c2 with
    | Some i => i =? senderId_
    | None => false
    end in
  let c3 :=
    if isInitiator then
      let initiatorParticipant := find (fun p => user p =? senderId_) (participants c2) in
      let initiatorRevealed :=
        match initiatorParticipant with
        | Some p => isRevealed p
        | None => false
        end in
      if negb initiatorRevealed
      then set_initiatorMessageCount (or_zero (initiatorMessageCount c2) + 1) c2
      else c2
    else c2 in
  set_participants
    (map (fun p => if negb (user p =? senderId_)
                   then set_unreadCount (unreadCount p + 1) p
                   else p)
         (participants c3)) c3.

Definition initiatorNeedsToPay (c : t) (freeMessageLimit : Z) : bool :=
  match initiator c with
  | None => false
  | Some initiatorId =>
      let initiatorParticipant := find (fun p => user p =? initiatorId) (participants c) in
      let initiatorRevealed :=
        match initiatorParticipant with
        | Some p => isRevealed p
        | None => false
        end in
      if initiatorRevealed then false
      else
        let paidCycles := or_zero (initiatorPaidCycles c) in
        let allowedMessages := freeMessageLimit * (paidCycles + 1) in
        let currentCount := or_zero (initiatorMessageCount c) in
        allowedMessages <=? currentCount
  end.

Definition recordMessagePayment (c : t) (paymentId_ orderId_ : string) (amountPaisa_ : Z)
           (now : Date) : t :=
  set_payment (or_zero (initiatorPaidCycles c) + 1)
              (mkPayment paymentId_ orderId_ now amountPaisa_) c.

Record Stats := mkStats {
  stats_isRevealed : bool;
  needsToPay : bool;
  currentCount : Z;
  limitPerCycle : Z;
  paidCycles : Z;
  (** [None] is JavaScript's [Infinity]. *)
  messagesUntilPayment : option Z
}.

Definition getInitiatorMessageStats (c : t) (freeMessageLimit : Z) : option Stats :=
  match initiator c with
  | None => None
  | Some initiatorId =>
      let initiatorParticipant := find (fun p => user p =? initiatorId) (participants c) in
      let initiatorRevealed :=
        match initiatorParticipant with
        | Some p => isRevealed p
        | None => false
        end in
      if initiatorRevealed then
        Some (mkStats true false 0 freeMessageLimit 0 None)
      else
        let paidCycles_ := or_zero (initiatorPaidCycles c) in
        let currentCount_ := or_zero (initiatorMessageCount c) in
        let allowedMessages := freeMessageLimit * (paidCycles_ + 1) in
        Some (mkStats false (allowedMessages <=? currentCount_) currentCount_
                      freeMessageLimit paidCycles_
                      (Some (Z.max 0 (allowedMessages - currentCount_))))
  end.

Definition markAsRead (c : t) (userId : ObjectId) (now : Date) : t :=
  match findIndex (fun p => user p =? userId) (participants c) with
  | Some participantIndex =>
      set_participants (update_nth participantIndex (set_read now) (participants c)) c
  | None => c
  end.

(** [duration] is [None] for the default [null]; a duration of 0 is falsy. *)
Definition muteForUser (c : t) (userId : ObjectId) (duration : option Z) (now : Date) : t :=
  match findIndex (fun p => user p =? userId) (participants c) with
  | Some participantIndex =>
      let mute p :=
        match duration with
        | Some d => if d =? 0 then set_muted true (mutedUntil p) p
                    else set_muted true (Some (now + d)) p
        | None => set_muted true (mutedUntil p) p
        end in
      set_participants (update_nth participantIndex mute (participants c)) c
  | None => c
  end.

Definition archiveForUser (c : t) (userId : ObjectId) (now : Date) : t :=
  match findIndex (fun p => user p =? userId) (participants c) with
  | Some participantIndex =>
      set_participants
        (update_nth participantIndex (set_archived true (Some now)) (participants c)) c
  | None => c
  end.

End Conversation.

(** [Model.updateMany(filter, update)] over a collection. *)
Definition updateMany {A : Type} (filter_ : A -> bool) (update : A -> A) (l : list A)
  : list A :=
  map (fun d => if filter_ d then update d else d) l.

(** [_id: { $in: ids }]. *)
Definition id_in (ids : list ObjectId) (i : ObjectId) : bool :=
  existsb (Z.eqb i) ids.

(** String.prototype.trim, on the ASCII white space characters. *)
Definition is_space (c : ascii) : bool :=
  let n := nat_of_ascii c in
  ((n =? 32) || (n =? 9) || (n =? 10) || (n =? 11) || (n =? 12) || (n =? 13))%nat.

Fixpoint trim_left (s : string) : string :=
  match s with
  | String c r => if is_space c then trim_left r else s
  | EmptyString => EmptyString
  end.

Fixpoint trim_right (s : string) : string :=
  match s with
  | String c r =>
      match trim_right r with
      | EmptyString => if is_space c then EmptyString else String c EmptyString
      | r' => String c r'
      end
  | EmptyString => EmptyString
  end.

Definition trim (s : string) : string := trim_right (trim_left s).

Definition str_length (s : string) : Z := Z.of_nat (String.length s).

(** ** models/Message.js *)

Module Message.

Inductive DeliveryStatus := sent | delivered | read | failed.

Definition DeliveryStatus_eqb (a b : DeliveryStatus) : bool :=
  match a, b with
  | sent, sent | delivered, delivered | read, read | failed, failed => true
  | _, _ => false
  end.

(** The fields the send / read / delivery paths touch; reactions, edit and
    delete fields are left out, no modelled operation reads or writes them. *)
Record t := mk {
  _id : ObjectId;
  conversation : ObjectId;
  sender : ObjectId;
  recipient : ObjectId;
  content : string;
  type : MessageType;
  isRead : bool;
  readAt : option Date;
  deliveryStatus : DeliveryStatus;
  deliveredAt : option Date;
  replyTo : option ObjectId;
  createdAt : Date
}.

Definition set_read (at_ : Date) (m : t) : t :=
  mk (_id m) (conversation m) (sender m) (recipient m) (content m) (type m)
     true (Some at_) read (deliveredAt m) (replyTo m) (createdAt m).

Definition set_delivered (at_ : Date) (m : t) : t :=
  mk (_id m) (conversation m) (sender m) (recipient m) (content m) (type m)
     (isRead m) (readAt m) delivered (Some at_) (replyTo m) (createdAt m).

(** Schema validation run by [Message.create]: [content] is trimmed, it is
    required for a text message and holds at most 2000 characters. *)
Definition validate (content_ : string) (type_ : MessageType) : result string :=
  let c := trim content_ in
  match type_, c with
  | text, EmptyString => Err "Path `content` is required."
  | _, _ => if 2000 <? str_length c
            then Err "Message cannot exceed 2000 characters"
            else Ok c
  end.

Definition markAsRead (m : t) (now : Date) : t :=
  if negb (isRead m) then set_read now m else m.

Definition markAsDelivered (m : t) (now : Date) : t :=
  if DeliveryStatus_eqb (deliveryStatus m) sent then set_delivered now m else m.

Definition markAllAsRead (ms : list t) (conversationId userId : ObjectId) (now : Date)
  : list t :=
  updateMany (fun m => (conversation m =? conversationId) && (recipient m =? userId)
                       && negb (isRead m))
             (set_read now) ms.

End Message.

(** ** models/MessageRequest.js *)

Module MessageRequest.

Inductive Status := pending | accepted | rejected | expired | cancelled.

Definition Status_eqb (a b : Status) : bool :=
  match a, b with
  | pending, pending | accepted, accepted | rejected, rejected
  | expired, expired | cancelled, cancelled => true
  | _, _ => false
  end.

Inductive Source := profile_link | search | discovery_feed | qr_code.

Record t := mk {
  _id : ObjectId;
  sender : ObjectId;
  recipient : ObjectId;
  initialMessage : string;
  status : Status;
  isAnonymous : bool;
  source : Source;
  conversation : option ObjectId;
  expiresAt : Date;
  acceptedAt : option Date;
  rejectedAt : option Date;
  cancelledAt : option Date;
  isReadByRecipient : bool;
  readAt : option Date;
  isPriority : bool;
  createdAt : Date
}.

Definition set_status (s : Status) (r : t) : t :=
  mk (_id r) (sender r) (recipient r) (initialMessage r) s (isAnonymous r) (source r)
     (conversation r) (expiresAt r) (acceptedAt r) (rejectedAt r) (cancelledAt r)
     (isReadByRecipient r) (readAt r) (isPriority r) (createdAt r).

Definition set_accepted (at_ : Date) (conversationId : ObjectId) (r : t) : t :=
  mk (_id r) (sender r) (recipient r) (initialMessage r) accepted (isAnonymous r)
     (source r) (Some conversationId) (expiresAt r) (Some at_) (rejectedAt r)
     (cancelledAt r) (isReadByRecipient r) (readAt r) (isPriority r) (createdAt r).

Definition set_rejected (at_ : Date) (r : t) : t :=
  mk (_id r) (sender r) (recipient r) (initialMessage r) rejected (isAnonymous r)
     (source r) (conversation r) (expiresAt r) (acceptedAt r) (Some at_)
     (cancelledAt r) (isReadByRecipient r) (readAt r) (isPriority r) (createdAt r).

Definition set_cancelled (at_ : Date) (r : t) : t :=
  mk (_id r) (sender r) (recipient r) (initialMessage r) cancelled (isAnonymous r)
     (source r) (conversation r) (expiresAt r) (acceptedAt r) (rejectedAt r)
     (Some at_) (isReadByRecipient r) (readAt r) (isPriority r) (createdAt r).

Definition set_readByRecipient (at_ : Date) (r : t) : t :=
  mk (_id r) (sender r) (recipient r) (initialMessage r) (status r) (isAnonymous r)
     (source r) (conversation r) (expiresAt r) (acceptedAt r) (rejectedAt r)
     (cancelledAt r) true (Some at_) (isPriority r) (createdAt r).

(** The [isExpired] virtual. *)
Definition isExpired (r : t) (now : Date) : bool :=
  Status_eqb (status r) pending && (expiresAt r <? now).

(** [pre('save')]: a pending request past its expiry is saved as expired. *)
Definition preSave (r : t) (now : Date) : t :=
  if Status_eqb (status r) pending && (expiresAt r <? now)
  then set_status expired r
  else r.

Definition accept (r : t) (conversationId : ObjectId) (now : Date) : t :=
  preSave (set_accepted now conversationId r) now.

Definition reject (r : t) (now : Date) : t :=
  preSave (set_rejected now r) now.

Definition cancel (r : t) (now : Date) : result t :=
  if negb (Status_eqb (status r) pending)
  then Err "Can only cancel pending requests"
  else Ok (preSave (set_cancelled now r) now).

Definition markAsRead (r : t) (now : Date) : t :=
  if negb (isReadByRecipient r) then preSave (set_readByRecipient now r) now else r.

Definition between (userId1 userId2 : ObjectId) (r : t) : bool :=
  ((sender r =? userId1) && (recipient r =? userId2))
  || ((sender r =? userId2) && (recipient r =? userId1)).

Definition is_active (r : t) : bool :=
  Status_eqb (status r) pending || Status_eqb (status r) accepted.

Definition existsBetweenUsers (rs : list t) (userId1 userId2 : ObjectId) : option t :=
  find (fun r => between userId1 userId2 r && is_active r) rs.

Definition expireOldRequests (rs : list t) (now : Date) : list t :=
  updateMany (fun r => Status_eqb (status r) pending && (expiresAt r <? now))
             (set_status expired) rs.

(** [startOfDay.setHours(0, 0, 0, 0)]: midnight of the server's local day;
    [tzOffset] is the server's offset east of UTC in milliseconds. *)
Definition startOfDay (tzOffset : Z) (now : Date) : Date :=
  now - ((now + tzOffset) mod 86400000).

Definition countTodayRequestsBySender (rs : list t) (userId : ObjectId)
           (tzOffset : Z) (now : Date) : Z :=
  let startOfDay_ := startOfDay tzOffset now in
  Z.of_nat (List.length
              (filter (fun r => (sender r =? userId) && (startOfDay_ <=? createdAt r)) rs)).

(** Schema validation run by [MessageRequest.create]: [initialMessage] is
    trimmed, required, and holds at most 500 characters. *)
Definition validate (initialMessage_ : string) : result string :=
  match trim initialMessage_ with
  | EmptyString => Err "Initial message is required"
  | m => if 500 <? str_length m
         then Err "Message cannot exceed 500 characters"
         else Ok m
  end.

(** The unique index on (sender, recipient). *)
Definition duplicate_key (rs : list t) (sender_ recipient_ : ObjectId) : bool :=
  existsb (fun r => (sender r =? sender_) && (recipient r =? recipient_)) rs.

End MessageRequest.

(** ** models/PurchasedPack.js *)

Module PurchasedPack.

Inductive Status := active | exhausted | expired | refunded | failed.

Definition Status_eqb (a b : Status) : bool :=
  match a, b with
  | active, active | exhausted, exhausted | expired, expired
  | refunded, refunded | failed, failed => true
  | _, _ => false
  end.

Record t := mk {
  _id : ObjectId;
  user : ObjectId;
  packId : string;
  requestCount : Z;
  requestsUsed : Z;
  requestsRemaining : Z;
  pricePaid : Z;
  orderId : string;
  paymentId : string;
  status : Status;
  expiresAt : Date;
  purchasedAt : Date
}.

Definition set_usage (used remaining : Z) (s : Status) (p : t) : t :=
  mk (_id p) (user p) (packId p) (requestCount p) used remaining (pricePaid p)
     (orderId p) (paymentId p) s (expiresAt p) (purchasedAt p).

Definition useRequests (p : t) (count : Z) : result t :=
  if negb (Status_eqb (status p) active) then Err "Pack is not active"
  else if requestsRemaining p <? count then Err "Not enough requests in pack"
  else
    let used := requestsUsed p + count in
    let remaining := requestsRemaining p - count in
    Ok (set_usage used remaining
                  (if remaining =? 0 then exhausted else status p) p).

(** [.sort({ expiresAt: 1 })]: ascending, ties in collection order. *)
Fixpoint insert_by_expiry (p : t) (l : list t) : list t :=
  match l with
  | [] => [p]
  | q :: r => if expiresAt p <=? expiresAt q then p :: l
              else q :: insert_by_expiry p r
  end.

Fixpoint sort_by_expiry (l : list t) : list t :=
  match l with
  | [] => []
  | p :: r => insert_by_expiry p (sort_by_expiry r)
  end.

Definition usable (userId : ObjectId) (now : Date) (p : t) : bool :=
  (user p =? userId) && Status_eqb (status p) active && (now <? expiresAt p).

Definition getActivePacks (ps : list t) (userId : ObjectId) (now : Date) : list t :=
  sort_by_expiry (filter (usable userId now) ps).

Definition getTotalRemainingRequests (ps : list t) (userId : ObjectId) (now : Date) : Z :=
  fold_right (fun p acc => requestsRemaining p + acc) 0 (filter (usable userId now) ps).

(** [pack.save()]: the stored document with the pack's [_id] is replaced. *)
Definition save (ps : list t) (p : t) : list t :=
  map (fun q => if _id q =? _id p then p else q) ps.

(** The [for (const pack of packs)] loop of [useFromPacks]; the collection is
    threaded through because every [useRequests] saves its pack.  The result
    is the final value of [remaining], or the error a [useRequests] threw. *)
Fixpoint useFromPacks_loop (ps : list t) (packs : list t) (remaining : Z)
  : list t * result Z :=
  match packs with
  | [] => (ps, Ok remaining)
  | pack :: rest =>
      if remaining <=? 0 then (ps, Ok remaining)
      else
        let toUse := Z.min remaining (requestsRemaining pack) in
        match useRequests pack toUse with
        | Err e => (ps, Err e)
        | Ok pack' => useFromPacks_loop (save ps pack') rest (remaining - toUse)
        end
  end.

Definition useFromPacks (ps : list t) (userId : ObjectId) (count : Z) (now : Date)
  : list t * result bool :=
  let packs := getActivePacks ps userId now in
  match useFromPacks_loop ps packs count with
  | (ps', Err e) => (ps', Err e)
  | (ps', Ok remaining) =>
      if 0 <? remaining then (ps', Err "Not enough purchased requests")
      else (ps', Ok true)
  end.

Definition expireOldPacks (ps : list t) (now : Date) : list t :=
  updateMany (fun p => Status_eqb (status p) active && (expiresAt p <? now))
             (fun p => set_usage (requestsUsed p) (requestsRemaining p) expired p) ps.

End PurchasedPack.

(** ** Collaborators: users, profiles, blocks, configuration, payment provider *)

Definition lower_ascii (c : ascii) : ascii :=
  let n := nat_of_ascii c in
  if ((65 <=? n) && (n <=? 90))%nat then ascii_of_nat (n + 32) else c.

Fixpoint toLowerCase (s : string) : string :=
  match s with
  | String c r => String (lower_ascii c) (toLowerCase r)
  | EmptyString => EmptyString
  end.

(** Truthiness of an optional string field such as [college?.name]. *)
Definition truthy (o : option string) : bool :=
  match o with
  | Some s => negb (String.eqb s "")
  | None => false
  end.

Definition same_text (a b : option string) : bool :=
  match a, b with
  | Some x, Some y => String.eqb (toLowerCase x) (toLowerCase y)
  | _, _ => false
  end.

Module User.
Inductive AccountStatus := active | suspended | deleted.
Record t := mk {
  _id : ObjectId;
  accountStatus : AccountStatus
}.
Definition is_active (u : t) : bool :=
  match accountStatus u with active => true | _ => false end.
Definition findById (us : list t) (id : ObjectId) : option t :=
  find (fun u => _id u =? id) us.
End User.

Module Profile.
Inductive AllowFrom := anyone | restricted.
Record MessagePreferences := mkPrefs {
  allowFrom : AllowFrom;
  sameCollege : bool;
  sameWorkplace : bool;
  sameLocation : bool
}.
Record t := mk {
  user : ObjectId;
  name : option string;
  isBanned : bool;
  allowAnonymousMessages : bool;
  messagePreferences : option MessagePreferences;
  college_name : option string;
  workplace_company : option string;
  location_city : option string;
  requestsReceived : Z;
  requestsSent : Z
}.
Definition findOne (ps : list t) (userId : ObjectId) : option t :=
  find (fun p => user p =? userId) ps.
Definition bump_sent (p : t) : t :=
  mk (user p) (name p) (isBanned p) (allowAnonymousMessages p) (messagePreferences p)
     (college_name p) (workplace_company p) (location_city p)
     (requestsReceived p) (requestsSent p + 1).
Definition bump_received (p : t) : t :=
  mk (user p) (name p) (isBanned p) (allowAnonymousMessages p) (messagePreferences p)
     (college_name p) (workplace_company p) (location_city p)
     (requestsReceived p + 1) (requestsSent p).
(** [profile.save()]: the first stored profile of the user is replaced. *)
Fixpoint save (ps : list t) (p : t) : list t :=
  match ps with
  | [] => []
  | q :: r => if user q =? user p then p :: r else q :: save r p
  end.
End Profile.

Module Block.
Record t := mk {
  blocker : ObjectId;
  blocked : ObjectId
}.
Definition hasBlockBetween (bs : list t) (userId1 userId2 : ObjectId) : bool :=
  existsb (fun b => ((blocker b =? userId1) && (blocked b =? userId2))
                    || ((blocker b =? userId2) && (blocked b =? userId1))) bs.
End Block.

Module AppConfig.
Record UnrevealedChatPayment := mkUnrevealed {
  isEnabled : bool;
  freeMessageLimit : Z;
  pricePerMessageInPaisa : Z;
  priceDisplay : string
}.
Record MicroPayments := mkMicro {
  packsEnabled : bool;
  dailyFreeRequests : Z;
  unrevealedChatPayment : option UnrevealedChatPayment
}.
Record t := mk {
  microPayments : MicroPayments
}.
(** The fallback object of [sendMessage] and the schema defaults agree. *)
Definition defaultUnrevealed : UnrevealedChatPayment :=
  mkUnrevealed true 100 200 "₹2".
End AppConfig.

(** [config/razorpay] is not part of the sources read here; the provider is a
    parameter of every handler that calls it. *)
Module PaymentProvider.
Record PaymentDetails := mkDetails {
  status : string;
  amount : Z
}.
Record t := mk {
  verifyPayment : string -> string -> string -> bool;
  getPaymentDetails : string -> result PaymentDetails
}.
End PaymentProvider.

(** The process environment. *)
Record Env := mkEnv {
  tzOffset : Z;
  MESSAGE_REQUEST_EXPIRY_DAYS : option Z;
  razorpay : PaymentProvider.t
}.

(** The database: one list per collection, in insertion order. *)
Record DB := mkDB {
  users : list User.t;
  profiles : list Profile.t;
  blocks : list Block.t;
  requests : list MessageRequest.t;
  conversations : list Conversation.t;
  messages : list Message.t;
  packs : list PurchasedPack.t;
  config : AppConfig.t;
  (** the next fresh ObjectId *)
  nextId : ObjectId
}.

Definition set_requests (rs : list MessageRequest.t) (db : DB) : DB :=
  mkDB (users db) (profiles db) (blocks db) rs (conversations db) (messages db)
       (packs db) (config db) (nextId db).

Definition set_profiles (ps : list Profile.t) (db : DB) : DB :=
  mkDB (users db) ps (blocks db) (requests db) (conversations db) (messages db)
       (packs db) (config db) (nextId db).

Definition set_conversations (cs : list Conversation.t) (db : DB) : DB :=
  mkDB (users db) (profiles db) (blocks db) (requests db) cs (messages db)
       (packs db) (config db) (nextId db).

Definition set_messages (ms : list Message.t) (db : DB) : DB :=
  mkDB (users db) (profiles db) (blocks db) (requests db) (conversations db) ms
       (packs db) (config db) (nextId db).

Definition set_packs (ps : list PurchasedPack.t) (db : DB) : DB :=
  mkDB (users db) (profiles db) (blocks db) (requests db) (conversations db)
       (messages db) ps (config db) (nextId db).

Definition bump_id (db : DB) : DB :=
  mkDB (users db) (profiles db) (blocks db) (requests db) (conversations db)
       (messages db) (packs db) (config db) (nextId db + 1).

(** [doc.save()] on the two collections: the document with that [_id] is
    replaced. *)
Definition save_request (db : DB) (r : MessageRequest.t) : DB :=
  set_requests
    (map (fun q => if MessageRequest._id q =? MessageRequest._id r then r else q)
         (requests db)) db.

Definition save_conversation (db : DB) (c : Conversation.t) : DB :=
  set_conversations
    (map (fun q => if Conversation._id q =? Conversation._id c then c else q)
         (conversations db)) db.

(** [Message.create]: validation, then insertion under a fresh id. *)
Definition create_message (db : DB) (conversationId sender_ recipient_ : ObjectId)
           (content_ : string) (type_ : MessageType) (replyTo_ : option ObjectId)
           (now : Date) : result (DB * Message.t) :=
  match Message.validate content_ type_ with
  | Err e => Err e
  | Ok c =>
      let m := Message.mk (nextId db) conversationId sender_ recipient_ c type_
                          false None Message.sent None replyTo_ now in
      Ok (bump_id (set_messages (messages db ++ [m]) db), m)
  end.

Module ApiResponse.
Record PaymentRequired := mkPaymentRequired {
  reason : string;
  priceInPaisa : Z;
  priceDisplay : string;
  freeMessageLimit : Z;
  currentCount : Z;
  paidCycles : Z;
  allowedMessages : Z;
  conversationId : ObjectId
}.
Inductive t :=
| success (message : string)
| created (message : string)
| badRequest (message : string)
| paymentRequired (payload : PaymentRequired)
| forbidden (message : string)
| notFound (message : string)
| conflict (message : string)
(** 429; the message interpolates the daily free limit *)
| tooManyRequests (dailyFreeLimit : Z)
| error (message : string).
End ApiResponse.

(** ** Request handlers: controllers/messageRequestController.js *)

Module RequestController.

Import ApiResponse.

Definition join_or (reasons : list string) : string :=
  String.concat " or " reasons.

(** The [allowFrom === 'restricted'] block of [sendRequest]; [Some text] is
    the 403 it returns, [None] lets the request through. *)
Definition preferenceRejection (recipientProfile : Profile.t)
           (senderProfile : option Profile.t) : option string :=
  match Profile.messagePreferences recipientProfile with
  | Some msgPrefs =>
      match Profile.allowFrom msgPrefs with
      | Profile.restricted =>
          match senderProfile with
          | Some sp =>
              let college :=
                Profile.sameCollege msgPrefs
                && truthy (Profile.college_name sp)
                && truthy (Profile.college_name recipientProfile)
                && same_text (Profile.college_name sp)
                             (Profile.college_name recipientProfile) in
              let workplace :=
                Profile.sameWorkplace msgPrefs
                && truthy (Profile.workplace_company sp)
                && truthy (Profile.workplace_company recipientProfile)
                && same_text (Profile.workplace_company sp)
                             (Profile.workplace_company recipientProfile) in
              let location :=
                Profile.sameLocation msgPrefs
                && truthy (Profile.location_city sp)
                && truthy (Profile.location_city recipientProfile)
                && same_text (Profile.location_city sp)
                             (Profile.location_city recipientProfile) in
              let canMessage := college || workplace || location in
              if negb canMessage then
                let reasons :=
                  ((if Profile.sameCollege msgPrefs then ["same college"] else [])
                   ++ (if Profile.sameWorkplace msgPrefs then ["same workplace"] else [])
                   ++ (if Profile.sameLocation msgPrefs then ["same location"] else []))%list in
                Some (match reasons with
                      | [] => "This user has restricted who can message them."
                      | _ => ("This user only accepts messages from people with "
                              ++ join_or reasons ++ ".")%string
                      end)
              else None
          | None =>
              if Profile.sameCollege msgPrefs || Profile.sameWorkplace msgPrefs
                 || Profile.sameLocation msgPrefs
              then Some "Please complete your profile to message this user."
              else None
          end
      | Profile.anyone => None
      end
  | None => None
  end.

(** [parseInt(process.env.MESSAGE_REQUEST_EXPIRY_DAYS) || 7]. *)
Definition expiryDays (env : Env) : Z :=
  match MESSAGE_REQUEST_EXPIRY_DAYS env with
  | Some d => if d =? 0 then 7 else d
  | None => 7
  end.

(** [sendRequest] from the daily limit check on. *)
Definition sendRequest_checked (env : Env) (db : DB) (senderId recipientId : ObjectId)
           (message : string) (source : MessageRequest.Source) (isAnonymous : bool)
           (recipientProfile : Profile.t) (now : Date) : DB * ApiResponse.t :=
  let dailyFreeLimit := AppConfig.dailyFreeRequests (AppConfig.microPayments (config db)) in
  let todayRequests :=
    MessageRequest.countTodayRequestsBySender (requests db) senderId (tzOffset env) now in
  if dailyFreeLimit <=? todayRequests then (db, tooManyRequests dailyFreeLimit)
  else if isAnonymous && negb (Profile.allowAnonymousMessages recipientProfile)
  then (db, forbidden "This user does not accept anonymous messages")
  else
    let senderProfile := Profile.findOne (profiles db) senderId in
    match preferenceRejection recipientProfile senderProfile with
    | Some reasonText => (db, forbidden reasonText)
    | None =>
        match MessageRequest.validate message with
        | Err _ => (db, error "Error sending request")
        | Ok initialMessage =>
            if MessageRequest.duplicate_key (requests db) senderId recipientId
            then (db, error "Error sending request")
            else
              let request :=
                MessageRequest.mk (nextId db) senderId recipientId initialMessage
                                  MessageRequest.pending isAnonymous source None
                                  (now + expiryDays env * 24 * 60 * 60 * 1000)
                                  None None None false None false now in
              let db1 := bump_id (set_requests (requests db ++ [request]) db) in
              let db2 :=
                match senderProfile with
                | Some sp => set_profiles (Profile.save (profiles db1) (Profile.bump_sent sp)) db1
                | None => db1
                end in
              let db3 :=
                set_profiles (Profile.save (profiles db2)
                                           (Profile.bump_received recipientProfile)) db2 in
              (db3, created "Request sent successfully")
        end
    end.

(** [sendRequest] on the recipient's ObjectId: the call for a [recipientId]
    sent in the printed form of an id, with an expiry setting that is not
    negative, run from its first database operation to its last.
    [Async.sendRequest] is the handler on the text of the body, with its
    [await]s. *)
Definition sendRequest (env : Env) (db : DB) (senderId recipientId : ObjectId)
           (message : string) (source : MessageRequest.Source) (isAnonymous : bool)
           (now : Date) : DB * ApiResponse.t :=
  if senderId =? recipientId then (db, badRequest "Cannot send request to yourself")
  else
    match User.findById (users db) recipientId with
    | None => (db, notFound "User not found")
    | Some recipient =>
        if negb (User.is_active recipient) then (db, notFound "User not found")
        else
          match Profile.findOne (profiles db) recipientId with
          | None => (db, notFound "User not found")
          | Some recipientProfile =>
              if Profile.isBanned recipientProfile then (db, notFound "User not found")
              else if Block.hasBlockBetween (blocks db) senderId recipientId
              then (db, forbidden "Unable to send request to this user")
              else
                let continue :=
                  sendRequest_checked env db senderId recipientId message source
                                      isAnonymous recipientProfile now in
                match MessageRequest.existsBetweenUsers (requests db) senderId recipientId with
                | Some existingRequest =>
                    match MessageRequest.status existingRequest with
                    | MessageRequest.pending =>
                        (db, conflict "A request already exists with this user")
                    | MessageRequest.accepted =>
                        (db, conflict "You already have a conversation with this user")
                    | _ => continue
                    end
                | None => continue
                end
          end
    end.

(** The document [acceptRequest] hands to [Conversation.create]; the schema
    defaults fill the other fields. *)
Definition newConversation (id : ObjectId) (request : MessageRequest.t)
           (senderId userId : ObjectId) : Conversation.t :=
  Conversation.mk
    id
    [ Conversation.mkParticipant senderId (negb (MessageRequest.isAnonymous request))
        None [] false None false None None 0;
      Conversation.mkParticipant userId true None [] false None false None None 0 ]
    (Some senderId)
    (MessageRequest._id request)
    (MessageRequest.isAnonymous request)
    None 0 0 0 None false None None Conversation.active.

(** [MessageRequest.findOne({ _id: id, recipient: userId, status: 'pending' })]. *)
Definition findPendingFor (db : DB) (id userId : ObjectId) : option MessageRequest.t :=
  find (fun r => (MessageRequest._id r =? id) && (MessageRequest.recipient r =? userId)
                 && MessageRequest.Status_eqb (MessageRequest.status r) MessageRequest.pending)
       (requests db).

Definition acceptRequest (db : DB) (userId id : ObjectId) (now : Date)
  : DB * ApiResponse.t :=
  match findPendingFor db id userId with
  | None => (db, notFound "Request not found or already processed")
  | Some request =>
      if MessageRequest.expiresAt request <? now then
        let expired := MessageRequest.preSave
                         (MessageRequest.set_status MessageRequest.expired request) now in
        (save_request db expired, badRequest "Request has expired")
      else
        (* populate('sender'): a missing user leaves [request.sender] null *)
        match User.findById (users db) (MessageRequest.sender request) with
        | None => (db, error "Error accepting request")
        | Some sender =>
            let conversation :=
              newConversation (nextId db) request (User._id sender) userId in
            let db1 := bump_id (set_conversations (conversations db ++ [conversation]) db) in
            match create_message db1 (Conversation._id conversation) (User._id sender) userId
                                 (MessageRequest.initialMessage request) text None now with
            | Err _ => (db1, error "Error accepting request")
            | Ok (db2, message) =>
                let conversation' :=
                  Conversation.updateLastMessage conversation
                    (MessageRequest.initialMessage request) (User._id sender) text now in
                let db3 := save_conversation db2 conversation' in
                let db4 := save_request db3
                             (MessageRequest.accept request (Conversation._id conversation) now) in
                (db4, success "Request accepted")
            end
        end
  end.

Definition rejectRequest (db : DB) (userId id : ObjectId) (now : Date)
  : DB * ApiResponse.t :=
  match findPendingFor db id userId with
  | None => (db, notFound "Request not found or already processed")
  | Some request =>
      (save_request db (MessageRequest.reject request now), success "Request rejected")
  end.

Definition cancelRequest (db : DB) (userId id : ObjectId) (now : Date)
  : DB * ApiResponse.t :=
  match find (fun r => (MessageRequest._id r =? id) && (MessageRequest.sender r =? userId)
                       && MessageRequest.Status_eqb (MessageRequest.status r)
                                                    MessageRequest.pending)
             (requests db) with
  | None => (db, notFound "Request not found or cannot be cancelled")
  | Some request =>
      match MessageRequest.cancel request now with
      | Err _ => (db, error "Error cancelling request")
      | Ok request' => (save_request db request', success "Request cancelled")
      end
  end.

Definition markAsRead (db : DB) (userId id : ObjectId) (now : Date)
  : DB * ApiResponse.t :=
  match find (fun r => (MessageRequest._id r =? id) && (MessageRequest.recipient r =? userId))
             (requests db) with
  | None => (db, notFound "Request not found")
  | Some request =>
      (save_request db (MessageRequest.markAsRead request now), success "Marked as read")
  end.

(** The periodic sweep, [MessageRequest.expireOldRequests]. *)
Definition expireOldRequests (db : DB) (now : Date) : DB :=
  set_requests (MessageRequest.expireOldRequests (requests db) now) db.

End RequestController.

(** ** Message handlers: controllers/messageController.js *)

Module MessageController.

Import ApiResponse.

Definition is_active (c : Conversation.t) : bool :=
  match Conversation.status c with Conversation.active => true | _ => false end.

Definition is_participant (c : Conversation.t) (userId : ObjectId) : bool :=
  existsb (fun p => Conversation.user p =? userId) (Conversation.participants c).

(** [Conversation.findOne({ _id, 'participants.user': userId, status: 'active' })]. *)
Definition findActiveFor (db : DB) (conversationId userId : ObjectId)
  : option Conversation.t :=
  find (fun c => (Conversation._id c =? conversationId) && is_participant c userId
                 && is_active c) (conversations db).

(** [Conversation.findOne({ _id, 'participants.user': userId })]. *)
Definition findFor (db : DB) (conversationId userId : ObjectId) : option Conversation.t :=
  find (fun c => (Conversation._id c =? conversationId) && is_participant c userId)
       (conversations db).

Definition findById (db : DB) (conversationId : ObjectId) : option Conversation.t :=
  find (fun c => Conversation._id c =? conversationId) (conversations db).

(** The payment check of [sendMessage], entered when the sender is the
    initiator and the initiator is not revealed: [Some payload] is the 402. *)
Definition paymentCheck (db : DB) (conversation : Conversation.t)
           (conversationId : ObjectId) : option PaymentRequired :=
  let microPayments := AppConfig.microPayments (config db) in
  let unrevealedPayment :=
    match AppConfig.unrevealedChatPayment microPayments with
    | Some u => u
    | None => AppConfig.defaultUnrevealed
    end in
  if AppConfig.isEnabled unrevealedPayment then
    let freeMessageLimit := or_else (AppConfig.freeMessageLimit unrevealedPayment) 100 in
    let currentCount := or_zero (Conversation.initiatorMessageCount conversation) in
    let paidCycles := or_zero (Conversation.initiatorPaidCycles conversation) in
    let allowedMessages := freeMessageLimit * (paidCycles + 1) in
    if allowedMessages <=? currentCount then
      Some (mkPaymentRequired
              "message_limit_reached"
              (or_else (AppConfig.pricePerMessageInPaisa unrevealedPayment) 200)
              (if String.eqb (AppConfig.priceDisplay unrevealedPayment) ""
               then "₹2" else AppConfig.priceDisplay unrevealedPayment)
              freeMessageLimit currentCount paidCycles allowedMessages conversationId)
    else None
  else None.

Definition sendMessage (db : DB) (userId conversationId : ObjectId) (content : string)
           (type : MessageType) (replyTo : option ObjectId) (now : Date)
  : DB * ApiResponse.t :=
  match findActiveFor db conversationId userId with
  | None => (db, notFound "Conversation not found")
  | Some conversation =>
      match Conversation.getOtherParticipant conversation userId with
      | None => (db, error "Error sending message")
      | Some otherParticipant =>
          let recipientId := Conversation.user otherParticipant in
          if Block.hasBlockBetween (blocks db) userId recipientId
          then (db, forbidden "Cannot send message to this user")
          else
            match Conversation.initiator conversation with
            | None => (db, error "Error sending message")
            | Some initiatorId =>
                let isInitiator := initiatorId =? userId in
                let isInitiatorRevealed :=
                  match Conversation.getParticipantData conversation initiatorId with
                  | Some p => Conversation.isRevealed p
                  | None => false
                  end in
                match (if isInitiator && negb isInitiatorRevealed
                       then paymentCheck db conversation conversationId
                       else None) with
                | Some payload => (db, paymentRequired payload)
                | None =>
                    match create_message db conversationId userId recipientId content type
                                         replyTo now with
                    | Err _ => (db, error "Error sending message")
                    | Ok (db1, message) =>
                        let db2 :=
                          save_conversation db1
                            (Conversation.updateLastMessage conversation content userId
                                                            type now) in
                        if negb (Conversation.isMuted otherParticipant) then
                          (* [recipient.oneSignalPlayerId] on a missing user throws *)
                          match User.findById (users db2) recipientId with
                          | None => (db2, error "Error sending message")
                          | Some _ => (db2, created "Message sent")
                          end
                        else (db2, created "Message sent")
                    end
                end
            end
      end
  end.

Definition getMessages (db : DB) (userId conversationId : ObjectId) (now : Date)
  : DB * ApiResponse.t :=
  match findFor db conversationId userId with
  | None => (db, notFound "Conversation not found")
  | Some conversation =>
      let db1 := set_messages (Message.markAllAsRead (messages db) conversationId userId now)
                              db in
      (save_conversation db1 (Conversation.markAsRead conversation userId now),
       success "Success")
  end.

Definition muteConversation (db : DB) (userId conversationId : ObjectId)
           (duration : option Z) (now : Date) : DB * ApiResponse.t :=
  match findFor db conversationId userId with
  | None => (db, notFound "Conversation not found")
  | Some conversation =>
      (save_conversation db (Conversation.muteForUser conversation userId duration now),
       success "Conversation muted")
  end.

(** The in-line mutations of [unmuteConversation] and [unarchiveConversation]. *)
Definition unmute (c : Conversation.t) (userId : ObjectId) : Conversation.t :=
  match findIndex (fun p => Conversation.user p =? userId) (Conversation.participants c) with
  | Some participantIndex =>
      Conversation.set_participants
        (update_nth participantIndex (Conversation.set_muted false None)
                    (Conversation.participants c)) c
  | None => c
  end.

Definition unarchive (c : Conversation.t) (userId : ObjectId) : Conversation.t :=
  match findIndex (fun p => Conversation.user p =? userId) (Conversation.participants c) with
  | Some participantIndex =>
      Conversation.set_participants
        (update_nth participantIndex (Conversation.set_archived false None)
                    (Conversation.participants c)) c
  | None => c
  end.

Definition unmuteConversation (db : DB) (userId conversationId : ObjectId)
  : DB * ApiResponse.t :=
  match findFor db conversationId userId with
  | None => (db, notFound "Conversation not found")
  | Some conversation =>
      (save_conversation db (unmute conversation userId), success "Conversation unmuted")
  end.

Definition archiveConversation (db : DB) (userId conversationId : ObjectId) (now : Date)
  : DB * ApiResponse.t :=
  match findFor db conversationId userId with
  | None => (db, notFound "Conversation not found")
  | Some conversation =>
      (save_conversation db (Conversation.archiveForUser conversation userId now),
       success "Conversation archived")
  end.

Definition unarchiveConversation (db : DB) (userId conversationId : ObjectId)
  : DB * ApiResponse.t :=
  match findFor db conversationId userId with
  | None => (db, notFound "Conversation not found")
  | Some conversation =>
      (save_conversation db (unarchive conversation userId),
       success "Conversation unarchived")
  end.

Definition requestReveal (db : DB) (userId conversationId : ObjectId) (now : Date)
  : DB * ApiResponse.t :=
  match findFor db conversationId userId with
  | None => (db, notFound "Conversation not found")
  | Some conversation =>
      match Conversation.initiator conversation with
      | None => (db, error "Error requesting reveal")
      | Some initiatorId =>
          if initiatorId =? userId
          then (db, forbidden "Only the receiver can request to see identity")
          else
            match Conversation.getOtherParticipant conversation userId with
            | None => (db, error "Unable to find other participant")
            | Some otherParticipant =>
                if Conversation.isRevealed otherParticipant
                then (db, badRequest "Identity is already revealed")
                else
                  let conversation1 := Conversation.set_revealRequest userId now conversation in
                  let db1 := save_conversation db conversation1 in
                  match create_message db1 conversationId userId initiatorId
                                       "wants to see your identity" system None now with
                  | Err _ => (db1, error "Error requesting reveal")
                  | Ok (db2, systemMessage) =>
                      (save_conversation db2
                         (Conversation.updateLastMessage conversation1
                            "wants to see your identity" userId system now),
                       success "Reveal request sent")
                  end
            end
      end
  end.

Definition revealIdentity (db : DB) (userId conversationId : ObjectId)
           (fields : list string) (now : Date) : DB * ApiResponse.t :=
  match findFor db conversationId userId with
  | None => (db, notFound "Conversation not found")
  | Some conversation =>
      match Conversation.initiator conversation with
      | None => (db, error "Error revealing identity")
      | Some initiatorId =>
          if negb (initiatorId =? userId)
          then (db, forbidden "Only the sender can reveal their identity")
          else if Conversation.isUserRevealed conversation userId
          then (db, badRequest "Identity already revealed")
          else
            match Conversation.revealIdentity conversation userId fields now with
            | Err _ => (db, error "Error revealing identity")
            | Ok conversation1 =>
                let db1 := save_conversation db conversation1 in
                let profileName :=
                  match Profile.findOne (profiles db1) userId with
                  | Some p => if truthy (Profile.name p)
                              then match Profile.name p with Some n => n | None => "User" end
                              else "User"
                  | None => "User"
                  end in
                match Conversation.getOtherParticipant conversation1 userId with
                | None => (db1, error "Error revealing identity")
                | Some otherParticipant =>
                    match create_message db1 conversationId userId
                                         (Conversation.user otherParticipant)
                                         (profileName ++ " revealed their identity")%string
                                         reveal None now with
                    | Err _ => (db1, error "Error revealing identity")
                    | Ok (db2, revealMessage) =>
                        (save_conversation db2
                           (Conversation.updateLastMessage conversation1 "Identity revealed"
                                                           userId reveal now),
                         success "Identity revealed successfully")
                    end
                end
            end
      end
  end.

End MessageController.

(** ** Socket.IO handlers: socket/index.js *)

Module Socket.

Inductive Emit :=
| new_message (message : Message.t) (conversationId : ObjectId)
| messages_read (conversationId : ObjectId) (messageIds : list ObjectId)
| messages_delivered (messageIds : list ObjectId)
| error (message : string).

(** [socket.on('send_message')]. *)
Definition send_message (db : DB) (userId conversationId : ObjectId) (content : string)
           (type : MessageType) (replyTo : option ObjectId) (now : Date) : DB * Emit :=
  match MessageController.findActiveFor db conversationId userId with
  | None => (db, error "Conversation not found")
  | Some conversation =>
      match find (fun p => negb (Conversation.user p =? userId))
                 (Conversation.participants conversation) with
      | None => (db, error "Failed to send message")
      | Some otherParticipant =>
          let recipientId := Conversation.user otherParticipant in
          match create_message db conversationId userId recipientId content type replyTo
                               now with
          | Err _ => (db, error "Failed to send message")
          | Ok (db1, message) =>
              (save_conversation db1
                 (Conversation.updateLastMessage conversation content userId type now),
               new_message message conversationId)
          end
      end
  end.

(** The [Message.updateMany] of [socket.on('mark_read')]. *)
Definition mark_read_messages (ms : list Message.t) (userId : ObjectId)
           (messageIds : list ObjectId) (now : Date) : list Message.t :=
  updateMany (fun m => id_in messageIds (Message._id m) && (Message.recipient m =? userId))
             (Message.set_read now) ms.

Definition mark_read (db : DB) (userId conversationId : ObjectId)
           (messageIds : list ObjectId) (now : Date) : DB * Emit :=
  let db1 := set_messages (mark_read_messages (messages db) userId messageIds now) db in
  let db2 :=
    match MessageController.findById db1 conversationId with
    | Some conversation =>
        save_conversation db1 (Conversation.markAsRead conversation userId now)
    | None => db1
    end in
  (db2, messages_read conversationId messageIds).

(** The [Message.updateMany] of [socket.on('mark_delivered')]. *)
Definition mark_delivered_messages (ms : list Message.t) (userId : ObjectId)
           (messageIds : list ObjectId) (now : Date) : list Message.t :=
  updateMany (fun m => id_in messageIds (Message._id m) && (Message.recipient m =? userId)
                       && Message.DeliveryStatus_eqb (Message.deliveryStatus m) Message.sent)
             (Message.set_delivered now) ms.

Definition mark_delivered (db : DB) (userId : ObjectId) (messageIds : list ObjectId)
           (now : Date) : DB * Emit :=
  (set_messages (mark_delivered_messages (messages db) userId messageIds now) db,
   messages_delivered messageIds).

End Socket.

(** ** Purchase handlers: controllers/purchaseController.js *)

Module PurchaseController.

Import ApiResponse.

Definition verifyMessagePayment (env : Env) (db : DB) (userId conversationId : ObjectId)
           (orderId paymentId signature : string) (now : Date) : DB * ApiResponse.t :=
  if String.eqb orderId "" || String.eqb paymentId "" || String.eqb signature ""
  then (db, badRequest "Missing payment details")
  else
    match MessageController.findActiveFor db conversationId userId with
    | None => (db, notFound "Conversation not found")
    | Some conversation =>
        let isInitiator :=
          match Conversation.initiator conversation with
          | Some i => i =? userId
          | None => false
          end in
        if negb isInitiator
        then (db, forbidden "Only the initiator can pay for messages")
        else
          match AppConfig.unrevealedChatPayment (AppConfig.microPayments (config db)) with
          | None => (db, badRequest "Unrevealed chat payment is not enabled")
          | Some unrevealedPayment =>
              if negb (AppConfig.isEnabled unrevealedPayment)
              then (db, badRequest "Unrevealed chat payment is not enabled")
              else if negb (PaymentProvider.verifyPayment (razorpay env) orderId paymentId
                                                          signature)
              then (db, badRequest "Payment verification failed. Please try again.")
              else
                match PaymentProvider.getPaymentDetails (razorpay env) paymentId with
                | Err _ => (db, error "Error verifying payment. Please contact support.")
                | Ok paymentDetails =>
                    if negb (String.eqb (PaymentProvider.status paymentDetails) "captured")
                       && negb (String.eqb (PaymentProvider.status paymentDetails)
                                           "authorized")
                    then (db, badRequest "Payment not successful")
                    else if negb (PaymentProvider.amount paymentDetails
                                  =? AppConfig.pricePerMessageInPaisa unrevealedPayment)
                    then (db, badRequest "Payment amount mismatch")
                    else
                      (save_conversation db
                         (Conversation.recordMessagePayment conversation paymentId orderId
                            (AppConfig.pricePerMessageInPaisa unrevealedPayment) now),
                       success "Payment successful! You can continue messaging.")
                end
          end
    end.

(** What [canSendRequest] reports ([useRequest] takes the same decisions);
    [premium] is [config.isPremiumEnabled && user.checkPremiumStatus()]. *)
Inductive Allowance :=
| premium_
| free (remaining : Z)
| purchased (remaining : Z)
| limit_reached.

Definition canSendRequest (env : Env) (db : DB) (userId : ObjectId) (premium : bool)
           (now : Date) : Allowance :=
  if premium then premium_
  else
    let dailyFreeLimit := AppConfig.dailyFreeRequests (AppConfig.microPayments (config db)) in
    let todayUsed :=
      MessageRequest.countTodayRequestsBySender (requests db) userId (tzOffset env) now in
    if todayUsed <? dailyFreeLimit then free (dailyFreeLimit - todayUsed)
    else
      let purchasedRemaining :=
        PurchasedPack.getTotalRemainingRequests (packs db) userId now in
      if 0 <? purchasedRemaining then purchased purchasedRemaining
      else limit_reached.

End PurchaseController.

(** ** The API surface as a transition system *)

Inductive Action :=
| SendRequest (senderId recipientId : ObjectId) (message : string)
              (source : MessageRequest.Source) (isAnonymous : bool)
| AcceptRequest (userId id : ObjectId)
| RejectRequest (userId id : ObjectId)
| CancelRequest (userId id : ObjectId)
| MarkRequestRead (userId id : ObjectId)
| ExpireOldRequests
| SendMessage (userId conversationId : ObjectId) (content : string) (type : MessageType)
              (replyTo : option ObjectId)
| SocketSendMessage (userId conversationId : ObjectId) (content : string)
                    (type : MessageType) (replyTo : option ObjectId)
| SocketMarkRead (userId conversationId : ObjectId) (messageIds : list ObjectId)
| SocketMarkDelivered (userId : ObjectId) (messageIds : list ObjectId)
| GetMessages (userId conversationId : ObjectId)
| MuteConversation (userId conversationId : ObjectId) (duration : option Z)
| UnmuteConversation (userId conversationId : ObjectId)
| ArchiveConversation (userId conversationId : ObjectId)
| UnarchiveConversation (userId conversationId : ObjectId)
| RequestReveal (userId conversationId : ObjectId)
| RevealIdentity (userId conversationId : ObjectId) (fields : list string)
| VerifyMessagePayment (userId conversationId : ObjectId)
                       (orderId paymentId signature : string).

(** One handler run to completion at time [now]. *)
Definition step (env : Env) (db : DB) (now : Date) (a : Action) : DB :=
  match a with
  | SendRequest s r m src anon =>
      fst (RequestController.sendRequest env db s r m src anon now)
  | AcceptRequest u i => fst (RequestController.acceptRequest db u i now)
  | RejectRequest u i => fst (RequestController.rejectRequest db u i now)
  | CancelRequest u i => fst (RequestController.cancelRequest db u i now)
  | MarkRequestRead u i => fst (RequestController.markAsRead db u i now)
  | ExpireOldRequests => RequestController.expireOldRequests db now
  | SendMessage u c m t r => fst (MessageController.sendMessage db u c m t r now)
  | SocketSendMessage u c m t r => fst (Socket.send_message db u c m t r now)
  | SocketMarkRead u c ids => fst (Socket.mark_read db u c ids now)
  | SocketMarkDelivered u ids => fst (Socket.mark_delivered db u ids now)
  | GetMessages u c => fst (MessageController.getMessages db u c now)
  | MuteConversation u c d => fst (MessageController.muteConversation db u c d now)
  | UnmuteConversation u c => fst (MessageController.unmuteConversation db u c)
  | ArchiveConversation u c => fst (MessageController.archiveConversation db u c now)
  | UnarchiveConversation u c => fst (MessageController.unarchiveConversation db u c)
  | RequestReveal u c => fst (MessageController.requestReveal db u c now)
  | RevealIdentity u c f => fst (MessageController.revealIdentity db u c f now)
  | VerifyMessagePayment u c o p s =>
      fst (PurchaseController.verifyMessagePayment env db u c o p s now)
  end.

(** A run: the actions with the time each one is served at. *)
Fixpoint run (env : Env) (db : DB) (trace : list (Date * Action)) : DB :=
  match trace with
  | [] => db
  | (now, a) :: rest => run env (step env db now a) rest
  end.

(** A freshly deployed database: users, profiles, blocks, packs and the
    configuration are arbitrary, no request was sent yet. *)
Definition fresh (db : DB) : Prop :=
  requests db = [] /\ conversations db = [] /\ messages db = [].

Definition reachable (env : Env) (db : DB) : Prop :=
  exists db0 trace, fresh db0 /\ run env db0 trace = db.

(** ** The mutations of one conversation document

    Every handler above changes a stored conversation only through these
    operations. *)

Module ConversationOps.

Inductive Op :=
| Send (content : string) (senderId : ObjectId) (type : MessageType)
| Reveal (userId : ObjectId) (fields : list string)
| Read (userId : ObjectId)
| Mute (userId : ObjectId) (duration : option Z)
| Unmute (userId : ObjectId)
| Archive (userId : ObjectId)
| Unarchive (userId : ObjectId)
| Payment (paymentId orderId : string) (amountPaisa : Z)
| AskReveal (userId : ObjectId).

Definition apply (c : Conversation.t) (now : Date) (op : Op) : Conversation.t :=
  match op with
  | Send content senderId type => Conversation.updateLastMessage c content senderId type now
  | Reveal userId fields =>
      match Conversation.revealIdentity c userId fields now with
      | Ok c' => c'
      | Err _ => c
      end
  | Read userId => Conversation.markAsRead c userId now
  | Mute userId duration => Conversation.muteForUser c userId duration now
  | Unmute userId => MessageController.unmute c userId
  | Archive userId => Conversation.archiveForUser c userId now
  | Unarchive userId => MessageController.unarchive c userId
  | Payment paymentId orderId amountPaisa =>
      Conversation.recordMessagePayment c paymentId orderId amountPaisa now
  | AskReveal userId => Conversation.set_revealRequest userId now c
  end.

Fixpoint apply_all (c : Conversation.t) (ops : list (Date * Op)) : Conversation.t :=
  match ops with
  | [] => c
  | (now, op) :: rest => apply_all (apply c now op) rest
  end.

(** A send that the payment counter is meant to count: the sender is the
    initiator and the initiator's participant row is not revealed. *)
Definition counted_send (c : Conversation.t) (op : Op) : bool :=
  match op with
  | Send _ senderId _ =>
      match Conversation.initiator c with
      | Some i => (i =? senderId) && negb (Conversation.isUserRevealed c senderId)
      | None => false
      end
  | _ => false
  end.

End ConversationOps.

(** ** Properties stated over the models *)

(** [isAnonymous == !(participantA.isRevealed && participantB.isRevealed)]. *)
Definition anonymity_invariant (c : Conversation.t) : Prop :=
  exists pA pB, Conversation.participants c = [pA; pB]
                /\ Conversation.isAnonymous c
                   = negb (Conversation.isRevealed pA && Conversation.isRevealed pB).

(** The active requests between an unordered pair of users. *)
Definition active_between (rs : list MessageRequest.t) (userA userB : ObjectId)
  : list MessageRequest.t :=
  filter (fun r => MessageRequest.between userA userB r && MessageRequest.is_active r) rs.

Definition at_most_one_active (rs : list MessageRequest.t) : Prop :=
  forall userA userB, (List.length (active_between rs userA userB) <= 1)%nat.

(** A pack after all its remaining requests were used. *)
Definition drained (p : PurchasedPack.t) : PurchasedPack.t :=
  PurchasedPack.set_usage (PurchasedPack.requestsUsed p + PurchasedPack.requestsRemaining p)
                          0 PurchasedPack.exhausted p.

(** The order of the delivery states; [failed] is outside the chain. *)
Definition delivery_rank (s : Message.DeliveryStatus) : Z :=
  match s with
  | Message.sent => 0
  | Message.delivered => 1
  | Message.read => 2
  | Message.failed => -1
  end.

(** A participant update that does not touch the reveal flag. *)
Definition keeps_reveal (f : Conversation.Participant -> Conversation.Participant) : Prop :=
  forall p, Conversation.isRevealed (f p) = Conversation.isRevealed p.

(** What the request collection keeps true: unique ids below the next fresh
    id, and at most one active request per unordered pair. *)
Definition req_inv (rs : list MessageRequest.t) (next : ObjectId) : Prop :=
  NoDup (map MessageRequest._id rs)
  /\ Forall (fun r => MessageRequest._id r < next) rs
  /\ at_most_one_active rs.

Definition db_inv (db : DB) : Prop := req_inv (requests db) (nextId db).

Definition sum_remaining (l : list PurchasedPack.t) : Z :=
  fold_right (fun p acc => PurchasedPack.requestsRemaining p + acc) 0 l.

Definition by_expiry (a b : PurchasedPack.t) : Prop :=
  PurchasedPack.expiresAt a <= PurchasedPack.expiresAt b.

(** The two payment counters of every stored conversation. *)
Definition counters (db : DB) : list (Z * Z) :=
  map (fun c => (Conversation.initiatorMessageCount c, Conversation.initiatorPaidCycles c))
      (conversations db).

(** ** Sample data: two users, the default configuration *)

Module Samples.

(** A provider that accepts the signature "sig_ok" and reports every payment
    as captured for 200 paisa. *)
Definition provider : PaymentProvider.t :=
  PaymentProvider.mk
    (fun _ _ signature => String.eqb signature "sig_ok")
    (fun _ => Ok (PaymentProvider.mkDetails "captured" 200)).

Definition env : Env := mkEnv 0 None provider.

Definition alice : ObjectId := 1.
Definition bob : ObjectId := 2.
Definition carol : ObjectId := 3.
Definition dave : ObjectId := 4.

Definition user (id : ObjectId) : User.t := User.mk id User.active.

Definition profile (id : ObjectId) : Profile.t :=
  Profile.mk id (Some "someone") false true
             (Some (Profile.mkPrefs Profile.anyone false false false))
             None None None 0 0.

Definition defaults : AppConfig.t :=
  AppConfig.mk (AppConfig.mkMicro true 2 (Some AppConfig.defaultUnrevealed)).

(** Alice holds one pack with 5 unused requests that expires in 30 days. *)
Definition alice_pack : PurchasedPack.t :=
  PurchasedPack.mk 50 alice "pack_10" 10 5 5 200 "order_p" "pay_p"
                   PurchasedPack.active 2592000000 0.

Definition db0 : DB :=
  mkDB [user alice; user bob; user carol; user dave]
       [profile alice; profile bob; profile carol; profile dave]
       [] [] [] [] [alice_pack] defaults 100.

(** Alice writes to Bob anonymously; Bob accepts. *)
Definition opening : list (Date * Action) :=
  [ (1000, SendRequest alice bob "hi there" MessageRequest.search true);
    (2000, AcceptRequest bob 100) ].

Definition conversationId : ObjectId := 101.

(** Alice then sends 99 more messages: 100 messages as an unrevealed
    initiator, the whole free allowance. *)
Definition hundred_sent : list (Date * Action) :=
  (opening ++ repeat (3000, SendMessage alice conversationId "hello" text None) 99)%list.

Definition at_limit : DB := run env db0 hundred_sent.

(** Alice has used both free requests of the day. *)
Definition two_requests : list (Date * Action) :=
  [ (1000, SendRequest alice bob "hi there" MessageRequest.search true);
    (2000, SendRequest alice carol "hello" MessageRequest.search true) ].

Definition quota_used : DB := run env db0 two_requests.

(** Bob's request from Alice, left unanswered past its seven days. *)
Definition asked : DB := run env db0 [ (1000, SendRequest alice bob "hi there"
                                                 MessageRequest.search true) ].
Definition after_expiry : Date := 700000000.

(** The conversation document at the limit: 100 counted messages, no paid
    cycle, Alice not revealed. *)
Definition at_limit_conversation : Conversation.t :=
  Conversation.mk conversationId
    [ Conversation.mkParticipant alice false None [] false None false None None 0;
      Conversation.mkParticipant bob true None [] false None false None None 0 ]
    (Some alice) 100 true None 100 100 0 None false None None Conversation.active.

(** The conversation just after Bob accepted: Alice's initial message, id
    102, waits for Bob. *)
Definition opened : DB := run env db0 opening.
Definition first_message : ObjectId := 102.

(** How far each stored message got, with its read stamp. *)
Definition delivery (db : DB) : list (Message.DeliveryStatus * option Date) :=
  map (fun m => (Message.deliveryStatus m, Message.readAt m)) (messages db).

(** Two packs of one user, the later-expiring one first in the collection. *)
Definition two_packs : list PurchasedPack.t :=
  [ PurchasedPack.mk 51 alice "pack_10" 10 7 3 200 "o1" "p1" PurchasedPack.active 9000 0;
    PurchasedPack.mk 52 alice "pack_10" 10 8 2 200 "o2" "p2" PurchasedPack.active 5000 0;
    PurchasedPack.mk 53 bob "pack_10" 10 0 10 200 "o3" "p3" PurchasedPack.active 9000 0 ].

End Samples.

(** ** Further vocabulary for the conversation model *)

(** What identifies a conversation: its id, the users of its participant
    rows in order, the initiator and the request it came from. *)
Definition identity (c : Conversation.t)
  : ObjectId * list ObjectId * option ObjectId * ObjectId :=
  (Conversation._id c, map Conversation.user (Conversation.participants c),
   Conversation.initiator c, Conversation.messageRequest c).

(** The unread counter a user is shown: the one of their participant row. *)
Definition unread_of (c : Conversation.t) (userId : ObjectId) : option Z :=
  option_map Conversation.unreadCount (Conversation.getParticipantData c userId).

(** The operation is a message sent by [userId]. *)
Definition sent_by (userId : ObjectId) (op : ConversationOps.Op) : bool :=
  match op with
  | ConversationOps.Send _ senderId _ => senderId =? userId
  | _ => false
  end.

(** The user whose own row a read / mute / archive operation addresses. *)
Definition own_row_of (op : ConversationOps.Op) : option ObjectId :=
  match op with
  | ConversationOps.Read u | ConversationOps.Mute u _ | ConversationOps.Unmute u
  | ConversationOps.Archive u | ConversationOps.Unarchive u => Some u
  | _ => None
  end.

(** Two stored versions of one request that agree on what the request is and
    on how it was settled. *)
Definition same_outcome (r r' : MessageRequest.t) : Prop :=
  MessageRequest._id r' = MessageRequest._id r
  /\ MessageRequest.sender r' = MessageRequest.sender r
  /\ MessageRequest.recipient r' = MessageRequest.recipient r
  /\ MessageRequest.status r' = MessageRequest.status r
  /\ MessageRequest.conversation r' = MessageRequest.conversation r.

(** The ids of the stored conversations, in collection order. *)
Definition conversation_ids (db : DB) : list ObjectId :=
  map Conversation._id (conversations db).

(** Conversation ids are unique and below the next fresh id. *)
Definition conv_inv (db : DB) : Prop :=
  NoDup (conversation_ids db)
  /\ Forall (fun i => i < nextId db) (conversation_ids db).

(** ** Further vocabulary for purchased packs *)

(** Two stored versions of one pack: the same purchase, with some requests
    moved from [requestsRemaining] to [requestsUsed]; a pack that user
    [userId] cannot use at [now] is the same document. *)
Definition conserved (userId : ObjectId) (now : Date) (q q' : PurchasedPack.t) : Prop :=
  PurchasedPack._id q' = PurchasedPack._id q
  /\ PurchasedPack.user q' = PurchasedPack.user q
  /\ PurchasedPack.expiresAt q' = PurchasedPack.expiresAt q
  /\ PurchasedPack.requestCount q' = PurchasedPack.requestCount q
  /\ PurchasedPack.requestsUsed q' + PurchasedPack.requestsRemaining q'
     = PurchasedPack.requestsUsed q + PurchasedPack.requestsRemaining q
  /\ 0 <= PurchasedPack.requestsRemaining q' <= PurchasedPack.requestsRemaining q
  /\ (PurchasedPack.usable userId now q = false -> q' = q).

(** ** Spending a request: controllers/purchaseController.js, [useRequest] *)

Module PurchaseRequests.

(** What [useRequest] returns, or the error its [useFromPacks] threw. *)
Inductive Usage :=
| used_premium
| used_free (remaining : Z)
| used_purchased (remaining : Z)
| no_requests_available
| thrown (e : string).

(** [premium] is [config.isPremiumEnabled && user.checkPremiumStatus()], as in
    [PurchaseController.canSendRequest]; the pack collection is returned
    because [useFromPacks] saves packs. *)
Definition useRequest (env : Env) (db : DB) (userId : ObjectId) (premium : bool)
           (now : Date) : list PurchasedPack.t * Usage :=
  if premium then (packs db, used_premium)
  else
    let dailyFreeLimit := AppConfig.dailyFreeRequests (AppConfig.microPayments (config db)) in
    let todayUsed :=
      MessageRequest.countTodayRequestsBySender (requests db) userId (tzOffset env) now in
    if todayUsed <? dailyFreeLimit then (packs db, used_free (dailyFreeLimit - todayUsed - 1))
    else
      let purchasedRemaining :=
        PurchasedPack.getTotalRemainingRequests (packs db) userId now in
      if 0 <? purchasedRemaining then
        match PurchasedPack.useFromPacks (packs db) userId 1 now with
        | (ps, Err e) => (ps, thrown e)
        | (ps, Ok _) => (ps, used_purchased (purchasedRemaining - 1))
        end
      else (packs db, no_requests_available).

End PurchaseRequests.

(** ** models/Message.js: reactions, deletion and edits *)

(** [String.prototype.length], the measure of a schema's [maxlength]: the
    number of UTF-16 code units of a text that is held here as its UTF-8
    bytes.  A byte below 0x80 or a lead byte from 0xC0 to 0xEF starts a
    character of one unit, a lead byte from 0xF0 on one of two units (a
    surrogate pair), and the continuation bytes 0x80 to 0xBF add nothing. *)
Definition utf16_units (c : ascii) : Z :=
  let n := nat_of_ascii c in
  if (n <? 128)%nat then 1
  else if (n <? 192)%nat then 0
  else if (n <? 240)%nat then 1
  else 2.

Fixpoint utf16_length (s : string) : Z :=
  match s with
  | String c r => utf16_units c + utf16_length r
  | EmptyString => 0
  end.

Module MessageDoc.

Record Reaction := mkReaction {
  user : ObjectId;
  emoji : string;
  createdAt : Date
}.

(** A stored message with the fields [Message.t] leaves out. *)
Record t := mk {
  base : Message.t;
  reactions : list Reaction;
  isDeleted : bool;
  deletedAt : option Date;
  deletedFor : list ObjectId;
  isEdited : bool;
  editedAt : option Date;
  originalContent : option string
}.

Definition _id (d : t) : ObjectId := Message._id (base d).

Definition set_content (c : string) (m : Message.t) : Message.t :=
  Message.mk (Message._id m) (Message.conversation m) (Message.sender m)
             (Message.recipient m) c (Message.type m) (Message.isRead m)
             (Message.readAt m) (Message.deliveryStatus m) (Message.deliveredAt m)
             (Message.replyTo m) (Message.createdAt m).

Definition set_reactions (rs : list Reaction) (d : t) : t :=
  mk (base d) rs (isDeleted d) (deletedAt d) (deletedFor d) (isEdited d) (editedAt d)
     (originalContent d).

(** [reactionSchema]: [emoji] is required and its [length] is at most 10. *)
Definition valid_reaction (r : Reaction) : bool :=
  negb (String.eqb (emoji r) "") && (utf16_length (emoji r) <=? 10).

(** The validation [save()] runs on a document whose [reactions] were
    assigned. *)
Definition save_reactions (d : t) : result t :=
  if forallb valid_reaction (reactions d) then Ok d
  else Err "Message validation failed".

Definition addReaction (d : t) (userId : ObjectId) (emoji_ : string) (now : Date)
  : result t :=
  let kept := filter (fun r => negb (user r =? userId)) (reactions d) in
  save_reactions (set_reactions (kept ++ [mkReaction userId emoji_ now]) d).

Definition removeReaction (d : t) (userId : ObjectId) : result t :=
  save_reactions
    (set_reactions (filter (fun r => negb (user r =? userId)) (reactions d)) d).

Definition deleteForUser (d : t) (userId : ObjectId) : t :=
  if id_in (deletedFor d) userId then d
  else mk (base d) (reactions d) (isDeleted d) (deletedAt d) (deletedFor d ++ [userId])
          (isEdited d) (editedAt d) (originalContent d).

Definition deleteForEveryone (d : t) (requesterId : ObjectId) (now : Date) : result t :=
  if negb (Message.sender (base d) =? requesterId)
  then Err "Only sender can delete for everyone"
  else
    let timeLimit := 60 * 60 * 1000 in
    if timeLimit <? now - Message.createdAt (base d)
    then Err "Time limit exceeded for deleting for everyone"
    else Ok (mk (set_content "This message was deleted" (base d)) (reactions d)
                true (Some now) (deletedFor d) (isEdited d) (editedAt d)
                (originalContent d)).

(** [save()] after [editContent] validates the assigned [content] as
    [Message.validate] does: trimmed, required for a text message, at most
    2000 characters. *)
Definition editContent (d : t) (newContent : string) (requesterId : ObjectId) (now : Date)
  : result t :=
  if negb (Message.sender (base d) =? requesterId)
  then Err "Only sender can edit message"
  else
    let timeLimit := 15 * 60 * 1000 in
    if timeLimit <? now - Message.createdAt (base d)
    then Err "Time limit exceeded for editing"
    else
      match Message.validate newContent (Message.type (base d)) with
      | Err e => Err e
      | Ok c =>
          Ok (mk (set_content c (base d)) (reactions d) (isDeleted d) (deletedAt d)
                 (deletedFor d) true (Some now)
                 (if negb (isEdited d) then Some (Message.content (base d))
                  else originalContent d))
      end.

(** The query of [getForConversation], before sorting and paging:
    [{ conversation: conversationId, deletedFor: { $ne: userId } }]. *)
Definition getForConversation (store : list t) (conversationId userId : ObjectId)
  : list t :=
  filter (fun d => (Message.conversation (base d) =? conversationId)
                   && negb (id_in (deletedFor d) userId)) store.

Definition findById (store : list t) (messageId : ObjectId) : option t :=
  find (fun d => _id d =? messageId) store.

(** [message.save()]: the stored document with the message's [_id] is replaced. *)
Definition save (store : list t) (d : t) : list t :=
  map (fun q => if _id q =? _id d then d else q) store.

End MessageDoc.

(** ** Message actions: controllers/messageController.js and socket/index.js

    The handlers work on the message collection seen with all its fields;
    conversations are read from the database. *)

Module MessageActions.

Import ApiResponse.

Definition addReaction (db : DB) (store : list MessageDoc.t) (userId messageId : ObjectId)
           (emoji : string) (now : Date) : list MessageDoc.t * ApiResponse.t :=
  match MessageDoc.findById store messageId with
  | None => (store, notFound "Message not found")
  | Some message =>
      match MessageController.findFor db (Message.conversation (MessageDoc.base message))
                                      userId with
      | None => (store, forbidden "Not authorized")
      | Some _ =>
          match MessageDoc.addReaction message userId emoji now with
          | Err _ => (store, error "Error adding reaction")
          | Ok message' => (MessageDoc.save store message', success "Reaction added")
          end
      end
  end.

Definition removeReaction (store : list MessageDoc.t) (userId messageId : ObjectId)
  : list MessageDoc.t * ApiResponse.t :=
  match MessageDoc.findById store messageId with
  | None => (store, notFound "Message not found")
  | Some message =>
      match MessageDoc.removeReaction message userId with
      | Err _ => (store, error "Error removing reaction")
      | Ok message' => (MessageDoc.save store message', success "Reaction removed")
      end
  end.

(** [error.message.includes('Time limit') || error.message.includes('Only sender')]
    holds for both errors [deleteForEveryone] throws, so both are answered
    with a 400 carrying the error's message. *)
Definition deleteMessage (db : DB) (store : list MessageDoc.t) (userId messageId : ObjectId)
           (forEveryone : bool) (now : Date) : list MessageDoc.t * ApiResponse.t :=
  match MessageDoc.findById store messageId with
  | None => (store, notFound "Message not found")
  | Some message =>
      match MessageController.findFor db (Message.conversation (MessageDoc.base message))
                                      userId with
      | None => (store, forbidden "Not authorized")
      | Some _ =>
          if forEveryone then
            match MessageDoc.deleteForEveryone message userId now with
            | Err e => (store, badRequest e)
            | Ok message' => (MessageDoc.save store message', success "Message deleted")
            end
          else (MessageDoc.save store (MessageDoc.deleteForUser message userId),
                success "Message deleted")
      end
  end.

(** What [socket.on('add_reaction')] broadcasts, if anything. *)
Inductive ReactionEmit :=
| message_reaction (messageId userId : ObjectId) (emoji : string)
| nothing.

Definition add_reaction (store : list MessageDoc.t) (userId messageId : ObjectId)
           (emoji : string) (now : Date) : list MessageDoc.t * ReactionEmit :=
  match MessageDoc.findById store messageId with
  | None => (store, nothing)
  | Some message =>
      match MessageDoc.addReaction message userId emoji now with
      | Err _ => (store, nothing)
      | Ok message' => (MessageDoc.save store message',
                        message_reaction messageId userId emoji)
      end
  end.

End MessageActions.

(** ** Further vocabulary for message documents *)

(** The reaction operations on one stored message; an operation whose save
    fails leaves the stored document as it was. *)
Inductive ReactionOp :=
| AddReaction (userId : ObjectId) (emoji : string) (now : Date)
| RemoveReaction (userId : ObjectId).

Definition react (d : MessageDoc.t) (op : ReactionOp) : MessageDoc.t :=
  match op with
  | AddReaction userId emoji now =>
      match MessageDoc.addReaction d userId emoji now with
      | Ok d' => d'
      | Err _ => d
      end
  | RemoveReaction userId =>
      match MessageDoc.removeReaction d userId with
      | Ok d' => d'
      | Err _ => d
      end
  end.

(** At most one reaction per user, and every stored reaction passes the
    schema. *)
Definition reactions_ok (d : MessageDoc.t) : Prop :=
  NoDup (map MessageDoc.user (MessageDoc.reactions d))
  /\ forallb MessageDoc.valid_reaction (MessageDoc.reactions d) = true.

(** A stored edit attempt; a rejected one leaves the document as it was. *)
Definition edit (requesterId : ObjectId) (d : MessageDoc.t) (e : string * Date)
  : MessageDoc.t :=
  match MessageDoc.editContent d (fst e) requesterId (snd e) with
  | Ok d' => d'
  | Err _ => d
  end.

Module MessageSamples.

(** Alice's first message to Bob in conversation 101, as a full document. *)
Definition first : MessageDoc.t :=
  MessageDoc.mk
    (Message.mk Samples.first_message Samples.conversationId Samples.alice Samples.bob
                "hi there" text false None Message.sent None None 2000)
    [] false None [] false None None.

Definition store : list MessageDoc.t := [first].

End MessageSamples.

(** ** Block queries and the pending list

    models/Block.js, and the query of [getPendingRequests] in
    controllers/messageRequestController.js. *)

Module BlockQueries.

Definition getBlockedUserIds (bs : list Block.t) (userId : ObjectId) : list ObjectId :=
  map Block.blocked (filter (fun b => Block.blocker b =? userId) bs).

Definition getBlockersOfUser (bs : list Block.t) (userId : ObjectId) : list ObjectId :=
  map Block.blocker (filter (fun b => Block.blocked b =? userId) bs).

(** [[...new Set([...blocked, ...blockers])]]: first occurrences, in order. *)
Fixpoint dedupe (seen ids : list ObjectId) : list ObjectId :=
  match ids with
  | [] => []
  | i :: rest => if id_in seen i then dedupe seen rest
                 else i :: dedupe (seen ++ [i]) rest
  end.

Definition getAllBlockRelatedUserIds (bs : list Block.t) (userId : ObjectId)
  : list ObjectId :=
  dedupe [] (getBlockedUserIds bs userId ++ getBlockersOfUser bs userId).

End BlockQueries.

Module RequestListing.

(** The filter of [getPendingRequests], shared by its [find] (before sorting
    and paging) and by the [countDocuments] that gives [total]:
    [{ recipient, status: 'pending', expiresAt: { $gt: now },
       sender: { $nin: blockedIds } }]. *)
Definition pendingQuery (db : DB) (userId : ObjectId) (now : Date)
  : list MessageRequest.t :=
  let blockedIds := BlockQueries.getAllBlockRelatedUserIds (blocks db) userId in
  filter (fun r => (MessageRequest.recipient r =? userId)
                   && MessageRequest.Status_eqb (MessageRequest.status r)
                                                MessageRequest.pending
                   && (now <? MessageRequest.expiresAt r)
                   && negb (id_in blockedIds (MessageRequest.sender r)))
         (requests db).

Definition total (db : DB) (userId : ObjectId) (now : Date) : Z :=
  Z.of_nat (List.length (pendingQuery db userId now)).

End RequestListing.

Definition set_blocks (bs : list Block.t) (db : DB) : DB :=
  mkDB (users db) (profiles db) bs (requests db) (conversations db) (messages db)
       (packs db) (config db) (nextId db).

(** ** Conversations and the requests they came from *)

Definition identities (db : DB)
  : list (ObjectId * list ObjectId * option ObjectId * ObjectId) :=
  map identity (conversations db).

(** Conversation [c] is the one that accepting request [r] opened: [r] is
    accepted and points to [c], and [c] is between the sender and the
    recipient of [r], in that order, initiated by the sender, and points
    back to [r]. *)
Definition opened_by (r : MessageRequest.t) (c : Conversation.t) : Prop :=
  MessageRequest.status r = MessageRequest.accepted
  /\ MessageRequest.conversation r = Some (Conversation._id c)
  /\ identity c = (Conversation._id c,
                   [MessageRequest.sender r; MessageRequest.recipient r],
                   Some (MessageRequest.sender r), MessageRequest._id r).

(** Every conversation was opened by a stored request, and every accepted
    request has the conversation it opened. *)
Definition linked (db : DB) : Prop :=
  (forall c, In c (conversations db) -> exists r, In r (requests db) /\ opened_by r c)
  /\ (forall r, In r (requests db) ->
        MessageRequest.status r = MessageRequest.accepted ->
        exists c, In c (conversations db) /\ opened_by r c).

(** The accepted requests of two versions of the collection correspond. *)
Definition same_accepted (rs rs' : list MessageRequest.t) : Prop :=
  (forall r, In r rs -> MessageRequest.status r = MessageRequest.accepted ->
     exists r', In r' rs' /\ same_outcome r r')
  /\ (forall r', In r' rs' -> MessageRequest.status r' = MessageRequest.accepted ->
        exists r, In r rs /\ same_outcome r r').

(** A stored request text is one [MessageRequest.create] let through. *)
Definition stored_text (r : MessageRequest.t) : Prop :=
  trim (MessageRequest.initialMessage r) = MessageRequest.initialMessage r
  /\ MessageRequest.initialMessage r <> EmptyString
  /\ str_length (MessageRequest.initialMessage r) <= 500.

(** The users of a conversation's two sides are [a] and [b], in either order. *)
Definition is_between (a b : ObjectId) (c : Conversation.t) : Prop :=
  map Conversation.user (Conversation.participants c) = [a; b]
  \/ map Conversation.user (Conversation.participants c) = [b; a].

(** What every reachable database satisfies. *)
Definition well_formed (db : DB) : Prop :=
  db_inv db /\ conv_inv db /\ linked db /\ Forall stored_text (requests db).

(** What a handler does to the request collection, as far as the
    correspondence with conversations goes. *)
Definition kept_requests (db db' : DB) : Prop :=
  same_accepted (requests db) (requests db')
  /\ (Forall stored_text (requests db) -> Forall stored_text (requests db')).

(** ** Buying packs and paying for messages: controllers/purchaseController.js *)

Module Purchases.

Import ApiResponse.

(** One entry of [config.microPayments.requestPacks]; the catalogue is a
    parameter of the handlers that read it. *)
Record RequestPack := mkRequestPack {
  packId : string;
  name : string;
  requestCount : Z;
  priceInPaisa : Z;
  priceDisplay : string;
  isActive : bool
}.

(** The [paymentMethod] enum of the pack schema. *)
Definition valid_paymentMethod (m : string) : bool :=
  existsb (String.eqb m) ["razorpay"; "upi"; "card"; "wallet"; "free"].

(** [purchasePack].  The pack document is created with the schema defaults
    ([requestsUsed] 0, expiry 30 days ahead); the notification written after
    it lives in a collection that is not modelled. *)
Definition purchasePack (env : Env) (catalogue : list RequestPack) (db : DB)
           (userId : ObjectId) (packId_ orderId paymentId signature paymentMethod : string)
           (now : Date) : DB * ApiResponse.t :=
  if String.eqb orderId "" || String.eqb paymentId "" || String.eqb signature ""
  then (db, badRequest "Missing payment details")
  else if negb (AppConfig.packsEnabled (AppConfig.microPayments (config db)))
  then (db, badRequest "Request packs are currently not available")
  else
    match find (fun p => String.eqb (packId p) packId_ && isActive p) catalogue with
    | None => (db, notFound "Pack not found or not available")
    | Some pack =>
        if negb (PaymentProvider.verifyPayment (razorpay env) orderId paymentId signature)
        then (db, badRequest "Payment verification failed. Please try again.")
        else
          match PaymentProvider.getPaymentDetails (razorpay env) paymentId with
          | Err _ => (db, error "Error verifying payment. Please contact support.")
          | Ok paymentDetails =>
              if negb (String.eqb (PaymentProvider.status paymentDetails) "captured")
                 && negb (String.eqb (PaymentProvider.status paymentDetails) "authorized")
              then (db, badRequest "Payment not successful")
              else if negb (PaymentProvider.amount paymentDetails =? priceInPaisa pack)
              then (db, badRequest "Payment amount mismatch")
              else
                match find (fun p => (PurchasedPack.user p =? userId)
                                     && String.eqb (PurchasedPack.paymentId p) paymentId
                                     && PurchasedPack.Status_eqb (PurchasedPack.status p)
                                                                 PurchasedPack.active)
                           (packs db) with
                | Some existingPurchase =>
                    (db, success "Pack already purchased with this payment")
                | None =>
                    if negb (valid_paymentMethod paymentMethod)
                    then (db, error "Error verifying payment. Please contact support.")
                    else
                      let purchasedPack :=
                        PurchasedPack.mk (nextId db) userId (packId pack) (requestCount pack)
                                         0 (requestCount pack) (priceInPaisa pack)
                                         orderId paymentId PurchasedPack.active
                                         (now + 30 * 24 * 60 * 60 * 1000) now in
                      (bump_id (set_packs (packs db ++ [purchasedPack]) db),
                       success "Pack purchased successfully!")
                end
          end
    end.

(** What [getMessagePaymentStatus] answers. *)
Inductive PaymentStatus :=
| status_notFound
| status_notInitiator
| status_notEnabled
| status_report (stats : Conversation.Stats) (priceInPaisa_ : Z) (priceDisplay_ : string)
| status_error.

Definition getMessagePaymentStatus (db : DB) (userId conversationId : ObjectId)
  : PaymentStatus :=
  match MessageController.findActiveFor db conversationId userId with
  | None => status_notFound
  | Some conversation =>
      let isInitiator :=
        match Conversation.initiator conversation with
        | Some i => i =? userId
        | None => false
        end in
      if negb isInitiator then status_notInitiator
      else
        match AppConfig.unrevealedChatPayment (AppConfig.microPayments (config db)) with
        | None => status_notEnabled
        | Some unrevealedPayment =>
            if negb (AppConfig.isEnabled unrevealedPayment) then status_notEnabled
            else
              let freeMessageLimit :=
                or_else (AppConfig.freeMessageLimit unrevealedPayment) 100 in
              match Conversation.getInitiatorMessageStats conversation freeMessageLimit with
              | None => status_error
              | Some stats =>
                  status_report stats (AppConfig.pricePerMessageInPaisa unrevealedPayment)
                                (AppConfig.priceDisplay unrevealedPayment)
              end
        end
  end.

(** A Razorpay order; [createOrder] belongs to the payment provider and is a
    parameter of [createMessageOrder]: the amount in paisa to the order, or the
    error it threw. *)
Record Order := mkOrder {
  order_id : string;
  order_amount : Z;
  order_currency : string
}.

Inductive OrderResponse :=
| order_created (order : Order) (priceDisplay_ : string) (freeMessageLimit_ : Z)
| order_refused (response : ApiResponse.t).

Definition createMessageOrder (createOrder : Z -> result Order) (db : DB)
           (userId conversationId : ObjectId) : OrderResponse :=
  match MessageController.findActiveFor db conversationId userId with
  | None => order_refused (notFound "Conversation not found")
  | Some conversation =>
      let isInitiator :=
        match Conversation.initiator conversation with
        | Some i => i =? userId
        | None => false
        end in
      if negb isInitiator
      then order_refused (forbidden "Only the initiator can pay for messages")
      else
        match AppConfig.unrevealedChatPayment (AppConfig.microPayments (config db)) with
        | None => order_refused (badRequest "Unrevealed chat payment is not enabled")
        | Some unrevealedPayment =>
            if negb (AppConfig.isEnabled unrevealedPayment)
            then order_refused (badRequest "Unrevealed chat payment is not enabled")
            else
              let freeMessageLimit :=
                or_else (AppConfig.freeMessageLimit unrevealedPayment) 100 in
              if negb (Conversation.initiatorNeedsToPay conversation freeMessageLimit)
              then order_refused (badRequest "Payment is not required at this time")
              else
                match createOrder (AppConfig.pricePerMessageInPaisa unrevealedPayment) with
                | Err e =>
                    order_refused
                      (error (if String.eqb e "" then "Error creating order" else e))
                | Ok order =>
                    order_created order (AppConfig.priceDisplay unrevealedPayment)
                                  freeMessageLimit
                end
        end
  end.

End Purchases.

(** ** Blocking: controllers/blockController.js *)

Module BlockController.

Import ApiResponse.

(** The conversation fields the block controller writes and [Conversation.t]
    leaves out, as the stamp a handler put on a conversation. *)
Inductive Stamp :=
| stamp_blocked (conversationId blockedBy : ObjectId) (blockedAt : Date).

(** The [reason] and [source] enums and the length limit of the block schema. *)
Definition valid_reason (r : string) : bool :=
  existsb (String.eqb r)
          ["harassment"; "spam"; "inappropriate"; "fake_profile"; "other"; "not_specified"].

Definition valid_source (s : string) : bool :=
  existsb (String.eqb s) ["chat"; "profile"; "request"; "search"; "feed"].

Definition valid_notes (n : option string) : bool :=
  match n with
  | Some s => str_length s <=? 500
  | None => true
  end.

Definition set_status (s : Conversation.Status) (c : Conversation.t) : Conversation.t :=
  Conversation.mk (Conversation._id c) (Conversation.participants c)
                  (Conversation.initiator c) (Conversation.messageRequest c)
                  (Conversation.isAnonymous c) (Conversation.lastMessage c)
                  (Conversation.messageCount c) (Conversation.initiatorMessageCount c)
                  (Conversation.initiatorPaidCycles c) (Conversation.lastMessagePayment c)
                  (Conversation.mutualRevealRequested c) (Conversation.revealRequestedBy c)
                  (Conversation.revealRequestedAt c) s.

(** ['participants.user': { $all: [a, b] }]. *)
Definition has_both (a b : ObjectId) (c : Conversation.t) : bool :=
  MessageController.is_participant c a && MessageController.is_participant c b.

Definition findBlock (bs : list Block.t) (blocker_ blocked_ : ObjectId) : option Block.t :=
  find (fun b => (Block.blocker b =? blocker_) && (Block.blocked b =? blocked_)) bs.

(** [blockUser] on the ObjectId of the user to block: the call for a
    [userId] sent in the printed form of an id ([Async.blockUser] is the
    handler on the text of the body); [reason] and [source] arrive with their
    defaults filled in. *)
Definition blockUser (db : DB) (me userId : ObjectId) (reason : string)
           (additionalNotes : option string) (source : string) (now : Date)
  : DB * option Stamp * ApiResponse.t :=
  if userId =? me then (db, None, badRequest "You cannot block yourself")
  else
    match User.findById (users db) userId with
    | None => (db, None, notFound "User not found")
    | Some userToBlock =>
        match findBlock (blocks db) me userId with
        | Some existingBlock => (db, None, conflict "User is already blocked")
        | None =>
            if negb (valid_reason reason && valid_notes additionalNotes && valid_source source)
            then (db, None, error "Error blocking user")
            else
              let db1 := set_blocks (blocks db ++ [Block.mk me userId]) db in
              match find (fun c => has_both me userId c && MessageController.is_active c)
                         (conversations db1) with
              | Some conversation =>
                  (save_conversation db1 (set_status Conversation.blocked conversation),
                   Some (stamp_blocked (Conversation._id conversation) me now),
                   success "User blocked successfully")
              | None => (db1, None, success "User blocked successfully")
              end
        end
    end.

(** [findOneAndDelete]: the first matching document is removed. *)
Fixpoint delete_first (blocker_ blocked_ : ObjectId) (bs : list Block.t) : list Block.t :=
  match bs with
  | [] => []
  | b :: rest =>
      if (Block.blocker b =? blocker_) && (Block.blocked b =? blocked_) then rest
      else b :: delete_first blocker_ blocked_ rest
  end.

Definition unblockUser (db : DB) (me userId : ObjectId) : DB * ApiResponse.t :=
  match findBlock (blocks db) me userId with
  | None => (db, notFound "Block not found")
  | Some block =>
      (set_blocks (delete_first me userId (blocks db)) db,
       success "User unblocked successfully")
  end.

End BlockController.

(** ** Ids as text

    [req.body] and [req.params] carry ids as text.  [toString] is
    [ObjectId.prototype.toString]: the 24 hexadecimal digits of the id, in
    lower case.  [cast] is the cast Mongoose applies to a string that a query
    or a new document holds where the schema has an ObjectId: 24 hexadecimal
    digits, in either case; any other string is a [CastError]. *)

Module ObjectIdText.

Definition digit (n : Z) : ascii :=
  ascii_of_nat (Z.to_nat (if n <? 10 then 48 + n else 87 + n)).

Fixpoint digits (width : nat) (id : Z) (tail : string) : string :=
  match width with
  | O => tail
  | S w => digits w (id / 16) (String (digit (id mod 16)) tail)
  end.

Definition toString (id : ObjectId) : string := digits 24 id "".

Definition value (c : ascii) : option Z :=
  let n := Z.of_nat (nat_of_ascii c) in
  if (48 <=? n) && (n <=? 57) then Some (n - 48)
  else if (97 <=? n) && (n <=? 102) then Some (n - 87)
  else if (65 <=? n) && (n <=? 70) then Some (n - 55)
  else None.

Fixpoint parse (s : string) (acc : Z) : option Z :=
  match s with
  | EmptyString => Some acc
  | String c r =>
      match value c with
      | Some v => parse r (16 * acc + v)
      | None => None
      end
  end.

Definition cast (s : string) : option ObjectId :=
  if (String.length s =? 24)%nat then parse s 0 else None.

End ObjectIdText.

(** ** Handlers as [async] functions

    An [async] handler runs on the event loop until its next [await], hands
    one operation to the database and is resumed with what the operation
    found; between two of its operations the operations of other calls may
    reach the database.  A [Task] is a call in flight: [Await] holds the next
    database operation, which returns the store as it leaves it and what it
    found, and the rest of the call, which is resumed with what it found. *)

Inductive Task (R : Type) : Type :=
| Return (result : R)
| Await {A : Type} (operation : DB -> DB * A) (resume : A -> Task R).
Arguments Return {R} result.
Arguments Await {R A} operation resume.

(** [await] of a query. *)
Definition query {A R : Type} (q : DB -> A) (resume : A -> Task R) : Task R :=
  Await (fun db => (db, q db)) resume.

(** [await] of a write that is not refused. *)
Definition write {R : Type} (w : DB -> DB) (resume : Task R) : Task R :=
  Await (fun db => (w db, tt)) (fun _ => resume).

(** A call that runs alone, from its first operation to its answer. *)
Fixpoint complete {R : Type} (t : Task R) (db : DB) : DB * R :=
  match t with
  | Return r => (db, r)
  | Await operation resume => let (db', a) := operation db in complete (resume a) db'
  end.

(** The next operation of a call. *)
Definition advance {R : Type} (t : Task R) (db : DB) : DB * Task R :=
  match t with
  | Return r => (db, Return r)
  | Await operation resume => let (db', a) := operation db in (db', resume a)
  end.

(** Calls in flight.  Each entry of the schedule lets the call at that
    position perform its next operation. *)
Fixpoint interleave {R : Type} (schedule : list nat) (db : DB) (calls : list (Task R))
  : DB * list (Task R) :=
  match schedule with
  | [] => (db, calls)
  | i :: rest =>
      match nth_error calls i with
      | Some t =>
          let (db', t') := advance t db in
          interleave rest db' (update_nth i (fun _ => t') calls)
      | None => interleave rest db calls
      end
  end.

(** The answer of a call that has returned. *)
Definition answer {R : Type} (t : Task R) : option R :=
  match t with
  | Return r => Some r
  | Await _ _ => None
  end.

(** ** The handlers with their [await]s, on the request as the client sent it *)

Module Async.

Import ApiResponse.

Notation "'await' x '<~' q ';;' k" := (query q (fun x => k))
  (at level 10, x name, q at level 100, k at level 200, only parsing).

(** [MessageRequest.create]: schema validation and defaults, the [pre('save')]
    hook, then the insertion, which the unique index on (sender, recipient)
    refuses. *)
Definition create (env : Env) (db : DB) (sender_ recipient_ : ObjectId)
           (initialMessage_ : string) (isAnonymous_ : bool)
           (source_ : MessageRequest.Source) (now : Date)
  : result (DB * MessageRequest.t) :=
  match MessageRequest.validate initialMessage_ with
  | Err e => Err e
  | Ok m =>
      let request :=
        MessageRequest.preSave
          (MessageRequest.mk (nextId db) sender_ recipient_ m MessageRequest.pending
                             isAnonymous_ source_ None
                             (now + RequestController.expiryDays env * 24 * 60 * 60 * 1000)
                             None None None false None false now)
          now in
      if MessageRequest.duplicate_key (requests db) sender_ recipient_
      then Err "E11000 duplicate key error"
      else Ok (bump_id (set_requests (requests db ++ [request]) db), request)
  end.

(** [profile.requestsSent += 1; profile.save()], and the same for
    [requestsReceived]: the write sets the one assigned path of the stored
    profile to the value computed from the copy the call holds. *)
Definition set_requestsSent (v : Z) (p : Profile.t) : Profile.t :=
  Profile.mk (Profile.user p) (Profile.name p) (Profile.isBanned p)
             (Profile.allowAnonymousMessages p) (Profile.messagePreferences p)
             (Profile.college_name p) (Profile.workplace_company p)
             (Profile.location_city p) (Profile.requestsReceived p) v.

Definition set_requestsReceived (v : Z) (p : Profile.t) : Profile.t :=
  Profile.mk (Profile.user p) (Profile.name p) (Profile.isBanned p)
             (Profile.allowAnonymousMessages p) (Profile.messagePreferences p)
             (Profile.college_name p) (Profile.workplace_company p)
             (Profile.location_city p) v (Profile.requestsSent p).

Fixpoint update_profile (userId : ObjectId) (f : Profile.t -> Profile.t)
         (ps : list Profile.t) : list Profile.t :=
  match ps with
  | [] => []
  | q :: r => if Profile.user q =? userId then f q :: r else q :: update_profile userId f r
  end.

Definition bump_requestsSent (userId : ObjectId) (held : Profile.t) (db : DB) : DB :=
  set_profiles
    (update_profile userId (set_requestsSent (Profile.requestsSent held + 1)) (profiles db))
    db.

Definition bump_requestsReceived (userId : ObjectId) (held : Profile.t) (db : DB) : DB :=
  set_profiles
    (update_profile userId (set_requestsReceived (Profile.requestsReceived held + 1))
                    (profiles db))
    db.

(** The end of [sendRequest]: the request is created and counted in the two
    profiles. *)
Definition sendRequest_create (env : Env) (senderId recipient_ : ObjectId)
           (message : string) (source : MessageRequest.Source) (isAnonymous : bool)
           (recipientProfile : Profile.t) (senderProfile : option Profile.t) (now : Date)
  : Task ApiResponse.t :=
  Await (fun db =>
           match create env db senderId recipient_ message isAnonymous source now with
           | Err _ => (db, None)
           | Ok (db1, request) => (db1, Some request)
           end)
        (fun stored =>
           match stored with
           | None => Return (error "Error sending request")
           | Some request =>
               let received :=
                 write (bump_requestsReceived recipient_ recipientProfile)
                       (Return (created "Request sent successfully")) in
               match senderProfile with
               | Some sp => write (bump_requestsSent senderId sp) received
               | None => received
               end
           end).

(** [sendRequest] from the daily limit check on. *)
Definition sendRequest_checked (env : Env) (senderId recipient_ : ObjectId)
           (message : string) (source : MessageRequest.Source) (isAnonymous : bool)
           (recipientProfile : Profile.t) (now : Date) : Task ApiResponse.t :=
  await config_ <~ (fun db => config db) ;;
  let dailyFreeLimit := AppConfig.dailyFreeRequests (AppConfig.microPayments config_) in
  await todayRequests <~
    (fun db => MessageRequest.countTodayRequestsBySender (requests db) senderId
                                                         (tzOffset env) now) ;;
  if dailyFreeLimit <=? todayRequests then Return (tooManyRequests dailyFreeLimit)
  else if isAnonymous && negb (Profile.allowAnonymousMessages recipientProfile)
  then Return (forbidden "This user does not accept anonymous messages")
  else
    await senderProfile <~ (fun db => Profile.findOne (profiles db) senderId) ;;
    match RequestController.preferenceRejection recipientProfile senderProfile with
    | Some reasonText => Return (forbidden reasonText)
    | None =>
        sendRequest_create env senderId recipient_ message source isAnonymous
                           recipientProfile senderProfile now
    end.

(** [sendRequest]; [recipientId] is the string of [req.body].  A string that
    is not an id is the [CastError] of the first query, which the [catch]
    block answers. *)
Definition sendRequest (env : Env) (senderId : ObjectId) (recipientId : string)
           (message : string) (source : MessageRequest.Source) (isAnonymous : bool)
           (now : Date) : Task ApiResponse.t :=
  if String.eqb (ObjectIdText.toString senderId) recipientId
  then Return (badRequest "Cannot send request to yourself")
  else
    match ObjectIdText.cast recipientId with
    | None => Return (error "Error sending request")
    | Some recipient_ =>
        await recipient <~ (fun db => User.findById (users db) recipient_) ;;
        match recipient with
        | None => Return (notFound "User not found")
        | Some recipientUser =>
            if negb (User.is_active recipientUser) then Return (notFound "User not found")
            else
              await found <~ (fun db => Profile.findOne (profiles db) recipient_) ;;
              match found with
              | None => Return (notFound "User not found")
              | Some recipientProfile =>
                  if Profile.isBanned recipientProfile
                  then Return (notFound "User not found")
                  else
                    await isBlocked <~
                      (fun db => Block.hasBlockBetween (blocks db) senderId recipient_) ;;
                    if isBlocked
                    then Return (forbidden "Unable to send request to this user")
                    else
                      await existingRequest <~
                        (fun db => MessageRequest.existsBetweenUsers (requests db) senderId
                                                                     recipient_) ;;
                      match option_map MessageRequest.status existingRequest with
                      | Some MessageRequest.pending =>
                          Return (conflict "A request already exists with this user")
                      | Some MessageRequest.accepted =>
                          Return (conflict "You already have a conversation with this user")
                      | _ =>
                          sendRequest_checked env senderId recipient_ message source
                                              isAnonymous recipientProfile now
                      end
              end
        end
    end.

(** [blockUser]; [userId] is the string of [req.body], [reason] and [source]
    arrive with their defaults filled in.  [Block.create] is refused by the
    unique index on (blocker, blocked). *)
Definition blockUser (me : ObjectId) (userId : string) (reason : string)
           (additionalNotes : option string) (source : string) (now : Date)
  : Task (option BlockController.Stamp * ApiResponse.t) :=
  if String.eqb userId (ObjectIdText.toString me)
  then Return (None, badRequest "You cannot block yourself")
  else
    match ObjectIdText.cast userId with
    | None => Return (None, error "Error blocking user")
    | Some blocked_ =>
        await userToBlock <~ (fun db => User.findById (users db) blocked_) ;;
        match userToBlock with
        | None => Return (None, notFound "User not found")
        | Some _ =>
            await existingBlock <~ (fun db => BlockController.findBlock (blocks db) me blocked_) ;;
            match existingBlock with
            | Some _ => Return (None, conflict "User is already blocked")
            | None =>
                Await (fun db =>
                         if negb (BlockController.valid_reason reason
                                  && BlockController.valid_notes additionalNotes
                                  && BlockController.valid_source source)
                         then (db, false)
                         else
                           match BlockController.findBlock (blocks db) me blocked_ with
                           | Some _ => (db, false)
                           | None => (set_blocks (blocks db ++ [Block.mk me blocked_]) db, true)
                           end)
                      (fun stored : bool =>
                         if stored then
                           await found <~ (fun d =>
                                             find (fun c =>
                                                     BlockController.has_both me blocked_ c
                                                     && MessageController.is_active c)
                                                  (conversations d)) ;;
                           match found with
                           | Some conversation =>
                               write (fun d =>
                                        save_conversation
                                          d (BlockController.set_status Conversation.blocked
                                                                        conversation))
                                     (Return (Some (BlockController.stamp_blocked
                                                      (Conversation._id conversation) me now),
                                              success "User blocked successfully"))
                           | None => Return (None, success "User blocked successfully")
                           end
                         else Return (None, error "Error blocking user"))
            end
        end
    end.

End Async.

(** ** Sample data for the calls above *)

Module AsyncSamples.

(** Erin's id has letters among its hexadecimal digits. *)
Definition erin : ObjectId := 171.

Definition db1 : DB :=
  mkDB [Samples.user Samples.alice; Samples.user erin]
       [Samples.profile Samples.alice; Samples.profile erin]
       [] [] [] [] [] Samples.defaults 200.

(** Alice writes to Bob while Bob writes to Alice. *)
Definition toBob : Task ApiResponse.t :=
  Async.sendRequest Samples.env Samples.alice (ObjectIdText.toString Samples.bob)
                    "hi there" MessageRequest.search true 1000.

Definition toAlice : Task ApiResponse.t :=
  Async.sendRequest Samples.env Samples.bob (ObjectIdText.toString Samples.alice)
                    "hello" MessageRequest.search true 1000.

(** Two calls that take turns, one database operation each, ten times. *)
Definition taking_turns : list nat :=
  [0; 1; 0; 1; 0; 1; 0; 1; 0; 1; 0; 1; 0; 1; 0; 1; 0; 1; 0; 1]%nat.

End AsyncSamples.

(** ** Who may message a recipient, for any case mapping

    [String.prototype.toLowerCase] maps every cased letter of Unicode.  The
    [allowFrom === 'restricted'] block of [sendRequest] is written here over
    the case mapping as a parameter; [RequestController.preferenceRejection]
    is this block at the mapping of the letters A to Z. *)

Module Preferences.

(** [a.toLowerCase() === b.toLowerCase()] on two optional fields. *)
Definition same_lowered (toLowerCase_ : string -> string) (a b : option string) : bool :=
  match a, b with
  | Some x, Some y => String.eqb (toLowerCase_ x) (toLowerCase_ y)
  | _, _ => false
  end.

Definition preferenceRejection (toLowerCase_ : string -> string)
           (recipientProfile : Profile.t) (senderProfile : option Profile.t)
  : option string :=
  match Profile.messagePreferences recipientProfile with
  | Some msgPrefs =>
      match Profile.allowFrom msgPrefs with
      | Profile.restricted =>
          match senderProfile with
          | Some sp =>
              let college :=
                Profile.sameCollege msgPrefs
                && truthy (Profile.college_name sp)
                && truthy (Profile.college_name recipientProfile)
                && same_lowered toLowerCase_ (Profile.college_name sp)
                                (Profile.college_name recipientProfile) in
              let workplace :=
                Profile.sameWorkplace msgPrefs
                && truthy (Profile.workplace_company sp)
                && truthy (Profile.workplace_company recipientProfile)
                && same_lowered toLowerCase_ (Profile.workplace_company sp)
                                (Profile.workplace_company recipientProfile) in
              let location :=
                Profile.sameLocation msgPrefs
                && truthy (Profile.location_city sp)
                && truthy (Profile.location_city recipientProfile)
                && same_lowered toLowerCase_ (Profile.location_city sp)
                                (Profile.location_city recipientProfile) in
              let canMessage := college || workplace || location in
              if negb canMessage then
                let reasons :=
                  ((if Profile.sameCollege msgPrefs then ["same college"] else [])
                   ++ (if Profile.sameWorkplace msgPrefs then ["same workplace"] else [])
                   ++ (if Profile.sameLocation msgPrefs then ["same location"] else []))%list in
                Some (match reasons with
                      | [] => "This user has restricted who can message them."
                      | _ => ("This user only accepts messages from people with "
                              ++ RequestController.join_or reasons ++ ".")%string
                      end)
              else None
          | None =>
              if Profile.sameCollege msgPrefs || Profile.sameWorkplace msgPrefs
                 || Profile.sameLocation msgPrefs
              then Some "Please complete your profile to message this user."
              else None
          end
      | Profile.anyone => None
      end
  | None => None
  end.

End Preferences.

(** * Verification *)

(** ** JavaScript helpers *)

Lemma or_else_nonzero (x d : Z) : x <> 0 -> or_else x d = x.
Proof.
  intros Hx. unfold or_else. destruct (x =? 0) eqn:E; [apply Z.eqb_eq in E; contradiction | reflexivity].
Qed.

Lemma or_zero_id (x : Z) : or_zero x = x.
Proof.
  unfold or_zero, or_else. destruct (x =? 0) eqn:E; [apply Z.eqb_eq in E; subst | ]; reflexivity.
Qed.

Lemma update_nth_length {A : Type} (f : A -> A) (l : list A) :
  forall i, List.length (update_nth i f l) = List.length l.
Proof.
  induction l as [|x r IH]; intros [|j]; simpl; auto.
Qed.

Lemma update_nth_nil {A : Type} (f : A -> A) (i : nat) : update_nth i f [] = [].
Proof. destruct i; reflexivity. Qed.

Lemma findIndex_lt {A : Type} (f : A -> bool) (l : list A) :
  forall i, findIndex f l = Some i -> (i < List.length l)%nat.
Proof.
  induction l as [|x r IH]; simpl; intros i H; [discriminate|].
  destruct (f x).
  - injection H as <-. lia.
  - destruct (findIndex f r) as [j|]; simpl in H; [|discriminate].
    injection H as <-. specialize (IH j eq_refl). lia.
Qed.

(** ** The payment-need predicate *)

Module PaymentGateSpec.

Import Conversation.

(** C3. With the initiator set (the schema requires it), [initiatorNeedsToPay]
    is false whenever the initiator is revealed, and for an unrevealed
    initiator it is true exactly when
    [initiatorMessageCount >= freeMessageLimit * (initiatorPaidCycles + 1)]. *)
Theorem initiatorNeedsToPay_formula (c : Conversation.t) (limit : Z) (i : ObjectId) :
  initiator c = Some i ->
  (isUserRevealed c i = true -> initiatorNeedsToPay c limit = false)
  /\ (isUserRevealed c i = false ->
      (initiatorNeedsToPay c limit = true
       <-> initiatorMessageCount c >= limit * (initiatorPaidCycles c + 1))).
Proof.
  intros Hi. unfold initiatorNeedsToPay, isUserRevealed, getParticipantData.
  rewrite Hi. rewrite !or_zero_id.
  destruct (find (fun p => user p =? i) (participants c)) as [p|].
  - split; intros Hr; rewrite Hr; [reflexivity|].
    rewrite Z.leb_le. lia.
  - split; intros Hr; [discriminate|].
    rewrite Z.leb_le. lia.
Qed.

Lemma initiatorNeedsToPay_formula_witness :
  initiator Samples.at_limit_conversation = Some Samples.alice
  /\ (initiatorNeedsToPay Samples.at_limit_conversation 100 = true <-> 100 >= 100 * (0 + 1)).
Proof.
  split; [reflexivity|].
  exact (proj2 (initiatorNeedsToPay_formula Samples.at_limit_conversation 100 Samples.alice
                  eq_refl) eq_refl).
Defined.

(** The same number pair decides the stats the client is shown. *)
Lemma stats_agree (c : Conversation.t) (limit : Z) (s : Stats) :
  getInitiatorMessageStats c limit = Some s ->
  needsToPay s = initiatorNeedsToPay c limit.
Proof.
  unfold getInitiatorMessageStats, initiatorNeedsToPay.
  destruct (initiator c) as [i|]; [|discriminate].
  destruct (find (fun p => user p =? i) (participants c)) as [p|].
  - destruct (isRevealed p); intros H; injection H as <-; reflexivity.
  - intros H; injection H as <-; reflexivity.
Qed.

End PaymentGateSpec.

(** ** The counter of unrevealed initiator messages *)

Module CounterSpec.

Import Conversation ConversationOps.

Lemma updateLastMessage_count (c : Conversation.t) content senderId type now :
  initiatorMessageCount (updateLastMessage c content senderId type now)
  = initiatorMessageCount c
    + (if counted_send c (Send content senderId type) then 1 else 0).
Proof.
  unfold updateLastMessage, counted_send, isUserRevealed, getParticipantData. simpl.
  destruct (initiator c) as [i|]; simpl; [|lia].
  destruct (i =? senderId); simpl; [|lia].
  destruct (find (fun p => user p =? senderId) (participants c)) as [p|]; simpl.
  - destruct (isRevealed p); simpl; [lia | rewrite or_zero_id; reflexivity].
  - rewrite or_zero_id; reflexivity.
Qed.

(** C7. Whatever the operation, [initiatorMessageCount] grows by one when the
    operation is a send by the initiator whose participant row is not
    revealed, and is unchanged by every other operation: a send by the other
    participant, a send after the reveal, and read, mute, unmute, archive,
    unarchive, payment, reveal and reveal-request. *)
Theorem initiatorMessageCount_step (c : Conversation.t) (now : Date) (op : Op) :
  initiatorMessageCount (apply c now op)
  = initiatorMessageCount c + (if counted_send c op then 1 else 0).
Proof.
  destruct op; simpl apply.
  - apply updateLastMessage_count.
  - unfold revealIdentity, counted_send.
    destruct (findIndex _ _); [|lia].
    match goal with |- context [if ?b then _ else _] => destruct b end; simpl; lia.
  - unfold markAsRead, counted_send. destruct (findIndex _ _); simpl; lia.
  - unfold muteForUser, counted_send. destruct (findIndex _ _); simpl; lia.
  - unfold MessageController.unmute, counted_send. destruct (findIndex _ _); simpl; lia.
  - unfold archiveForUser, counted_send. destruct (findIndex _ _); simpl; lia.
  - unfold MessageController.unarchive, counted_send. destruct (findIndex _ _); simpl; lia.
  - simpl. lia.
  - simpl. lia.
Qed.

(** A reply from the non-initiator never changes the counter. *)
Corollary reply_keeps_count (c : Conversation.t) (i : ObjectId) content senderId type now :
  initiator c = Some i -> senderId <> i ->
  initiatorMessageCount (updateLastMessage c content senderId type now)
  = initiatorMessageCount c.
Proof.
  intros Hi Hne. rewrite updateLastMessage_count. simpl. rewrite Hi.
  destruct (i =? senderId) eqn:E; [apply Z.eqb_eq in E; congruence | simpl; lia].
Qed.

End CounterSpec.

(** ** The derived anonymity flag *)

Module AnonymitySpec.

Import Conversation ConversationOps.

Lemma invariant_update_nth (c : Conversation.t) (f : Participant -> Participant) (i : nat) :
  keeps_reveal f -> anonymity_invariant c ->
  anonymity_invariant (set_participants (update_nth i f (participants c)) c).
Proof.
  intros Hf (pA & pB & Hp & Ha). unfold anonymity_invariant. simpl. rewrite Hp.
  destruct i as [|[|k]]; simpl.
  - exists (f pA), pB. rewrite Hf. auto.
  - exists pA, (f pB). rewrite Hf. auto.
  - exists pA, pB. destruct k; auto.
Qed.

Lemma invariant_map (c : Conversation.t) (f : Participant -> Participant) :
  keeps_reveal f -> anonymity_invariant c ->
  anonymity_invariant (set_participants (map f (participants c)) c).
Proof.
  intros Hf (pA & pB & Hp & Ha). unfold anonymity_invariant. simpl. rewrite Hp. simpl.
  exists (f pA), (f pB). rewrite !Hf. auto.
Qed.

Lemma invariant_updateLastMessage (c : Conversation.t) content senderId type now :
  anonymity_invariant c ->
  anonymity_invariant (updateLastMessage c content senderId type now).
Proof.
  intros (pA & pB & Hp & Ha). unfold anonymity_invariant, updateLastMessage.
  assert (Hk : keeps_reveal (fun p => if negb (user p =? senderId)
                                      then set_unreadCount (unreadCount p + 1) p else p)).
  { intros p. destruct (negb (user p =? senderId)); reflexivity. }
  exists ((fun p => if negb (user p =? senderId)
                    then set_unreadCount (unreadCount p + 1) p else p) pA),
         ((fun p => if negb (user p =? senderId)
                    then set_unreadCount (unreadCount p + 1) p else p) pB).
  rewrite !Hk. simpl.
  destruct (initiator c) as [i|]; simpl;
    [destruct (i =? senderId); simpl;
     [destruct (find _ (participants c)) as [q|]; simpl; [destruct (isRevealed q); simpl|]|]|];
    rewrite Hp; auto.
Qed.

Lemma invariant_revealIdentity (c c' : Conversation.t) userId fields now :
  anonymity_invariant c ->
  revealIdentity c userId fields now = Ok c' ->
  anonymity_invariant c'.
Proof.
  intros (pA & pB & Hp & Ha). unfold revealIdentity, anonymity_invariant.
  rewrite Hp.
  destruct (findIndex _ [pA; pB]) as [[|[|k]]|]; [| | |discriminate]; simpl;
    rewrite ?update_nth_nil; intros H; injection H as <-;
    destruct (isRevealed pA) eqn:EA; destruct (isRevealed pB) eqn:EB; simpl in *;
    eexists _, _; (split; [reflexivity|]); simpl; rewrite ?EA, ?EB, ?Ha; reflexivity.
Qed.

Lemma invariant_apply (c : Conversation.t) (now : Date) (op : Op) :
  anonymity_invariant c -> anonymity_invariant (apply c now op).
Proof.
  intros H. destruct op; simpl apply.
  - now apply invariant_updateLastMessage.
  - destruct (revealIdentity c userId fields now) eqn:E; [|assumption].
    eapply invariant_revealIdentity; eauto.
  - unfold markAsRead. destruct (findIndex _ _); [|assumption].
    apply invariant_update_nth; [intros p; reflexivity | assumption].
  - unfold muteForUser. destruct (findIndex _ _); [|assumption].
    apply invariant_update_nth; [|assumption].
    intros p. destruct duration as [d|]; [destruct (d =? 0)|]; reflexivity.
  - unfold MessageController.unmute. destruct (findIndex _ _); [|assumption].
    apply invariant_update_nth; [intros p; reflexivity | assumption].
  - unfold archiveForUser. destruct (findIndex _ _); [|assumption].
    apply invariant_update_nth; [intros p; reflexivity | assumption].
  - unfold MessageController.unarchive. destruct (findIndex _ _); [|assumption].
    apply invariant_update_nth; [intros p; reflexivity | assumption].
  - destruct H as (pA & pB & Hp & Ha). exists pA, pB. auto.
  - destruct H as (pA & pB & Hp & Ha). exists pA, pB. auto.
Qed.

Lemma invariant_newConversation id request senderId userId :
  anonymity_invariant (RequestController.newConversation id request senderId userId).
Proof.
  eexists _, _. split; [reflexivity|]. simpl.
  destruct (MessageRequest.isAnonymous request); reflexivity.
Qed.

(** Once revealed, a participant row stays revealed. *)
Lemma reveal_monotone (c : Conversation.t) (now : Date) (op : Op) (k : nat) (p : Participant) :
  nth_error (participants c) k = Some p -> isRevealed p = true ->
  exists p', nth_error (participants (apply c now op)) k = Some p' /\ isRevealed p' = true.
Proof.
  intros Hk Hr.
  assert (Hupd : forall f i, (forall q, isRevealed q = true -> isRevealed (f q) = true) ->
            exists p', nth_error (update_nth i f (participants c)) k = Some p'
                       /\ isRevealed p' = true).
  { intros f i Hf. revert k i Hk. induction (participants c) as [|x r IH]; intros k i Hk.
    - destruct k; discriminate.
    - destruct k as [|k]; destruct i as [|i]; simpl in *.
      + injection Hk as ->. eauto.
      + eauto.
      + eauto.
      + apply IH; assumption. }
  destruct op as [content_ sender_ type_| | | | | | | |]; simpl apply.
  - unfold updateLastMessage.
    exists ((fun q => if negb (user q =? sender_)
                      then set_unreadCount (unreadCount q + 1) q else q) p).
    split; [|destruct (negb (user p =? sender_)); assumption].
    simpl.
    destruct (initiator c) as [i|]; simpl;
      [destruct (i =? sender_); simpl;
       [destruct (find _ (participants c)) as [q|]; simpl; [destruct (isRevealed q); simpl|]|]|];
      rewrite nth_error_map, Hk; reflexivity.
  - unfold revealIdentity. destruct (findIndex _ _) as [i|]; [|eauto].
    destruct (forallb _ _); simpl; apply Hupd; intros; reflexivity.
  - unfold markAsRead. destruct (findIndex _ _); [|eauto]. apply Hupd; auto.
  - unfold muteForUser. destruct (findIndex _ _); [|eauto]. apply Hupd.
    intros q Hq. destruct duration as [d|]; [destruct (d =? 0)|]; assumption.
  - unfold MessageController.unmute. destruct (findIndex _ _); [|eauto]. apply Hupd; auto.
  - unfold archiveForUser. destruct (findIndex _ _); [|eauto]. apply Hupd; auto.
  - unfold MessageController.unarchive. destruct (findIndex _ _); [|eauto]. apply Hupd; auto.
  - simpl. eauto.
  - simpl. eauto.
Qed.

End AnonymitySpec.

(** ** Every handler changes conversations through the model's operations *)

Lemma find_some_Forall {A : Type} (P : A -> Prop) (f : A -> bool) (l : list A) (x : A) :
  Forall P l -> find f l = Some x -> P x.
Proof.
  intros HP Hf. apply find_some in Hf. rewrite Forall_forall in HP. apply HP, Hf.
Qed.

Lemma create_message_frame db cid s r content type replyTo now db' m :
  create_message db cid s r content type replyTo now = Ok (db', m) ->
  conversations db' = conversations db /\ requests db' = requests db
  /\ messages db' = (messages db ++ [m])%list /\ users db' = users db
  /\ profiles db' = profiles db /\ nextId db' = nextId db + 1.
Proof.
  unfold create_message. destruct (Message.validate content type); [|discriminate].
  intros H. injection H as <- <-. simpl. auto 6.
Qed.

Lemma save_conversation_Forall (P : Conversation.t -> Prop) db c :
  Forall P (conversations db) -> P c -> Forall P (conversations (save_conversation db c)).
Proof.
  intros H Hc. simpl. rewrite Forall_forall in *. intros x Hx.
  apply in_map_iff in Hx as (q & <- & Hq).
  destruct (Conversation._id q =? Conversation._id c); auto.
Qed.

(** Frame equations of the collection updates. *)

Lemma conversations_set_requests rs db : conversations (set_requests rs db) = conversations db.
Proof. reflexivity. Qed.
Lemma conversations_set_profiles ps db : conversations (set_profiles ps db) = conversations db.
Proof. reflexivity. Qed.
Lemma conversations_set_messages ms db : conversations (set_messages ms db) = conversations db.
Proof. reflexivity. Qed.
Lemma conversations_set_conversations cs db : conversations (set_conversations cs db) = cs.
Proof. reflexivity. Qed.
Lemma conversations_bump_id db : conversations (bump_id db) = conversations db.
Proof. reflexivity. Qed.
Lemma conversations_save_request db r : conversations (save_request db r) = conversations db.
Proof. reflexivity. Qed.

Lemma requests_set_profiles ps db : requests (set_profiles ps db) = requests db.
Proof. reflexivity. Qed.
Lemma requests_set_messages ms db : requests (set_messages ms db) = requests db.
Proof. reflexivity. Qed.
Lemma requests_set_conversations cs db : requests (set_conversations cs db) = requests db.
Proof. reflexivity. Qed.
Lemma requests_set_requests rs db : requests (set_requests rs db) = rs.
Proof. reflexivity. Qed.
Lemma requests_bump_id db : requests (bump_id db) = requests db.
Proof. reflexivity. Qed.
Lemma requests_save_conversation db c : requests (save_conversation db c) = requests db.
Proof. reflexivity. Qed.

Lemma nextId_set_profiles ps db : nextId (set_profiles ps db) = nextId db.
Proof. reflexivity. Qed.
Lemma nextId_set_messages ms db : nextId (set_messages ms db) = nextId db.
Proof. reflexivity. Qed.
Lemma nextId_set_conversations cs db : nextId (set_conversations cs db) = nextId db.
Proof. reflexivity. Qed.
Lemma nextId_set_requests rs db : nextId (set_requests rs db) = nextId db.
Proof. reflexivity. Qed.
Lemma nextId_bump_id db : nextId (bump_id db) = nextId db + 1.
Proof. reflexivity. Qed.
Lemma nextId_save_conversation db c : nextId (save_conversation db c) = nextId db.
Proof. reflexivity. Qed.
Lemma nextId_save_request db r : nextId (save_request db r) = nextId db.
Proof. reflexivity. Qed.

Create Rewrite HintDb frame.
#[export] Hint Rewrite
  conversations_set_requests conversations_set_profiles conversations_set_messages
  conversations_set_conversations conversations_bump_id conversations_save_request
  requests_set_profiles requests_set_messages requests_set_conversations
  requests_set_requests requests_bump_id requests_save_conversation
  nextId_set_profiles nextId_set_messages nextId_set_conversations nextId_set_requests
  nextId_bump_id nextId_save_conversation nextId_save_request : frame.

Lemma revealIdentity_apply c userId fields now c' :
  Conversation.revealIdentity c userId fields now = Ok c' ->
  c' = ConversationOps.apply c now (ConversationOps.Reveal userId fields).
Proof. intros H. simpl. rewrite H. reflexivity. Qed.

Ltac split_match :=
  match goal with
  | |- context [match ?x with _ => _ end] => destruct x eqn:?
  end.

Ltac run_handler := cbv zeta; repeat (split_match; cbn [fst snd]).

Section ConversationPreservation.

Variable P : Conversation.t -> Prop.
Hypothesis P_apply : forall c now op, P c -> P (ConversationOps.apply c now op).
Hypothesis P_new : forall id request senderId userId,
    P (RequestController.newConversation id request senderId userId).

Let all (db : DB) := Forall P (conversations db).

Local Lemma P_send c content senderId type now :
  P c -> P (Conversation.updateLastMessage c content senderId type now).
Proof. apply (P_apply c now (ConversationOps.Send content senderId type)). Qed.
Local Lemma P_read c userId now : P c -> P (Conversation.markAsRead c userId now).
Proof. apply (P_apply c now (ConversationOps.Read userId)). Qed.
Local Lemma P_mute c userId d now : P c -> P (Conversation.muteForUser c userId d now).
Proof. apply (P_apply c now (ConversationOps.Mute userId d)). Qed.
Local Lemma P_unmute c userId : P c -> P (MessageController.unmute c userId).
Proof. apply (P_apply c 0 (ConversationOps.Unmute userId)). Qed.
Local Lemma P_archive c userId now : P c -> P (Conversation.archiveForUser c userId now).
Proof. apply (P_apply c now (ConversationOps.Archive userId)). Qed.
Local Lemma P_unarchive c userId : P c -> P (MessageController.unarchive c userId).
Proof. apply (P_apply c 0 (ConversationOps.Unarchive userId)). Qed.
Local Lemma P_payment c p o a now :
  P c -> P (Conversation.recordMessagePayment c p o a now).
Proof. apply (P_apply c now (ConversationOps.Payment p o a)). Qed.
Local Lemma P_ask c userId now : P c -> P (Conversation.set_revealRequest userId now c).
Proof. apply (P_apply c now (ConversationOps.AskReveal userId)). Qed.

Ltac found :=
  repeat match goal with
    | H : Forall P (conversations ?db), E : find _ (conversations ?db) = Some ?c |- _ =>
        lazymatch goal with
        | _ : P c |- _ => fail
        | _ => pose proof (find_some_Forall P _ _ _ H E)
        end
    | E : Conversation.revealIdentity _ _ _ _ = Ok _ |- _ =>
        apply revealIdentity_apply in E; subst
    end.

Ltac created :=
  repeat match goal with
    | E : create_message _ _ _ _ _ _ _ _ = Ok (_, _) |- _ =>
        apply create_message_frame in E; destruct E as (E & _);
        autorewrite with frame in E
    end.

Ltac leaf :=
  unfold all in *;
  unfold MessageController.findActiveFor, MessageController.findFor,
    MessageController.findById in *;
  autorewrite with frame in *; found; created;
  repeat first
    [ assumption
    | apply save_conversation_Forall
    | apply P_send | apply P_read | apply P_mute | apply P_unmute | apply P_archive
    | apply P_unarchive | apply P_payment | apply P_ask | apply P_apply | apply P_new
    | match goal with E : conversations _ = _ |- _ => rewrite E; clear E end
    | progress autorewrite with frame
    | apply Forall_app; split
    | apply Forall_cons
    | apply Forall_nil ].

Lemma sendRequest_preserves env db s r m src anon now :
  all db -> all (fst (RequestController.sendRequest env db s r m src anon now)).
Proof.
  unfold all, RequestController.sendRequest, RequestController.sendRequest_checked.
  intros H. run_handler; leaf.
Qed.

Lemma acceptRequest_preserves db u i now :
  all db -> all (fst (RequestController.acceptRequest db u i now)).
Proof.
  unfold all, RequestController.acceptRequest. intros H. run_handler; leaf.
Qed.

Lemma step_preserves env db now a : all db -> all (step env db now a).
Proof.
  intros H. destruct a; cbn [step].
  - now apply sendRequest_preserves.
  - now apply acceptRequest_preserves.
  - unfold all, RequestController.rejectRequest. run_handler; leaf.
  - unfold all, RequestController.cancelRequest. run_handler; leaf.
  - unfold all, RequestController.markAsRead. run_handler; leaf.
  - unfold all, RequestController.expireOldRequests. leaf.
  - unfold all, MessageController.sendMessage. run_handler; leaf.
  - unfold all, Socket.send_message. run_handler; leaf.
  - unfold all, Socket.mark_read. run_handler; leaf.
  - unfold all, Socket.mark_delivered. run_handler; leaf.
  - unfold all, MessageController.getMessages. run_handler; leaf.
  - unfold all, MessageController.muteConversation. run_handler; leaf.
  - unfold all, MessageController.unmuteConversation. run_handler; leaf.
  - unfold all, MessageController.archiveConversation. run_handler; leaf.
  - unfold all, MessageController.unarchiveConversation. run_handler; leaf.
  - unfold all, MessageController.requestReveal. run_handler; leaf.
  - unfold all, MessageController.revealIdentity. run_handler; leaf.
  - unfold all, PurchaseController.verifyMessagePayment. run_handler; leaf.
Qed.

Lemma run_preserves env trace : forall db, all db -> all (run env db trace).
Proof.
  induction trace as [|[now a] rest IH]; intros db H; simpl; [assumption|].
  apply IH, step_preserves, H.
Qed.

End ConversationPreservation.

(** ** At most one active request per pair *)

Module RequestSpec.

Import MessageRequest.

Lemma between_sym a b r : between a b r = between b a r.
Proof. unfold between. apply orb_comm. Qed.

Lemma between_pair a b r :
  between a b r = true ->
  forall q, between a b q = between (sender r) (recipient r) q.
Proof.
  unfold between. intros H q.
  apply orb_true_iff in H as [H|H]; apply andb_true_iff in H as (H1 & H2);
    apply Z.eqb_eq in H1, H2; subst; [reflexivity | apply orb_comm].
Qed.

Lemma unique_by_id (rs : list MessageRequest.t) (q r : MessageRequest.t) :
  NoDup (map _id rs) -> In q rs -> In r rs -> _id q = _id r -> q = r.
Proof.
  induction rs as [|x l IH]; simpl; intros Hnd Hq Hr E; [contradiction|].
  inversion Hnd as [|? ? Hx Hl]; subst.
  destruct Hq as [->|Hq], Hr as [->|Hr]; auto.
  - exfalso. apply Hx. rewrite E. now apply in_map.
  - exfalso. apply Hx. rewrite <- E. now apply in_map.
Qed.

Lemma filter_map_le {A : Type} (f : A -> bool) (g : A -> A) (l : list A) :
  (forall q, In q l -> f (g q) = true -> f q = true) ->
  (List.length (filter f (map g l)) <= List.length (filter f l))%nat.
Proof.
  induction l as [|x r IH]; simpl; intros H; [lia|].
  assert (IH' := IH (fun q Hq => H q (or_intror Hq))).
  destruct (f (g x)) eqn:E.
  - rewrite (H x (or_introl eq_refl) E). simpl. lia.
  - destruct (f x); simpl; lia.
Qed.

Lemma req_inv_mono rs n n' : req_inv rs n -> n <= n' -> req_inv rs n'.
Proof.
  intros (H1 & H2 & H3) Hn. repeat split; auto.
  eapply Forall_impl; [|exact H2]. simpl. intros; lia.
Qed.

(** A stored request is replaced by a version of itself that is active only
    if it was. *)
Lemma req_inv_update rs n (g : MessageRequest.t -> MessageRequest.t) :
  req_inv rs n ->
  (forall q, In q rs -> _id (g q) = _id q /\ sender (g q) = sender q
                        /\ recipient (g q) = recipient q
                        /\ (is_active (g q) = true -> is_active q = true)) ->
  req_inv (map g rs) n.
Proof.
  intros (H1 & H2 & H3) Hg. repeat split.
  - rewrite map_map. erewrite map_ext_in; [exact H1|]. intros q Hq. apply Hg, Hq.
  - rewrite Forall_forall in *. intros x Hx. apply in_map_iff in Hx as (q & <- & Hq).
    destruct (Hg q Hq) as (-> & _). auto.
  - intros a b. specialize (H3 a b). unfold active_between in *.
    eapply Nat.le_trans; [apply filter_map_le | exact H3].
    intros q Hq. destruct (Hg q Hq) as (_ & Hs & Hr & Ha).
    unfold between. rewrite Hs, Hr. intros E.
    apply andb_true_iff in E as (E1 & E2). rewrite E1, (Ha E2). reflexivity.
Qed.

Lemma req_inv_replace rs n r r' :
  req_inv rs n ->
  In r rs ->
  _id r' = _id r -> sender r' = sender r -> recipient r' = recipient r ->
  (is_active r' = true -> is_active r = true) ->
  req_inv (map (fun q => if _id q =? _id r' then r' else q) rs) n.
Proof.
  intros H Hin Hid Hs Hr Ha.
  apply req_inv_update; [assumption|]. intros q Hq.
  destruct (_id q =? _id r') eqn:E; [|auto].
  apply Z.eqb_eq in E. rewrite Hid in E.
  assert (q = r) as -> by (destruct H as (Hnd & _); eapply unique_by_id; eauto).
  auto.
Qed.

Lemma find_none_filter {A : Type} (f : A -> bool) (l : list A) :
  find f l = None -> filter f l = [].
Proof.
  induction l as [|x r IH]; simpl; [reflexivity|].
  destruct (f x); [discriminate | assumption].
Qed.

Lemma req_inv_append rs n r :
  req_inv rs n ->
  _id r = n ->
  existsBetweenUsers rs (sender r) (recipient r) = None ->
  req_inv (rs ++ [r]) (n + 1).
Proof.
  intros (H1 & H2 & H3) Hid Hnone. repeat split.
  - rewrite map_app. simpl. apply NoDup_app; [assumption | repeat constructor; auto | ].
    intros x Hx. simpl. intros [E | []].
    apply in_map_iff in Hx as (q & <- & Hq). rewrite Forall_forall in H2.
    specialize (H2 q Hq). lia.
  - apply Forall_app. split.
    + eapply Forall_impl; [|exact H2]. simpl. intros; lia.
    + repeat constructor. lia.
  - intros a b. unfold active_between. rewrite filter_app, length_app. simpl.
    destruct (between a b r && is_active r) eqn:E.
    + apply andb_true_iff in E as (E & _).
      erewrite filter_ext; [|intros q; rewrite (between_pair a b r E q); reflexivity].
      unfold existsBetweenUsers in Hnone. rewrite (find_none_filter _ _ Hnone).
      simpl. lia.
    + specialize (H3 a b). unfold active_between in H3. simpl. lia.
Qed.

End RequestSpec.

Module RequestReachable.

Import MessageRequest RequestSpec.

Ltac created :=
  repeat match goal with
    | E : create_message _ _ _ _ _ _ _ _ = Ok (_, _) |- _ =>
        apply create_message_frame in E;
        destruct E as (_ & ? & _ & _ & _ & ?)
    end.

(** Push the goal down to the request collection and the id counter of the
    database the handler started from. *)
Ltac frames :=
  created; unfold save_request; autorewrite with frame in *;
  repeat match goal with
    | E : requests ?d = _ |- context [requests ?d] => rewrite E
    | E : nextId ?d = _ |- context [nextId ?d] => rewrite E
    end.

Lemma sendRequest_checked_inv env db s r m src anon rp now :
  db_inv db ->
  existsBetweenUsers (requests db) s r = None ->
  db_inv (fst (RequestController.sendRequest_checked env db s r m src anon rp now)).
Proof.
  unfold db_inv, RequestController.sendRequest_checked. intros H Hnone.
  run_handler; try assumption; autorewrite with frame;
    apply req_inv_append; auto.
Qed.

Lemma existing_is_active rs s r e :
  existsBetweenUsers rs s r = Some e -> is_active e = true.
Proof.
  unfold existsBetweenUsers. intros H. apply find_some in H as (_ & H).
  apply andb_true_iff in H. tauto.
Qed.

Lemma sendRequest_inv env db s r m src anon now :
  db_inv db -> db_inv (fst (RequestController.sendRequest env db s r m src anon now)).
Proof.
  unfold RequestController.sendRequest. intros H.
  run_handler; try assumption;
    try (apply sendRequest_checked_inv; assumption);
    match goal with
    | E : existsBetweenUsers _ _ _ = Some ?e, S : status ?e = _ |- _ =>
        apply existing_is_active in E; unfold is_active in E; rewrite S in E; discriminate
    end.
Qed.

Lemma findPendingFor_in db id u r :
  RequestController.findPendingFor db id u = Some r ->
  In r (requests db) /\ _id r = id /\ recipient r = u /\ status r = pending.
Proof.
  unfold RequestController.findPendingFor. intros H. apply find_some in H as (Hin & H).
  apply andb_true_iff in H as (H & Hs). apply andb_true_iff in H as (Hi & Hr).
  apply Z.eqb_eq in Hi, Hr. destruct (status r); try discriminate. auto.
Qed.

Lemma preSave_fields r now :
  _id (preSave r now) = _id r /\ sender (preSave r now) = sender r
  /\ recipient (preSave r now) = recipient r
  /\ (is_active (preSave r now) = true -> is_active r = true).
Proof.
  unfold preSave. destruct (Status_eqb (status r) pending && (expiresAt r <? now)) eqn:E;
    [|auto].
  repeat split; try reflexivity. intros _.
  apply andb_true_iff in E as (E & _). unfold is_active. rewrite E. reflexivity.
Qed.

(** Saving a found request after one of the model's transitions. *)
Lemma req_inv_transition rs n r r0 now :
  req_inv rs n -> In r rs -> is_active r = true ->
  _id r0 = _id r -> sender r0 = sender r -> recipient r0 = recipient r ->
  req_inv (map (fun q => if _id q =? _id (preSave r0 now) then preSave r0 now else q) rs) n.
Proof.
  intros H Hin Ha Hi Hs Hr.
  destruct (preSave_fields r0 now) as (A & B & C & _).
  apply req_inv_replace with (r := r); auto; congruence.
Qed.

Lemma acceptRequest_inv db u i now :
  db_inv db -> db_inv (fst (RequestController.acceptRequest db u i now)).
Proof.
  unfold db_inv, RequestController.acceptRequest. intros H.
  run_handler; try assumption;
    match goal with
    | E : RequestController.findPendingFor _ _ _ = Some _ |- _ =>
        apply findPendingFor_in in E as (Hin & Hid & Hr & Hs)
    end; frames.
  - eapply req_inv_transition; eauto. unfold is_active. rewrite Hs. reflexivity.
  - apply req_inv_mono with (n := nextId db); [|lia].
    eapply req_inv_transition; eauto. unfold is_active. rewrite Hs. reflexivity.
  - apply req_inv_mono with (n := nextId db); [assumption|lia].
Qed.

Lemma rejectRequest_inv db u i now :
  db_inv db -> db_inv (fst (RequestController.rejectRequest db u i now)).
Proof.
  unfold db_inv, RequestController.rejectRequest. intros H.
  run_handler; try assumption.
  apply findPendingFor_in in Heqo as (Hin & Hid & Hr & Hs). frames.
  eapply req_inv_transition; eauto. unfold is_active. rewrite Hs. reflexivity.
Qed.

Lemma cancelRequest_inv db u i now :
  db_inv db -> db_inv (fst (RequestController.cancelRequest db u i now)).
Proof.
  unfold db_inv, RequestController.cancelRequest, cancel. intros H.
  run_handler; try assumption.
  match goal with
  | E : find _ _ = Some ?q, E' : _ = Ok _ |- _ =>
      apply find_some in E as (Hin & E);
      apply andb_true_iff in E as (_ & E);
      rewrite E in E'; simpl in E'; injection E' as <-;
      assert (Ha : is_active q = true) by (unfold is_active; rewrite E; reflexivity)
  end.
  frames. eapply req_inv_transition; eauto.
Qed.

Lemma markAsRead_inv db u i now :
  db_inv db -> db_inv (fst (RequestController.markAsRead db u i now)).
Proof.
  unfold db_inv, RequestController.markAsRead, markAsRead. intros H.
  run_handler; try assumption;
    match goal with E : find _ _ = Some _ |- _ => apply find_some in E as (Hin & _) end;
    frames.
  - match goal with |- context [preSave ?r0 now] =>
      destruct (preSave_fields r0 now) as (A & B & C & D)
    end.
    eapply req_inv_replace; eauto.
  - eapply req_inv_replace; eauto.
Qed.

Lemma expireOldRequests_inv db now :
  db_inv db -> db_inv (RequestController.expireOldRequests db now).
Proof.
  unfold db_inv, RequestController.expireOldRequests, expireOldRequests, updateMany.
  intros H. autorewrite with frame. apply req_inv_update; [assumption|].
  intros q _. destruct (Status_eqb (status q) pending && (expiresAt q <? now)) eqn:E; [|auto].
  repeat split; try reflexivity. intros _.
  apply andb_true_iff in E as (E & _). unfold is_active. rewrite E. reflexivity.
Qed.

(** The other handlers leave the request collection alone and never lower
    the id counter. *)
Ltac framed H :=
  run_handler; frames; try assumption;
  try (eapply req_inv_mono; [exact H | lia]).

Lemma step_inv env db now a : db_inv db -> db_inv (step env db now a).
Proof.
  intros H. destruct a; cbn [step].
  - now apply sendRequest_inv.
  - now apply acceptRequest_inv.
  - now apply rejectRequest_inv.
  - now apply cancelRequest_inv.
  - now apply markAsRead_inv.
  - now apply expireOldRequests_inv.
  - unfold db_inv in *. unfold MessageController.sendMessage. framed H.
  - unfold db_inv in *. unfold Socket.send_message. framed H.
  - unfold db_inv in *. unfold Socket.mark_read. framed H.
  - unfold db_inv in *. unfold Socket.mark_delivered. framed H.
  - unfold db_inv in *. unfold MessageController.getMessages. framed H.
  - unfold db_inv in *. unfold MessageController.muteConversation. framed H.
  - unfold db_inv in *. unfold MessageController.unmuteConversation. framed H.
  - unfold db_inv in *. unfold MessageController.archiveConversation. framed H.
  - unfold db_inv in *. unfold MessageController.unarchiveConversation. framed H.
  - unfold db_inv in *. unfold MessageController.requestReveal. framed H.
  - unfold db_inv in *. unfold MessageController.revealIdentity. framed H.
  - unfold db_inv in *. unfold PurchaseController.verifyMessagePayment. framed H.
Qed.

Lemma run_inv env trace : forall db, db_inv db -> db_inv (run env db trace).
Proof.
  induction trace as [|[now a] rest IH]; intros db H; simpl; [assumption|].
  apply IH, step_inv, H.
Qed.

Lemma fresh_inv db : fresh db -> db_inv db.
Proof.
  intros (Hr & _). unfold db_inv, req_inv. rewrite Hr. simpl.
  repeat split; [constructor | constructor | intros a b; simpl; lia].
Qed.

End RequestReachable.

(** ** Reachable databases *)

Module Reachable.

(** C8. In every database reached from a fresh one by any sequence of handler
    calls (accept, which creates the conversation, send over HTTP or socket,
    reveal and reveal request, read, mute and unmute, archive and unarchive,
    payment), every stored conversation has exactly two participants and
    [isAnonymous == !(participantA.isRevealed && participantB.isRevealed)]. *)
Theorem isAnonymous_invariant (env : Env) (db0 : DB) (trace : list (Date * Action)) :
  fresh db0 ->
  Forall anonymity_invariant (conversations (run env db0 trace)).
Proof.
  intros (_ & Hc & _).
  apply run_preserves.
  - intros c now op. apply AnonymitySpec.invariant_apply.
  - apply AnonymitySpec.invariant_newConversation.
  - rewrite Hc. constructor.
Qed.

Lemma isAnonymous_invariant_witness :
  fresh Samples.db0
  /\ Forall anonymity_invariant (conversations (run Samples.env Samples.db0 Samples.opening)).
Proof.
  assert (H : fresh Samples.db0) by (repeat split; reflexivity).
  split; [exact H|].
  exact (isAnonymous_invariant Samples.env Samples.db0 Samples.opening H).
Defined.

(** Calls that run one after another.  In every database reached from a
    fresh one by [run], each unordered pair of users has at most one request
    that is pending or accepted, in either direction.  When such a request
    exists, [sendRequest] between the two
    users stores nothing, and once its earlier guards pass (the sender is not
    the recipient, the recipient is an active user with an unbanned profile,
    no block between the two) the response is the 409 conflict. *)
Lemma one_active_request_per_pair_in_turn (env : Env) (db0 : DB) (trace : list (Date * Action)) :
  fresh db0 ->
  let db := run env db0 trace in
  at_most_one_active (requests db)
  /\ forall senderId recipientId message source isAnonymous now existing,
      MessageRequest.existsBetweenUsers (requests db) senderId recipientId = Some existing ->
      fst (RequestController.sendRequest env db senderId recipientId message source
                                         isAnonymous now) = db
      /\ forall recipient recipientProfile,
          senderId <> recipientId ->
          User.findById (users db) recipientId = Some recipient ->
          User.is_active recipient = true ->
          Profile.findOne (profiles db) recipientId = Some recipientProfile ->
          Profile.isBanned recipientProfile = false ->
          Block.hasBlockBetween (blocks db) senderId recipientId = false ->
          exists text_,
            snd (RequestController.sendRequest env db senderId recipientId message source
                                               isAnonymous now)
            = ApiResponse.conflict text_.
Proof.
  intros Hfresh db. split.
  - apply (RequestReachable.run_inv env trace db0 (RequestReachable.fresh_inv db0 Hfresh)).
  - intros s r m src anon now e He.
    pose proof (RequestReachable.existing_is_active _ _ _ _ He) as Ha.
    unfold MessageRequest.is_active in Ha.
    split.
    + unfold RequestController.sendRequest. rewrite He.
      run_handler; try reflexivity; discriminate.
    + intros u rp Hne Hu Hua Hp Hb Hbl.
      unfold RequestController.sendRequest.
      destruct (s =? r) eqn:E; [apply Z.eqb_eq in E; contradiction|].
      rewrite Hu, Hua, Hp, Hb, Hbl, He. simpl.
      destruct (MessageRequest.status e); try discriminate; eexists; reflexivity.
Qed.

Lemma one_active_request_per_pair_in_turn_example :
  fresh Samples.db0
  /\ at_most_one_active (requests Samples.opened)
  /\ exists text_,
      snd (RequestController.sendRequest Samples.env Samples.opened Samples.bob Samples.alice
                                         "hello again" MessageRequest.search true 9000)
      = ApiResponse.conflict text_.
Proof.
  assert (H : fresh Samples.db0) by (repeat split; reflexivity).
  destruct (one_active_request_per_pair_in_turn Samples.env Samples.db0 Samples.opening H)
    as (Hone & Hconflict).
  split; [exact H|]. split; [exact Hone|].
  eapply (proj2 (Hconflict Samples.bob Samples.alice "hello again" MessageRequest.search true
                           9000 _ eq_refl)).
  - intros E. discriminate E.
  - vm_compute. reflexivity.
  - reflexivity.
  - vm_compute. reflexivity.
  - reflexivity.
  - reflexivity.
Defined.

End Reachable.

(** ** Ids as text, and calls that overlap *)

Module ObjectIdFacts.

Import ObjectIdText.

Lemma value_digit n : 0 <= n < 16 -> value (digit n) = Some n.
Proof.
  intros H. rewrite <- (Z2Nat.id n) by lia.
  assert (Hk : (Z.to_nat n < 16)%nat) by lia.
  revert Hk. generalize (Z.to_nat n). clear. intros k Hk.
  do 16 (destruct k as [|k]; [reflexivity|]). lia.
Qed.

Lemma length_digits w id tail :
  String.length (digits w id tail) = (w + String.length tail)%nat.
Proof.
  revert id tail. induction w as [|w IH]; intros id tail; simpl; [reflexivity|].
  rewrite IH. simpl. lia.
Qed.

Lemma parse_digits w : forall id tail acc,
  0 <= id < 16 ^ Z.of_nat w ->
  parse (digits w id tail) acc = parse tail (acc * 16 ^ Z.of_nat w + id).
Proof.
  induction w as [|w IH]; intros id tail acc H.
  - simpl in *. f_equal. lia.
  - rewrite Nat2Z.inj_succ, Z.pow_succ_r in * by lia.
    cbn [digits]. rewrite IH.
    + cbn [parse]. rewrite value_digit by (apply Z.mod_pos_bound; lia).
      f_equal. pose proof (Z.div_mod id 16 ltac:(lia)). lia.
    + split; [apply Z.div_pos; lia|]. apply Z.div_lt_upper_bound; lia.
Qed.

(** An id printed and cast again is the same id. *)
Lemma cast_toString id : 0 <= id < 16 ^ 24 -> cast (toString id) = Some id.
Proof.
  intros H. unfold cast, toString. rewrite length_digits. cbn [Nat.add String.length Nat.eqb].
  rewrite (parse_digits 24 id "" 0 H). reflexivity.
Qed.

Lemma toString_inj a b :
  0 <= a < 16 ^ 24 -> 0 <= b < 16 ^ 24 -> toString a = toString b -> a = b.
Proof.
  intros Ha Hb E. pose proof (cast_toString a Ha) as Ca. rewrite E, (cast_toString b Hb) in Ca.
  congruence.
Qed.

End ObjectIdFacts.

Module AsyncFacts.

Import MessageRequest ApiResponse.

Lemma update_profile_save ps u p f :
  Profile.findOne ps u = Some p -> Profile.user (f p) = Profile.user p ->
  Async.update_profile u f ps = Profile.save ps (f p).
Proof.
  unfold Profile.findOne. intros H Hu.
  assert (Hp : Profile.user p = u) by (apply find_some in H as (_ & H); now apply Z.eqb_eq).
  induction ps as [|q r IH]; simpl in *; [discriminate H|].
  rewrite Hu, Hp.
  destruct (Profile.user q =? u) eqn:E.
  - injection H as ->. reflexivity.
  - f_equal. exact (IH H).
Qed.

Lemma findOne_save_other ps q u :
  Profile.user q <> u -> Profile.findOne (Profile.save ps q) u = Profile.findOne ps u.
Proof.
  unfold Profile.findOne. intros Hne.
  induction ps as [|x r IH]; simpl; [reflexivity|].
  destruct (Profile.user x =? Profile.user q) eqn:E; simpl.
  - apply Z.eqb_eq in E.
    replace (Profile.user q =? u) with false by (symmetry; apply Z.eqb_neq; exact Hne).
    replace (Profile.user x =? u) with false by (symmetry; apply Z.eqb_neq; congruence).
    reflexivity.
  - destruct (Profile.user x =? u); [reflexivity | exact IH].
Qed.

Lemma findOne_user ps u p : Profile.findOne ps u = Some p -> Profile.user p = u.
Proof.
  unfold Profile.findOne. intros H. apply find_some in H as (_ & H). now apply Z.eqb_eq.
Qed.

(** Run alone on a recipient id in its printed form, with an expiry that is
    not already past, the call is the handler of [RequestController]. *)
Lemma sendRequest_alone env db senderId recipient_ recipientId message source isAnonymous now :
  ObjectIdText.cast recipientId = Some recipient_ ->
  ObjectIdText.toString senderId <> recipientId ->
  senderId <> recipient_ ->
  0 <= RequestController.expiryDays env ->
  complete (Async.sendRequest env senderId recipientId message source isAnonymous now) db
  = RequestController.sendRequest env db senderId recipient_ message source isAnonymous now.
Proof.
  intros Hcast Htext Hne Hdays.
  unfold Async.sendRequest, RequestController.sendRequest.
  apply String.eqb_neq in Htext. rewrite Htext, Hcast.
  replace (senderId =? recipient_) with false by (symmetry; now apply Z.eqb_neq).
  cbn [complete query].
  destruct (User.findById (users db) recipient_) as [u|]; [|reflexivity].
  destruct (negb (User.is_active u)); [reflexivity|]. cbn [complete query].
  destruct (Profile.findOne (profiles db) recipient_) as [rp|] eqn:Erp; [|reflexivity].
  destruct (Profile.isBanned rp); [reflexivity|]. cbn [complete query].
  destruct (Block.hasBlockBetween (blocks db) senderId recipient_); [reflexivity|].
  cbn [complete query].
  assert (Hrest :
    complete (Async.sendRequest_checked env senderId recipient_ message source isAnonymous
                                        rp now) db
    = RequestController.sendRequest_checked env db senderId recipient_ message source
                                            isAnonymous rp now).
  { unfold Async.sendRequest_checked, RequestController.sendRequest_checked.
    cbn [complete query]. cbv zeta.
    destruct (_ <=? _); [reflexivity|].
    destruct (isAnonymous && negb _); [reflexivity|]. cbn [complete query].
    destruct (RequestController.preferenceRejection rp _); [reflexivity|].
    unfold Async.sendRequest_create. cbn [complete]. unfold Async.create.
    destruct (validate message) as [im|e]; [|reflexivity].
    cbv zeta. destruct (duplicate_key _ _ _); [reflexivity|].
    unfold preSave. cbn [status expiresAt Status_eqb andb].
    replace (now + RequestController.expiryDays env * 24 * 60 * 60 * 1000 <? now) with false
      by (symmetry; apply Z.ltb_ge; lia).
    destruct (Profile.findOne (profiles db) senderId) as [sp|] eqn:Esp.
    - cbn [complete write]. f_equal.
      pose proof (findOne_user _ _ _ Esp) as Hs. pose proof (findOne_user _ _ _ Erp) as Hr.
      unfold Async.bump_requestsReceived, Async.bump_requestsSent.
      cbn [profiles set_profiles bump_id set_requests].
      rewrite (update_profile_save _ _ sp
                 (Async.set_requestsSent (Profile.requestsSent sp + 1)) Esp eq_refl).
      change (Async.set_requestsSent (Profile.requestsSent sp + 1) sp)
        with (Profile.bump_sent sp).
      rewrite (update_profile_save _ recipient_ rp
                 (Async.set_requestsReceived (Profile.requestsReceived rp + 1)));
        [reflexivity | | reflexivity].
      rewrite findOne_save_other; [exact Erp|]. simpl. congruence.
    - cbn [complete write]. f_equal. unfold Async.bump_requestsReceived.
      cbn [profiles set_profiles bump_id set_requests].
      rewrite (update_profile_save _ recipient_ rp
                 (Async.set_requestsReceived (Profile.requestsReceived rp + 1)) Erp eq_refl).
      reflexivity. }
  destruct (existsBetweenUsers (requests db) senderId recipient_) as [e|]; cbn [option_map].
  - destruct (status e); try reflexivity; exact Hrest.
  - exact Hrest.
Qed.


(** What a [sendRequest] call that runs alone does: nothing, with an answer
    other than 201; or its guards passed, the request was created, and the
    two profile counters were written. *)
Lemma sendRequest_call env db db' s raw m src anon now response :
  complete (Async.sendRequest env s raw m src anon now) db = (db', response) ->
  (db' = db /\ forall t, response <> created t)
  \/ exists r db1 request,
       ObjectIdText.toString s <> raw
       /\ ObjectIdText.cast raw = Some r
       /\ Block.hasBlockBetween (blocks db) s r = false
       /\ existsBetweenUsers (requests db) s r = None
       /\ countTodayRequestsBySender (requests db) s (tzOffset env) now
          < AppConfig.dailyFreeRequests (AppConfig.microPayments (config db))
       /\ Async.create env db s r m anon src now = Ok (db1, request)
       /\ requests db' = requests db1
       /\ conversations db' = conversations db1
       /\ messages db' = messages db1
       /\ nextId db' = nextId db1
       /\ response = created "Request sent successfully".
Proof.
  intros H. unfold Async.sendRequest in H.
  destruct (String.eqb (ObjectIdText.toString s) raw) eqn:Eself;
    [injection H as <- <-; left; split; [reflexivity | intros ? Ht; discriminate Ht]|].
  apply String.eqb_neq in Eself.
  destruct (ObjectIdText.cast raw) as [r|] eqn:Ecast;
    [|injection H as <- <-; left; split; [reflexivity | intros ? Ht; discriminate Ht]].
  cbn [complete query] in H.
  destruct (User.findById (users db) r) as [u|];
    [|injection H as <- <-; left; split; [reflexivity | intros ? Ht; discriminate Ht]].
  destruct (negb (User.is_active u));
    [injection H as <- <-; left; split; [reflexivity | intros ? Ht; discriminate Ht]|].
  cbn [complete query] in H.
  destruct (Profile.findOne (profiles db) r) as [rp|];
    [|injection H as <- <-; left; split; [reflexivity | intros ? Ht; discriminate Ht]].
  destruct (Profile.isBanned rp);
    [injection H as <- <-; left; split; [reflexivity | intros ? Ht; discriminate Ht]|].
  cbn [complete query] in H.
  destruct (Block.hasBlockBetween (blocks db) s r) eqn:Eb;
    [injection H as <- <-; left; split; [reflexivity | intros ? Ht; discriminate Ht]|].
  cbn [complete query] in H.
  destruct (existsBetweenUsers (requests db) s r) as [e|] eqn:Ee.
  { pose proof (RequestReachable.existing_is_active _ _ _ _ Ee) as Ha.
    unfold is_active in Ha. cbn [option_map] in H.
    destruct (status e); try discriminate Ha;
      injection H as <- <-; left; split; try reflexivity; intros ? Ht; discriminate Ht. }
  cbn [option_map] in H. unfold Async.sendRequest_checked in H.
  cbn [complete query] in H. cbv zeta in H.
  destruct (_ <=? _) eqn:Elim;
    [injection H as <- <-; left; split; [reflexivity | intros ? Ht; discriminate Ht]|].
  destruct (anon && negb _);
    [injection H as <- <-; left; split; [reflexivity | intros ? Ht; discriminate Ht]|].
  cbn [complete query] in H.
  destruct (RequestController.preferenceRejection rp _);
    [injection H as <- <-; left; split; [reflexivity | intros ? Ht; discriminate Ht]|].
  unfold Async.sendRequest_create in H. cbn [complete] in H.
  destruct (Async.create env db s r m anon src now) as [[db1 request]|e] eqn:Ec;
    [|injection H as <- <-; left; split; [reflexivity | intros ? Ht; discriminate Ht]].
  right. exists r, db1, request. apply Z.leb_gt in Elim.
  split; [exact Eself|]. split; [reflexivity|]. split; [exact Eb|]. split; [exact Ee|].
  split; [exact Elim|]. split; [exact Ec|].
  destruct (Profile.findOne (profiles db) s); cbn [complete write] in H;
    injection H as <- <-; repeat split; reflexivity.
Qed.

(** Run alone on another user's id in its printed form, the call is the
    handler of [BlockController]. *)
Lemma blockUser_alone db me blocked_ userId reason additionalNotes source now :
  ObjectIdText.cast userId = Some blocked_ ->
  userId <> ObjectIdText.toString me ->
  blocked_ <> me ->
  complete (Async.blockUser me userId reason additionalNotes source now) db
  = (let '(db', stamp, response) :=
       BlockController.blockUser db me blocked_ reason additionalNotes source now in
     (db', (stamp, response))).
Proof.
  intros Hcast Htext Hne. unfold Async.blockUser, BlockController.blockUser.
  apply String.eqb_neq in Htext. rewrite Htext, Hcast.
  replace (blocked_ =? me) with false by (symmetry; now apply Z.eqb_neq).
  cbn [complete query].
  destruct (User.findById (users db) blocked_); [|reflexivity]. cbn [complete query].
  destruct (BlockController.findBlock (blocks db) me blocked_) eqn:Eb; [reflexivity|].
  cbn [complete]. destruct (negb _); [reflexivity|]. rewrite Eb. cbn [complete query].
  cbv zeta.
  destruct (find _ _); reflexivity.
Qed.

End AsyncFacts.

Module Overlap.

Import MessageRequest ApiResponse AsyncSamples.

(** C6. Two [sendRequest] calls that cross.  Alice writes to Bob while Bob
    writes to Alice, in a database without requests.  When one call runs
    after the other, the second finds the first one's request and answers
    409.  When the two calls take turns at the database, both look for a
    request between the two users before either has created one: both answer
    201 and two pending requests between Alice and Bob are stored, one in
    each direction, so the pair has more than one active request.  The unique
    index stops the overlap only when both calls go in the same direction. *)
Theorem crossing_requests_are_both_stored :
  (let (db1, first) := complete toBob Samples.db0 in
   let (db2, second) := complete toAlice db1 in
   first = created "Request sent successfully"
   /\ second = conflict "A request already exists with this user"
   /\ map (fun r => (sender r, recipient r, status r)) (requests db2)
      = [(Samples.alice, Samples.bob, pending)])
  /\ (let (db2, calls) := interleave taking_turns Samples.db0 [toBob; toAlice] in
      map answer calls = [Some (created "Request sent successfully");
                          Some (created "Request sent successfully")]
      /\ map (fun r => (sender r, recipient r, status r))
             (active_between (requests db2) Samples.alice Samples.bob)
         = [(Samples.alice, Samples.bob, pending); (Samples.bob, Samples.alice, pending)]
      /\ ~ at_most_one_active (requests db2))
  /\ (let (db2, calls) := interleave taking_turns Samples.db0 [toBob; toBob] in
      map answer calls = [Some (created "Request sent successfully");
                          Some (error "Error sending request")]
      /\ map (fun r => (sender r, recipient r, status r)) (requests db2)
         = [(Samples.alice, Samples.bob, pending)]).
Proof.
  split; [|split].
  - destruct (complete toBob Samples.db0) as [db1 first] eqn:E1.
    vm_compute in E1. injection E1 as <- <-.
    match goal with |- context [complete toAlice ?d] =>
      destruct (complete toAlice d) as [db2 second] eqn:E2 end.
    vm_compute in E2. injection E2 as <- <-.
    repeat split; reflexivity.
  - destruct (interleave taking_turns Samples.db0 [toBob; toAlice]) as [db2 calls] eqn:E.
    vm_compute in E. injection E as <- <-.
    split; [reflexivity|]. split; [reflexivity|].
    intros H. specialize (H Samples.alice Samples.bob). vm_compute in H. lia.
  - destruct (interleave taking_turns Samples.db0 [toBob; toBob]) as [db2 calls] eqn:E.
    vm_compute in E. injection E as <- <-.
    split; reflexivity.
Qed.

End Overlap.

(** ** Accepting an expired request *)

Module ExpirySpec.

Import MessageRequest ApiResponse.

Lemma find_by_id (rs : list MessageRequest.t) (r : MessageRequest.t)
      (g : MessageRequest.t -> bool) :
  NoDup (map _id rs) -> In r rs ->
  find (fun q => (_id q =? _id r) && g q) rs = if g r then Some r else None.
Proof.
  induction rs as [|x l IH]; simpl; intros Hnd Hin; [contradiction|].
  inversion Hnd as [|? ? Hx Hl]; subst.
  destruct Hin as [->|Hin].
  - rewrite Z.eqb_refl. simpl. destruct (g r) eqn:E; [reflexivity|].
    assert (Hnone : forall l', ~ In (_id r) (map _id l') ->
                               find (fun q => (_id q =? _id r) && g q) l' = None).
    { induction l' as [|y l' IH']; simpl; intros Hn; [reflexivity|].
      destruct (_id y =? _id r) eqn:Ey.
      - apply Z.eqb_eq in Ey. exfalso. apply Hn. left. exact Ey.
      - simpl. apply IH'. intros Hc. apply Hn. right. exact Hc. }
    apply Hnone, Hx.
  - destruct (_id x =? _id r) eqn:Ex.
    + apply Z.eqb_eq in Ex. exfalso. apply Hx. rewrite Ex. now apply in_map.
    + simpl. apply IH; assumption.
Qed.

Lemma find_pointwise {A : Type} (f g : A -> bool) (l : list A) :
  (forall x, f x = g x) -> find f l = find g l.
Proof.
  intros H. induction l as [|x r IH]; simpl; [reflexivity|].
  rewrite H, IH. reflexivity.
Qed.

Lemma find_all_false {A : Type} (f : A -> bool) (l : list A) :
  (forall x, In x l -> f x = false) -> find f l = None.
Proof.
  induction l as [|x r IH]; simpl; intros H; [reflexivity|].
  rewrite (H x (or_introl eq_refl)). apply IH. intros y Hy. apply H. now right.
Qed.

Lemma findPendingFor_unique db r userId :
  NoDup (map _id (requests db)) -> In r (requests db) -> status r = pending ->
  RequestController.findPendingFor db (_id r) userId
  = if recipient r =? userId then Some r else None.
Proof.
  intros Hnd Hin Hs. unfold RequestController.findPendingFor.
  rewrite (find_pointwise _
             (fun q => (_id q =? _id r)
                       && ((recipient q =? userId) && Status_eqb (status q) pending))).
  - rewrite (find_by_id (requests db) r
               (fun q => (recipient q =? userId) && Status_eqb (status q) pending) Hnd Hin).
    rewrite Hs. simpl. rewrite andb_true_r. reflexivity.
  - intros q. simpl. rewrite andb_assoc. reflexivity.
Qed.

(** C5. Take a stored request (ids are unique in the collection) that is
    pending and whose [expiresAt] is before [now].  Whoever calls accept on
    it, no conversation and no message is created.  When the caller is the
    recipient the response is the 400 'Request has expired' and the stored
    request becomes [expired]; any other caller gets the 404.  From the
    resulting database every later accept of that request, by anyone at any
    time, answers 404 and changes nothing. *)
Theorem accept_expired_request (db : DB) (r : MessageRequest.t) (userId : ObjectId)
        (now : Date) :
  NoDup (map _id (requests db)) ->
  In r (requests db) ->
  status r = pending ->
  expiresAt r < now ->
  let res := RequestController.acceptRequest db userId (_id r) now in
  conversations (fst res) = conversations db
  /\ messages (fst res) = messages db
  /\ (userId <> recipient r ->
      res = (db, notFound "Request not found or already processed"))
  /\ (userId = recipient r ->
      snd res = badRequest "Request has expired"
      /\ requests (fst res)
         = map (fun q => if _id q =? _id r then set_status expired r else q) (requests db)
      /\ In (set_status expired r) (requests (fst res))
      /\ forall caller later,
          RequestController.acceptRequest (fst res) caller (_id r) later
          = (fst res, notFound "Request not found or already processed")).
Proof.
  intros Hnd Hin Hs Hexp res. subst res.
  unfold RequestController.acceptRequest.
  rewrite (findPendingFor_unique db r userId Hnd Hin Hs).
  assert (Hlt : (expiresAt r <? now) = true) by (apply Z.ltb_lt; exact Hexp).
  assert (Hpre : preSave (set_status expired r) now = set_status expired r) by reflexivity.
  destruct (recipient r =? userId) eqn:E.
  - apply Z.eqb_eq in E. rewrite Hlt, Hpre. cbn [fst snd].
    split; [reflexivity|]. split; [reflexivity|].
    split; [intros Hne; congruence|]. intros _.
    split; [reflexivity|]. split; [reflexivity|]. split.
    + unfold save_request. rewrite requests_set_requests.
      apply in_map_iff. exists r. rewrite Z.eqb_refl. auto.
    + intros caller later.
      assert (Hnone : RequestController.findPendingFor
                        (save_request db (set_status expired r)) (_id r) caller = None).
      { unfold RequestController.findPendingFor, save_request.
        rewrite requests_set_requests. apply find_all_false.
        intros x Hx. apply in_map_iff in Hx as (q & <- & Hq).
        simpl. destruct (_id q =? _id r) eqn:Eq; simpl.
        - rewrite Z.eqb_refl. simpl. apply andb_false_r.
        - rewrite Eq. reflexivity. }
      rewrite Hnone. reflexivity.
  - cbn [fst snd]. split; [reflexivity|]. split; [reflexivity|].
    split; [reflexivity|]. intros ->. rewrite Z.eqb_refl in E. discriminate.
Qed.

Lemma accept_expired_request_witness :
  NoDup (map _id (requests Samples.asked))
  /\ snd (RequestController.acceptRequest Samples.asked Samples.bob 100 Samples.after_expiry)
     = badRequest "Request has expired".
Proof.
  assert (Hnd : NoDup (map _id (requests Samples.asked)))
    by (vm_compute; repeat constructor; simpl; tauto).
  split; [exact Hnd|].
  refine (proj1 (proj2 (proj2 (proj2
            (accept_expired_request Samples.asked
               (MessageRequest.mk 100 Samples.alice Samples.bob "hi there" pending true
                                  search None 604801000 None None None false None false 1000)
               Samples.bob Samples.after_expiry Hnd _ eq_refl _))) eq_refl)).
  - vm_compute. left. reflexivity.
  - vm_compute. reflexivity.
Defined.

End ExpirySpec.

(** ** Drawing requests from packs *)

Module PackSpec.

Import PurchasedPack.

Lemma insert_by_expiry_perm p l : Permutation (p :: l) (insert_by_expiry p l).
Proof.
  induction l as [|q r IH]; simpl; [reflexivity|].
  destruct (expiresAt p <=? expiresAt q); [reflexivity|].
  rewrite perm_swap. now apply perm_skip.
Qed.

Lemma sort_by_expiry_perm l : Permutation l (sort_by_expiry l).
Proof.
  induction l as [|p r IH]; simpl; [reflexivity|].
  rewrite <- insert_by_expiry_perm. now apply perm_skip.
Qed.

Lemma insert_by_expiry_sorted p l :
  Sorted by_expiry l -> Sorted by_expiry (insert_by_expiry p l).
Proof.
  induction l as [|q r IH]; simpl; intros Hs.
  - repeat constructor.
  - destruct (expiresAt p <=? expiresAt q) eqn:E.
    + constructor; [assumption|]. constructor. apply Z.leb_le, E.
    + apply Z.leb_gt in E. inversion Hs as [|? ? Hr Hhd]; subst.
      constructor; [apply IH, Hr|].
      destruct r as [|y r']; simpl.
      * constructor. unfold by_expiry. lia.
      * destruct (expiresAt p <=? expiresAt y).
        -- constructor. unfold by_expiry. lia.
        -- inversion Hhd; subst. now constructor.
Qed.

Lemma sort_by_expiry_sorted l : Sorted by_expiry (sort_by_expiry l).
Proof.
  induction l as [|p r IH]; simpl; [constructor|]. now apply insert_by_expiry_sorted.
Qed.

Lemma sum_remaining_perm l l' : Permutation l l' -> sum_remaining l = sum_remaining l'.
Proof.
  induction 1; simpl; lia.
Qed.

Lemma sum_remaining_nonneg l :
  Forall (fun p => 0 <= requestsRemaining p) l -> 0 <= sum_remaining l.
Proof.
  induction 1; simpl; lia.
Qed.

Lemma total_is_sum ps userId now :
  getTotalRemainingRequests ps userId now = sum_remaining (getActivePacks ps userId now).
Proof.
  unfold getTotalRemainingRequests, getActivePacks.
  apply (sum_remaining_perm _ _ (sort_by_expiry_perm _)).
Qed.

(** While the packs hold less than what is asked for, the loop empties one
    pack after the other and never breaks out. *)
Lemma loop_drains (l : list PurchasedPack.t) :
  forall st remaining,
    Forall (fun p => status p = active /\ 0 <= requestsRemaining p) l ->
    sum_remaining l < remaining ->
    useFromPacks_loop st l remaining
    = (fold_left (fun st p => save st (drained p)) l st, Ok (remaining - sum_remaining l)).
Proof.
  induction l as [|p r IH]; intros st remaining Hall Hlt; simpl.
  - rewrite Z.sub_0_r. reflexivity.
  - inversion Hall as [|? ? (Hs & Hp) Hr]; subst. simpl in Hlt.
    assert (Hnn : 0 <= sum_remaining r).
    { apply sum_remaining_nonneg. eapply Forall_impl; [|exact Hr]. simpl. tauto. }
    destruct (remaining <=? 0) eqn:E; [apply Z.leb_le in E; lia|].
    rewrite Z.min_r by lia.
    unfold useRequests. rewrite Hs. simpl.
    rewrite Z.ltb_irrefl, Z.sub_diag. simpl.
    change (set_usage (requestsUsed p + requestsRemaining p) 0 exhausted p) with (drained p).
    rewrite IH by (auto; lia). f_equal. f_equal. lia.
Qed.

Lemma save_ids st x : map _id (save st x) = map _id st.
Proof.
  unfold save. rewrite map_map. apply map_ext_in. intros q _.
  destruct (_id q =? _id x) eqn:E; [apply Z.eqb_eq in E; congruence | reflexivity].
Qed.

Lemma unique_pack (ps : list PurchasedPack.t) (q r : PurchasedPack.t) :
  NoDup (map _id ps) -> In q ps -> In r ps -> _id q = _id r -> q = r.
Proof.
  induction ps as [|x l IH]; simpl; intros Hnd Hq Hr E; [contradiction|].
  inversion Hnd as [|? ? Hx Hl]; subst.
  destruct Hq as [->|Hq], Hr as [->|Hr]; auto.
  - exfalso. apply Hx. rewrite E. now apply in_map.
  - exfalso. apply Hx. rewrite <- E. now apply in_map.
Qed.

Lemma existsb_absent (l : list PurchasedPack.t) (i : ObjectId) :
  ~ In i (map _id l) -> existsb (fun p => _id p =? i) l = false.
Proof.
  induction l as [|x r IH]; simpl; intros H; [reflexivity|].
  destruct (_id x =? i) eqn:E; [apply Z.eqb_eq in E; tauto | apply IH; tauto].
Qed.

(** The saves of the loop, seen on the whole collection. *)
Lemma drain_all (l : list PurchasedPack.t) :
  forall st,
    NoDup (map _id st) -> NoDup (map _id l) -> (forall p, In p l -> In p st) ->
    fold_left (fun st p => save st (drained p)) l st
    = map (fun q => if existsb (fun p => _id p =? _id q) l then drained q else q) st.
Proof.
  induction l as [|p r IH]; intros st Hst Hl Hsub; simpl.
  - symmetry. apply map_id.
  - inversion Hl as [|? ? Hp Hr]; subst.
    rewrite IH.
    + unfold save. rewrite map_map. apply map_ext_in. intros q Hq.
      change (_id (drained p)) with (_id p).
      destruct (_id q =? _id p) eqn:E.
      * apply Z.eqb_eq in E.
        assert (q = p) as -> by exact (unique_pack st q p Hst Hq (Hsub p (or_introl eq_refl)) E).
        change (_id (drained p)) with (_id p).
        rewrite Z.eqb_refl, (existsb_absent r (_id p) Hp). reflexivity.
      * rewrite Z.eqb_sym, E. reflexivity.
    + rewrite save_ids. assumption.
    + assumption.
    + intros p' Hp'. unfold save. apply in_map_iff. exists p'.
      change (_id (drained p)) with (_id p).
      destruct (_id p' =? _id p) eqn:E.
      * apply Z.eqb_eq in E. exfalso. apply Hp. rewrite <- E. now apply in_map.
      * split; [reflexivity|]. apply Hsub. now right.
Qed.

Lemma NoDup_ids_filter (f : PurchasedPack.t -> bool) (ps : list PurchasedPack.t) :
  NoDup (map _id ps) -> NoDup (map _id (filter f ps)).
Proof.
  induction ps as [|x l IH]; simpl; intros H; [constructor|].
  inversion H as [|? ? Hx Hl]; subst.
  destruct (f x); simpl; [|auto].
  constructor; [|auto]. intros Hin. apply Hx.
  apply in_map_iff in Hin as (q & Eq & Hq). apply filter_In in Hq as (Hq & _).
  rewrite <- Eq. now apply in_map.
Qed.

Lemma active_iff_usable ps userId now q :
  NoDup (map _id ps) -> In q ps ->
  existsb (fun p => _id p =? _id q) (getActivePacks ps userId now) = usable userId now q.
Proof.
  intros Hnd Hq. unfold getActivePacks.
  destruct (usable userId now q) eqn:E.
  - apply existsb_exists. exists q. split; [|apply Z.eqb_refl].
    apply (Permutation_in _ (sort_by_expiry_perm _)). apply filter_In. auto.
  - destruct (existsb _ _) eqn:Ex; [|reflexivity].
    apply existsb_exists in Ex as (p & Hp & Eid). apply Z.eqb_eq in Eid.
    apply (Permutation_in _ (Permutation_sym (sort_by_expiry_perm _))) in Hp.
    apply filter_In in Hp as (Hp & Hu).
    assert (p = q) as -> by exact (unique_pack ps p q Hnd Hp Hq Eid). congruence.
Qed.

Lemma drained_not_usable userId now q :
  usable userId now (if usable userId now q then drained q else q) = false.
Proof.
  destruct (usable userId now q) eqn:E; [|exact E].
  unfold usable, drained. simpl. rewrite andb_false_r. reflexivity.
Qed.

Lemma filter_map_none {A : Type} (f : A -> bool) (g : A -> A) (l : list A) :
  (forall q, f (g q) = false) -> filter f (map g l) = [].
Proof.
  intros H. induction l as [|x r IH]; simpl; [reflexivity|]. rewrite H. exact IH.
Qed.

(** C10. Let the packs of a user that are active and not expired hold
    non-negative counts whose total is positive but below [count] (ids are
    unique in the collection).  Then [useFromPacks] throws 'Not enough
    purchased requests', and the collection it leaves behind differs from the
    one it started from: every one of those packs was saved with all its
    remaining requests moved to [requestsUsed], [requestsRemaining] 0 and
    status [exhausted], one pack after the other in ascending [expiresAt]
    order, so that the user's balance is 0 after the failed call. *)
Theorem useFromPacks_not_atomic (ps : list PurchasedPack.t) (userId : ObjectId)
        (count : Z) (now : Date) :
  NoDup (map _id ps) ->
  Forall (fun p => usable userId now p = true -> 0 <= requestsRemaining p) ps ->
  0 < getTotalRemainingRequests ps userId now < count ->
  let packs := getActivePacks ps userId now in
  let ps' := map (fun q => if usable userId now q then drained q else q) ps in
  useFromPacks ps userId count now = (ps', Err "Not enough purchased requests")
  /\ ps' = fold_left (fun st p => save st (drained p)) packs ps
  /\ Sorted by_expiry packs
  /\ getTotalRemainingRequests ps' userId now = 0
  /\ ps' <> ps.
Proof.
  intros Hnd Hnn (Hpos & Hlt) packs ps'.
  assert (Hperm : Permutation (filter (usable userId now) ps) packs)
    by apply sort_by_expiry_perm.
  assert (Hall : Forall (fun p => status p = active /\ 0 <= requestsRemaining p) packs).
  { rewrite Forall_forall in *. intros p Hp.
    apply (Permutation_in _ (Permutation_sym Hperm)) in Hp.
    apply filter_In in Hp as (Hp & Hu). split; [|auto].
    unfold usable in Hu. apply andb_true_iff in Hu as (Hu & _).
    apply andb_true_iff in Hu as (_ & Hu). destruct (status p); try discriminate; reflexivity. }
  assert (Hfold : ps' = fold_left (fun st p => save st (drained p)) packs ps).
  { rewrite drain_all.
    - subst ps'. apply map_ext_in. intros q Hq.
      fold packs. unfold packs. rewrite active_iff_usable by assumption. reflexivity.
    - assumption.
    - apply (Permutation_NoDup (Permutation_map _id Hperm)), NoDup_ids_filter, Hnd.
    - intros p Hp. apply (Permutation_in _ (Permutation_sym Hperm)) in Hp.
      apply filter_In in Hp. tauto. }
  assert (Hzero : getTotalRemainingRequests ps' userId now = 0).
  { unfold getTotalRemainingRequests. subst ps'.
    rewrite filter_map_none; [reflexivity|]. intros q. apply drained_not_usable. }
  rewrite total_is_sum in Hpos, Hlt. fold packs in Hpos, Hlt.
  repeat split.
  - unfold useFromPacks. fold packs.
    rewrite (loop_drains packs ps count Hall Hlt), <- Hfold.
    destruct (0 <? count - sum_remaining packs) eqn:E; [reflexivity|].
    apply Z.ltb_ge in E. lia.
  - exact Hfold.
  - apply sort_by_expiry_sorted.
  - exact Hzero.
  - intros Heq. rewrite Heq, total_is_sum in Hzero. fold packs in Hzero. lia.
Qed.

Lemma useFromPacks_not_atomic_witness :
  0 < getTotalRemainingRequests Samples.two_packs Samples.alice 1000 < 8
  /\ useFromPacks Samples.two_packs Samples.alice 8 1000
     = (map (fun q => if usable Samples.alice 1000 q then drained q else q)
            Samples.two_packs,
        Err "Not enough purchased requests").
Proof.
  assert (Hnd : NoDup (map _id Samples.two_packs))
    by (simpl; repeat constructor; simpl; intuition discriminate).
  assert (Hnn : Forall (fun p => usable Samples.alice 1000 p = true -> 0 <= requestsRemaining p)
                       Samples.two_packs)
    by (repeat constructor; simpl; intros; lia).
  assert (Hb : 0 < getTotalRemainingRequests Samples.two_packs Samples.alice 1000 < 8)
    by (vm_compute; split; reflexivity).
  split; [exact Hb|].
  exact (proj1 (useFromPacks_not_atomic Samples.two_packs Samples.alice 8 1000 Hnd Hnn Hb)).
Defined.

End PackSpec.

(** ** Delivery status *)

Module DeliverySpec.

Import Message.

Lemma markAsRead_rank m now : delivery_rank (deliveryStatus m)
                              <= delivery_rank (deliveryStatus (markAsRead m now)).
Proof.
  unfold markAsRead. destruct (negb (isRead m)); simpl; [|lia].
  destruct (deliveryStatus m); simpl; lia.
Qed.

Lemma markAsDelivered_rank m now : delivery_rank (deliveryStatus m)
                                   <= delivery_rank (deliveryStatus (markAsDelivered m now)).
Proof.
  unfold markAsDelivered. destruct (deliveryStatus m) eqn:E; simpl; rewrite ?E; simpl; lia.
Qed.

Lemma updateMany_rank (f : Message.t -> bool) (g : Message.t -> Message.t) ms :
  (forall m, f m = true ->
             delivery_rank (deliveryStatus m) <= delivery_rank (deliveryStatus (g m))) ->
  Forall2 (fun m m' => delivery_rank (deliveryStatus m) <= delivery_rank (deliveryStatus m'))
          ms (updateMany f g ms).
Proof.
  intros H. induction ms as [|m r IH]; simpl; constructor; [|exact IH].
  destruct (f m) eqn:E; [apply H, E | lia].
Qed.

(** No acknowledgement, single or batched, moves a message back along
    sent -> delivered -> read. *)
Lemma delivery_never_regresses ms userId conversationId messageIds now :
  let ordered := Forall2 (fun m m' => delivery_rank (deliveryStatus m)
                                      <= delivery_rank (deliveryStatus m')) ms in
  ordered (Socket.mark_read_messages ms userId messageIds now)
  /\ ordered (Socket.mark_delivered_messages ms userId messageIds now)
  /\ ordered (markAllAsRead ms conversationId userId now).
Proof.
  simpl. repeat split; apply updateMany_rank; intros m Hm.
  - destruct (deliveryStatus m); simpl; lia.
  - repeat (apply andb_true_iff in Hm as (Hm & ?)).
    destruct (deliveryStatus m); try discriminate; simpl; lia.
  - destruct (deliveryStatus m); simpl; lia.
Qed.

(** The delivered acknowledgement touches only messages still [sent]. *)
Lemma mark_delivered_only_below ms userId messageIds now :
  Forall2 (fun m m' => m' = m \/ deliveryStatus m = sent)
          ms (Socket.mark_delivered_messages ms userId messageIds now).
Proof.
  unfold Socket.mark_delivered_messages, updateMany.
  induction ms as [|m r IH]; simpl; constructor; [|exact IH].
  destruct (id_in messageIds (_id m) && (recipient m =? userId)
            && DeliveryStatus_eqb (deliveryStatus m) sent) eqn:E; [|now left].
  right. apply andb_true_iff in E as (_ & E). destruct (deliveryStatus m); try discriminate.
  reflexivity.
Qed.

(** C9, at the input where the code leaves the claim: Bob's socket
    acknowledges Alice's first message as read at time 3000 and sends the same
    acknowledgement again at time 5000.  The second batched [mark_read]
    rewrites the message although its status is already at the target: its
    [readAt] moves from 3000 to 5000.  On the same messages the static
    [markAllAsRead] and the method [markAsRead] change nothing. *)
Theorem mark_read_rewrites_read_message :
  let ack db now :=
    fst (Socket.mark_read db Samples.bob Samples.conversationId [Samples.first_message] now) in
  let once := ack Samples.opened 3000 in
  let twice := ack once 5000 in
  Samples.delivery Samples.opened = [(sent, None)]
  /\ Samples.delivery once = [(read, Some 3000)]
  /\ Samples.delivery twice = [(read, Some 5000)]
  /\ markAllAsRead (messages once) Samples.conversationId Samples.bob 5000 = messages once
  /\ map (fun m => markAsRead m 5000) (messages once) = messages once.
Proof.
  vm_compute. repeat split; reflexivity.
Qed.

End DeliverySpec.

(** ** The payment gate at the limit *)

Module GateSpec.

Import ApiResponse.

(** Whatever was stored about an earlier payment, recording a payment adds a
    cycle. *)
Lemma recordMessagePayment_adds_cycle c paymentId orderId amountPaisa now :
  Conversation.initiatorPaidCycles
    (Conversation.recordMessagePayment c paymentId orderId amountPaisa now)
  = Conversation.initiatorPaidCycles c + 1.
Proof.
  simpl. rewrite or_zero_id. reflexivity.
Qed.

(** The HTTP handler answers 402 exactly from the formula, and stores nothing
    when it does. *)
Lemma paymentCheck_spec db conversation conversationId payload :
  MessageController.paymentCheck db conversation conversationId = Some payload ->
  currentCount payload = Conversation.initiatorMessageCount conversation
  /\ paidCycles payload = Conversation.initiatorPaidCycles conversation
  /\ allowedMessages payload = freeMessageLimit payload * (paidCycles payload + 1)
  /\ allowedMessages payload <= currentCount payload.
Proof.
  unfold MessageController.paymentCheck. rewrite !or_zero_id.
  destruct (AppConfig.isEnabled _); [|discriminate].
  match goal with |- context [if ?b then _ else _] => destruct b eqn:E end; [|discriminate].
  intros H. injection H as <-. simpl. apply Z.leb_le in E. auto.
Qed.

(** The HTTP send path: an unrevealed initiator at or above the allowance is
    answered 402 with the two numbers of the formula, and nothing is stored. *)
Lemma sendMessage_rejects_at_limit db userId conversationId content type replyTo now
      conversation otherParticipant unrevealedPayment :
  MessageController.findActiveFor db conversationId userId = Some conversation ->
  Conversation.getOtherParticipant conversation userId = Some otherParticipant ->
  Block.hasBlockBetween (blocks db) userId (Conversation.user otherParticipant) = false ->
  Conversation.initiator conversation = Some userId ->
  Conversation.isUserRevealed conversation userId = false ->
  AppConfig.unrevealedChatPayment (AppConfig.microPayments (config db))
  = Some unrevealedPayment ->
  AppConfig.isEnabled unrevealedPayment = true ->
  AppConfig.freeMessageLimit unrevealedPayment <> 0 ->
  AppConfig.freeMessageLimit unrevealedPayment
  * (Conversation.initiatorPaidCycles conversation + 1)
  <= Conversation.initiatorMessageCount conversation ->
  exists payload,
    MessageController.sendMessage db userId conversationId content type replyTo now
    = (db, paymentRequired payload)
    /\ currentCount payload = Conversation.initiatorMessageCount conversation
    /\ allowedMessages payload
       = AppConfig.freeMessageLimit unrevealedPayment
         * (Conversation.initiatorPaidCycles conversation + 1).
Proof.
  intros Hfind Hother Hblock Hinit Hrev Hcfg Hen Hlim Hle.
  unfold MessageController.sendMessage.
  rewrite Hfind, Hother, Hblock, Hinit, Z.eqb_refl.
  unfold Conversation.isUserRevealed in Hrev. rewrite Hrev. simpl.
  unfold MessageController.paymentCheck. rewrite Hcfg, Hen, !or_zero_id.
  rewrite (or_else_nonzero _ 100 Hlim).
  apply Z.leb_le in Hle. rewrite Hle.
  eexists. split; [reflexivity|]. simpl. auto.
Qed.

(** C1, at the input where the code leaves the claim: the initiator of the
    sample conversation is at the limit with no paid cycle;
    [verifyMessagePayment] is called twice with the same order, payment and
    signature.  Both calls answer success and each adds a cycle: 0, then 1,
    then 2, although the first call stored the payment id. *)
Theorem verifyMessagePayment_twice :
  let verify db now :=
    PurchaseController.verifyMessagePayment Samples.env db Samples.alice
      Samples.conversationId "order_1" "pay_1" "sig_ok" now in
  let first := verify Samples.at_limit 5000 in
  let second := verify (fst first) 6000 in
  counters Samples.at_limit = [(100, 0)]
  /\ snd first = success "Payment successful! You can continue messaging."
  /\ counters (fst first) = [(100, 1)]
  /\ map (fun c => option_map Conversation.paymentId (Conversation.lastMessagePayment c))
         (conversations (fst first)) = [Some "pay_1"]
  /\ snd second = success "Payment successful! You can continue messaging."
  /\ counters (fst second) = [(100, 2)].
Proof.
  vm_compute. repeat split; reflexivity.
Qed.

(** C2, at the input where the code leaves the claim: the unrevealed
    initiator has sent 100 messages with a limit of 100 and no paid cycle.
    Over HTTP the 101st send is answered 402 with [currentCount] 100 and
    [allowedMessages] 100 and the database is unchanged.  The same send over
    the socket is accepted: a 101st message is stored and the counter goes to
    101. *)
Theorem socket_send_skips_payment_gate :
  let http := MessageController.sendMessage Samples.at_limit Samples.alice
                Samples.conversationId "one more" text None 4000 in
  let socket := Socket.send_message Samples.at_limit Samples.alice
                  Samples.conversationId "one more" text None 4000 in
  counters Samples.at_limit = [(100, 0)]
  /\ List.length (messages Samples.at_limit) = 100%nat
  /\ http = (Samples.at_limit,
             paymentRequired
               (mkPaymentRequired "message_limit_reached" 200 "₹2" 100 100 0 100
                                  Samples.conversationId))
  /\ List.length (messages (fst socket)) = 101%nat
  /\ counters (fst socket) = [(101, 0)]
  /\ (exists message, snd socket = Socket.new_message message Samples.conversationId).
Proof.
  vm_compute. repeat split; try reflexivity. eexists. reflexivity.
Qed.

End GateSpec.

(** ** The daily request quota *)

Module QuotaSpec.

Import ApiResponse.

(** C4, at the input where the code leaves the claim: the daily free
    allowance is 2, Alice has sent 2 requests today and holds an active pack
    with 5 requests left.  [canSendRequest] reports 5 purchased requests,
    [sendRequest] answers 429 and stores nothing. *)
Theorem sendRequest_ignores_packs :
  AppConfig.dailyFreeRequests (AppConfig.microPayments (config Samples.quota_used)) = 2
  /\ MessageRequest.countTodayRequestsBySender (requests Samples.quota_used) Samples.alice
       (tzOffset Samples.env) 3000 = 2
  /\ PurchasedPack.getTotalRemainingRequests (packs Samples.quota_used) Samples.alice 3000 = 5
  /\ PurchaseController.canSendRequest Samples.env Samples.quota_used Samples.alice false 3000
     = PurchaseController.purchased 5
  /\ RequestController.sendRequest Samples.env Samples.quota_used Samples.alice Samples.dave
       "hey" MessageRequest.search true 3000
     = (Samples.quota_used, tooManyRequests 2).
Proof.
  vm_compute. repeat split; reflexivity.
Qed.

(** The day of the count starts at the server's local midnight: with the
    server five and a half hours east of UTC, the day of an instant shortly
    after UTC midnight began the evening before in UTC. *)
Lemma startOfDay_is_local :
  MessageRequest.startOfDay 0 86400000 = 86400000
  /\ MessageRequest.startOfDay 19800000 86400000 = 66600000.
Proof.
  split; reflexivity.
Qed.

End QuotaSpec.

(** * Further properties of the models *)

(** ** Conversation documents *)

Module ConversationFacts.

Import Conversation ConversationOps.

Lemma findIndex_some {A : Type} (f : A -> bool) (l : list A) :
  forall i, findIndex f l = Some i -> exists x, nth_error l i = Some x /\ f x = true.
Proof.
  induction l as [|x r IH]; simpl; intros i H; [discriminate|].
  destruct (f x) eqn:E.
  - injection H as <-. exists x. auto.
  - destruct (findIndex f r) as [j|]; simpl in H; [|discriminate].
    injection H as <-. apply IH. reflexivity.
Qed.

Lemma findIndex_find {A : Type} (f : A -> bool) (l : list A) :
  forall i, findIndex f l = Some i -> find f l = nth_error l i.
Proof.
  induction l as [|x r IH]; simpl; intros i H; [discriminate|].
  destruct (f x) eqn:E.
  - injection H as <-. reflexivity.
  - destruct (findIndex f r) as [j|]; simpl in H; [|discriminate].
    injection H as <-. apply IH. reflexivity.
Qed.

Lemma findIndex_none_find {A : Type} (f : A -> bool) (l : list A) :
  findIndex f l = None -> find f l = None.
Proof.
  induction l as [|x r IH]; simpl; [reflexivity|].
  destruct (f x); [discriminate|].
  destruct (findIndex f r); [discriminate | auto].
Qed.

Lemma nth_error_update_nth_other {A : Type} (f : A -> A) (l : list A) :
  forall i k, i <> k -> nth_error (update_nth i f l) k = nth_error l k.
Proof.
  induction l as [|x r IH]; intros i k H.
  - destruct i; reflexivity.
  - destruct i as [|i], k as [|k]; simpl; try reflexivity; [contradiction|].
    apply IH. congruence.
Qed.

Lemma nth_error_update_nth_same {A : Type} (f : A -> A) (l : list A) :
  forall i, nth_error (update_nth i f l) i = option_map f (nth_error l i).
Proof.
  induction l as [|x r IH]; intros [|i]; simpl; auto.
Qed.

Lemma map_user_update_nth (f : Participant -> Participant) (l : list Participant) :
  (forall p, user (f p) = user p) ->
  forall i, map user (update_nth i f l) = map user l.
Proof.
  intros Hf. induction l as [|x r IH]; intros [|i]; simpl; auto.
  - rewrite Hf. reflexivity.
  - rewrite IH. reflexivity.
Qed.

Lemma identity_apply (c : Conversation.t) (now : Date) (op : Op) :
  identity (apply c now op) = identity c.
Proof.
  unfold identity.
  destruct op as [content_ sender_ type_|u fields|u|u d|u|u|u|pid oid amt|u]; simpl apply.
  - unfold updateLastMessage. simpl.
    assert (E : forall l, map user
                (map (fun p => if negb (user p =? sender_)
                               then set_unreadCount (unreadCount p + 1) p else p) l)
              = map user l).
    { intros l. rewrite map_map. apply map_ext. intros p.
      destruct (negb (user p =? sender_)); reflexivity. }
    destruct (initiator c) as [i|] eqn:Ei; simpl;
      [destruct (i =? sender_); simpl;
       [destruct (find _ (participants c)) as [q|]; simpl; [destruct (isRevealed q); simpl|]|]|];
      rewrite E, ?Ei; reflexivity.
  - unfold revealIdentity. destruct (findIndex _ _); [|reflexivity].
    destruct (forallb _ _); simpl; rewrite map_user_update_nth; auto.
  - unfold markAsRead. destruct (findIndex _ _); [|reflexivity].
    simpl. rewrite map_user_update_nth; auto.
  - unfold muteForUser. destruct (findIndex _ _); [|reflexivity].
    simpl. rewrite map_user_update_nth; auto.
    intros p. destruct d as [d|]; [destruct (d =? 0)|]; reflexivity.
  - unfold MessageController.unmute. destruct (findIndex _ _); [|reflexivity].
    simpl. rewrite map_user_update_nth; auto.
  - unfold archiveForUser. destruct (findIndex _ _); [|reflexivity].
    simpl. rewrite map_user_update_nth; auto.
  - unfold MessageController.unarchive. destruct (findIndex _ _); [|reflexivity].
    simpl. rewrite map_user_update_nth; auto.
  - reflexivity.
  - reflexivity.
Qed.

(** X1. Over any sequence of operations on a conversation document (sends,
    reveals, reads, mutes, archives, payments, reveal requests) its id, the
    users of its two participant rows and their order, its initiator and its
    originating request never change. *)
Theorem identity_is_stable (c : Conversation.t) (ops : list (Date * Op)) :
  identity (apply_all c ops) = identity c.
Proof.
  revert c. induction ops as [|[now op] rest IH]; intros c; simpl; [reflexivity|].
  rewrite IH. apply identity_apply.
Qed.

(** X2. Reveal is one-directional: a participant row that is revealed stays
    revealed, at the same position, through every later sequence of
    operations. *)
Theorem reveal_is_permanent (c : Conversation.t) (ops : list (Date * Op))
        (k : nat) (p : Participant) :
  nth_error (participants c) k = Some p ->
  isRevealed p = true ->
  exists p', nth_error (participants (apply_all c ops)) k = Some p'
             /\ isRevealed p' = true.
Proof.
  revert c p. induction ops as [|[now op] rest IH]; intros c p Hk Hr; simpl.
  - eauto.
  - destruct (AnonymitySpec.reveal_monotone c now op k p Hk Hr) as (q & Hq & Hqr).
    eapply IH; eauto.
Qed.

Lemma reveal_is_permanent_witness :
  exists p', nth_error (participants
                          (apply_all Samples.at_limit_conversation
                             [ (10, Send "hi" Samples.bob text);
                               (20, Mute Samples.bob None);
                               (30, Payment "p" "o" 200) ])) 1 = Some p'
             /\ isRevealed p' = true.
Proof.
  exact (reveal_is_permanent Samples.at_limit_conversation _ 1 _ eq_refl eq_refl).
Defined.

(** X3. Read, mute, unmute, archive and unarchive are scoped to the caller:
    every participant row of another user is left exactly as it was, and so
    is every field of the conversation outside the participant rows. *)
Theorem own_row_operations_are_scoped (c : Conversation.t) (now : Date) (op : Op)
        (u : ObjectId) :
  own_row_of op = Some u ->
  (forall k p, nth_error (participants c) k = Some p -> user p <> u ->
               nth_error (participants (apply c now op)) k = Some p)
  /\ set_participants (participants c) (apply c now op) = c.
Proof.
  intros Hop.
  assert (Hgen : forall f,
             let c' := match findIndex (fun p => user p =? u) (participants c) with
                       | Some i => set_participants (update_nth i f (participants c)) c
                       | None => c
                       end in
             (forall k p, nth_error (participants c) k = Some p -> user p <> u ->
                          nth_error (participants c') k = Some p)
             /\ set_participants (participants c) c' = c).
  { intros f. simpl. destruct (findIndex _ _) as [i|] eqn:E.
    - split; [|destruct c; reflexivity].
      intros k p Hk Hne. simpl.
      destruct (Nat.eq_dec i k) as [->|Hik].
      + apply findIndex_some in E as (x & Hx & Hux). rewrite Hk in Hx.
        injection Hx as <-. apply Z.eqb_eq in Hux. contradiction.
      + rewrite nth_error_update_nth_other by assumption. exact Hk.
    - split; [auto | destruct c; reflexivity]. }
  destruct op; simpl in Hop; try discriminate; injection Hop as ->; simpl apply.
  - apply (Hgen (set_read now)).
  - unfold muteForUser. apply (Hgen _).
  - apply (Hgen (set_muted false None)).
  - apply (Hgen (set_archived true (Some now))).
  - apply (Hgen (set_archived false None)).
Qed.

Lemma own_row_operations_are_scoped_witness :
  nth_error (participants (apply Samples.at_limit_conversation 50 (Archive Samples.bob))) 0
  = nth_error (participants Samples.at_limit_conversation) 0.
Proof.
  refine (proj1 (own_row_operations_are_scoped Samples.at_limit_conversation 50
                   (Archive Samples.bob) Samples.bob eq_refl) 0%nat _ eq_refl _).
  intros E. discriminate E.
Defined.

End ConversationFacts.

(** ** Unread counters, payment statistics and cycles *)

Module CounterFacts.

Import Conversation ConversationOps.

Lemma find_map_keeps (f : Participant -> bool) (g : Participant -> Participant)
      (l : list Participant) :
  (forall p, f (g p) = f p) ->
  find f (map g l) = option_map g (find f l).
Proof.
  intros H. induction l as [|x r IH]; simpl; [reflexivity|].
  rewrite H. destruct (f x); [reflexivity | exact IH].
Qed.

Lemma participants_updateLastMessage c content senderId_ type now :
  participants (updateLastMessage c content senderId_ type now)
  = map (fun p => if negb (user p =? senderId_)
                  then set_unreadCount (unreadCount p + 1) p else p)
        (participants c).
Proof.
  unfold updateLastMessage. simpl.
  destruct (initiator c) as [i|]; simpl; [|reflexivity].
  destruct (i =? senderId_); simpl; [|reflexivity].
  destruct (find _ (participants c)) as [q|]; simpl; [destruct (isRevealed q)|]; reflexivity.
Qed.

Lemma unread_after_send c content senderId_ type now u :
  unread_of (updateLastMessage c content senderId_ type now) u
  = option_map (fun n => if u =? senderId_ then n else n + 1) (unread_of c u).
Proof.
  unfold unread_of, getParticipantData. rewrite participants_updateLastMessage.
  rewrite find_map_keeps.
  - destruct (find (fun p => user p =? u) (participants c)) as [p|] eqn:E; simpl; [|reflexivity].
    apply find_some in E as (_ & E). apply Z.eqb_eq in E. subst u.
    destruct (user p =? senderId_); reflexivity.
  - intros p. destruct (negb (user p =? senderId_)); reflexivity.
Qed.

Lemma unread_after_read c u now p :
  getParticipantData c u = Some p ->
  unread_of (markAsRead c u now) u = Some 0.
Proof.
  unfold unread_of, getParticipantData, markAsRead. intros Hp.
  destruct (findIndex (fun q => user q =? u) (participants c)) as [i|] eqn:E.
  - pose proof (ConversationFacts.findIndex_find _ _ _ E) as Hf.
    rewrite Hp in Hf. simpl.
    assert (Efi : findIndex (fun q => user q =? u)
                    (update_nth i (set_read now) (participants c)) = Some i).
    { clear Hp Hf. revert i E. induction (participants c) as [|x r IH]; intros i E.
      - discriminate.
      - simpl in E. destruct (user x =? u) eqn:Ex.
        + injection E as <-. simpl. rewrite Ex. reflexivity.
        + destruct (findIndex _ r) as [j|] eqn:Ej; simpl in E; [|discriminate].
          injection E as <-. simpl. rewrite Ex, (IH j eq_refl). reflexivity. }
    rewrite (ConversationFacts.findIndex_find _ _ _ Efi).
    rewrite ConversationFacts.nth_error_update_nth_same, <- Hf. reflexivity.
  - apply ConversationFacts.findIndex_none_find in E. congruence.
Qed.

(** X4. The unread counter counts the messages received since the last
    read: once a participant has marked the conversation as read, after any
    sequence of messages sent by somebody else their counter equals the number
    of those messages. *)
Theorem unread_counts_messages_since_read (c : Conversation.t) (reader sender_ : ObjectId)
        (p : Participant) (readAt_ : Date) (ops : list (Date * Op)) :
  getParticipantData c reader = Some p ->
  sender_ <> reader ->
  forallb (fun o => sent_by sender_ (snd o)) ops = true ->
  unread_of (apply_all (markAsRead c reader readAt_) ops) reader
  = Some (Z.of_nat (List.length ops)).
Proof.
  intros Hp Hne Hops.
  assert (Hgen : forall ops c0 n,
             forallb (fun o => sent_by sender_ (snd o)) ops = true ->
             unread_of c0 reader = Some n ->
             unread_of (apply_all c0 ops) reader = Some (n + Z.of_nat (List.length ops))).
  { clear - Hne. intros ops. induction ops as [|[now op] rest IH]; intros c0 n Hall H0.
    - simpl. rewrite Z.add_0_r. exact H0.
    - simpl in Hall. apply andb_true_iff in Hall as (Hop & Hall).
      destruct op as [content_ s_ type_| | | | | | | |]; simpl in Hop; try discriminate.
      apply Z.eqb_eq in Hop. subst s_.
      cbn [apply_all apply]. rewrite (IH _ (n + 1) Hall).
      + f_equal. cbn [List.length]. lia.
      + rewrite unread_after_send, H0. simpl.
        destruct (reader =? sender_) eqn:E; [|reflexivity].
        apply Z.eqb_eq in E. congruence. }
  rewrite (Hgen ops _ 0 Hops (unread_after_read c reader readAt_ p Hp)).
  reflexivity.
Qed.

Lemma unread_counts_messages_since_read_witness :
  unread_of (apply_all (markAsRead Samples.at_limit_conversation Samples.bob 10)
               [ (20, Send "one" Samples.alice text); (30, Send "two" Samples.alice image) ])
            Samples.bob
  = Some 2.
Proof.
  refine (unread_counts_messages_since_read Samples.at_limit_conversation Samples.bob
            Samples.alice _ 10
            [ (20, Send "one" Samples.alice text); (30, Send "two" Samples.alice image) ]
            eq_refl _ eq_refl).
  intros E. discriminate E.
Defined.

(** X5. The statistics shown to the initiator agree with the gate: the
    reported [needsToPay] is the value of [initiatorNeedsToPay]; for an
    unrevealed initiator [messagesUntilPayment] is
    [max(0, limit * (paidCycles + 1) - currentCount)], and payment is needed
    exactly when it is 0; for a revealed initiator it is Infinity, payment is
    never needed and the reported counters are 0 whatever was stored. *)
Theorem stats_agree_with_gate (c : Conversation.t) (limit : Z) (s : Stats) :
  getInitiatorMessageStats c limit = Some s ->
  needsToPay s = initiatorNeedsToPay c limit
  /\ (stats_isRevealed s = false ->
      currentCount s = initiatorMessageCount c
      /\ paidCycles s = initiatorPaidCycles c
      /\ messagesUntilPayment s
         = Some (Z.max 0 (limit * (initiatorPaidCycles c + 1) - initiatorMessageCount c))
      /\ (needsToPay s = true <-> messagesUntilPayment s = Some 0))
  /\ (stats_isRevealed s = true ->
      needsToPay s = false /\ messagesUntilPayment s = None
      /\ currentCount s = 0 /\ paidCycles s = 0).
Proof.
  unfold getInitiatorMessageStats, initiatorNeedsToPay. rewrite !or_zero_id.
  destruct (initiator c) as [i|]; [|discriminate].
  destruct (find (fun p => user p =? i) (participants c)) as [p|];
    [destruct (isRevealed p)|]; intros H; injection H as <-; simpl;
    (split; [reflexivity|]); split; intros Hr; try discriminate; auto;
    repeat split; try reflexivity.
  - rewrite Z.leb_le. intros Hle. f_equal. lia.
  - intros H. injection H as H. apply Z.leb_le. lia.
  - rewrite Z.leb_le. intros Hle. f_equal. lia.
  - intros H. injection H as H. apply Z.leb_le. lia.
Qed.

Lemma stats_agree_with_gate_witness :
  exists s, getInitiatorMessageStats Samples.at_limit_conversation 100 = Some s
            /\ needsToPay s = initiatorNeedsToPay Samples.at_limit_conversation 100.
Proof.
  eexists. split; [reflexivity|].
  exact (proj1 (stats_agree_with_gate Samples.at_limit_conversation 100 _ eq_refl)).
Defined.

Lemma sends_by_initiator (i : ObjectId) (ops : list (Date * Op)) :
  forall c,
    initiator c = Some i ->
    isUserRevealed c i = false ->
    forallb (fun o => sent_by i (snd o)) ops = true ->
    let c' := apply_all c ops in
    initiator c' = Some i
    /\ isUserRevealed c' i = false
    /\ initiatorPaidCycles c' = initiatorPaidCycles c
    /\ initiatorMessageCount c' = initiatorMessageCount c + Z.of_nat (List.length ops).
Proof.
  induction ops as [|[now op] rest IH]; intros c Hi Hr Hall; simpl.
  - repeat split; auto. lia.
  - simpl in Hall. apply andb_true_iff in Hall as (Hop & Hall).
    destruct op as [content_ s_ type_| | | | | | | |]; simpl in Hop; try discriminate.
    apply Z.eqb_eq in Hop. subst s_. cbn [apply].
    set (c1 := updateLastMessage c content_ i type_ now).
    assert (Hi1 : initiator c1 = Some i).
    { pose proof (ConversationFacts.identity_apply c now (Send content_ i type_)) as E.
      unfold identity in E. cbn [apply] in E. fold c1 in E. congruence. }
    assert (Hr1 : isUserRevealed c1 i = false).
    { unfold isUserRevealed, getParticipantData in *. subst c1.
      rewrite participants_updateLastMessage, find_map_keeps.
      - destruct (find _ (participants c)) as [p|]; simpl; [|reflexivity].
        destruct (negb (user p =? i)); exact Hr.
      - intros p. destruct (negb (user p =? i)); reflexivity. }
    assert (Hc1 : initiatorMessageCount c1 = initiatorMessageCount c + 1).
    { subst c1. rewrite CounterSpec.updateLastMessage_count. simpl.
      rewrite Hi, Z.eqb_refl, Hr. reflexivity. }
    assert (Hp1 : initiatorPaidCycles c1 = initiatorPaidCycles c).
    { subst c1. unfold updateLastMessage. simpl. rewrite Hi, Z.eqb_refl. simpl.
      unfold isUserRevealed, getParticipantData in Hr.
      destruct (find _ (participants c)) as [p|]; simpl; [rewrite Hr|]; reflexivity. }
    destruct (IH c1 Hi1 Hr1 Hall) as (A & B & C & D).
    repeat split; auto; [congruence | rewrite D, Hc1; lia].
Qed.

(** X6. One payment unlocks exactly one more allowance: when an unrevealed
    initiator stands exactly at the limit and a payment is recorded, then
    after [n] further messages of the initiator payment is needed again
    exactly when [n] has reached [limit]. *)
Theorem payment_unlocks_one_allowance (c : Conversation.t) (limit : Z) (i : ObjectId)
        (paymentId_ orderId_ : string) (amount : Z) (paidAt_ : Date)
        (ops : list (Date * Op)) :
  initiator c = Some i ->
  isUserRevealed c i = false ->
  initiatorMessageCount c = limit * (initiatorPaidCycles c + 1) ->
  forallb (fun o => sent_by i (snd o)) ops = true ->
  initiatorNeedsToPay c limit = true
  /\ initiatorNeedsToPay
       (apply_all (recordMessagePayment c paymentId_ orderId_ amount paidAt_) ops) limit
     = (limit <=? Z.of_nat (List.length ops)).
Proof.
  intros Hi Hr Hc Hall.
  assert (Hgate : forall c0, initiator c0 = Some i -> isUserRevealed c0 i = false ->
            initiatorNeedsToPay c0 limit
            = (limit * (initiatorPaidCycles c0 + 1) <=? initiatorMessageCount c0)).
  { intros c0 Hi0 Hr0. unfold initiatorNeedsToPay. rewrite Hi0, !or_zero_id.
    unfold isUserRevealed, getParticipantData in Hr0.
    destruct (find _ (participants c0)) as [p|]; [rewrite Hr0|]; reflexivity. }
  split.
  - rewrite (Hgate c Hi Hr), Hc. apply Z.leb_refl.
  - set (c1 := recordMessagePayment c paymentId_ orderId_ amount paidAt_).
    destruct (sends_by_initiator i ops c1 Hi Hr Hall) as (A & B & C & D).
    rewrite (Hgate _ A B), C, D.
    replace (initiatorPaidCycles c1) with (initiatorPaidCycles c + 1)
      by (subst c1; simpl; rewrite or_zero_id; reflexivity).
    replace (initiatorMessageCount c1) with (initiatorMessageCount c) by reflexivity.
    rewrite Hc.
    destruct (limit <=? Z.of_nat (List.length ops)) eqn:E.
    + apply Z.leb_le in E. apply Z.leb_le. lia.
    + apply Z.leb_gt in E. apply Z.leb_gt. lia.
Qed.

Lemma payment_unlocks_one_allowance_witness :
  initiatorNeedsToPay Samples.at_limit_conversation 100 = true
  /\ initiatorNeedsToPay
       (apply_all (recordMessagePayment Samples.at_limit_conversation "p" "o" 200 10)
                  [(20, Send "again" Samples.alice text)]) 100
     = (100 <=? 1).
Proof.
  exact (payment_unlocks_one_allowance Samples.at_limit_conversation 100 Samples.alice
           "p" "o" 200 10 [(20, Send "again" Samples.alice text)]
           eq_refl eq_refl eq_refl eq_refl).
Defined.

End CounterFacts.

(** ** Sending over HTTP *)

Module SendFacts.

Import ApiResponse.

(** X7. The HTTP send path answers 402 only to the initiator of the
    conversation while their row is not revealed and the stored counter has
    reached the allowance; the payload carries the stored counters, and
    nothing is stored.  The other participant and a revealed initiator are
    never asked to pay, whatever the counters. *)
Theorem payment_required_only_for_unrevealed_initiator
        (db db' : DB) (userId conversationId : ObjectId) (content : string)
        (type : MessageType) (replyTo : option ObjectId) (now : Date)
        (payload : PaymentRequired) :
  MessageController.sendMessage db userId conversationId content type replyTo now
  = (db', paymentRequired payload) ->
  db' = db
  /\ exists conversation,
      MessageController.findActiveFor db conversationId userId = Some conversation
      /\ Conversation.initiator conversation = Some userId
      /\ Conversation.isUserRevealed conversation userId = false
      /\ currentCount payload = Conversation.initiatorMessageCount conversation
      /\ paidCycles payload = Conversation.initiatorPaidCycles conversation
      /\ allowedMessages payload = freeMessageLimit payload * (paidCycles payload + 1)
      /\ allowedMessages payload <= currentCount payload.
Proof.
  unfold MessageController.sendMessage.
  destruct (MessageController.findActiveFor db conversationId userId) as [c|];
    [|discriminate].
  destruct (Conversation.getOtherParticipant c userId) as [other|]; [|discriminate].
  destruct (Block.hasBlockBetween _ _ _); [discriminate|].
  destruct (Conversation.initiator c) as [i|] eqn:Ei; [|discriminate].
  cbv zeta.
  destruct ((i =? userId)
            && negb match Conversation.getParticipantData c i with
                    | Some p => Conversation.isRevealed p
                    | None => false
                    end) eqn:Egate.
  - destruct (MessageController.paymentCheck db c conversationId) as [pl|] eqn:Ep.
    + intros H. injection H as <- <-. split; [reflexivity|]. exists c.
      apply andb_true_iff in Egate as (E1 & E2). apply Z.eqb_eq in E1. subst i.
      apply negb_true_iff in E2.
      destruct (GateSpec.paymentCheck_spec _ _ _ _ Ep) as (A & B & C & D).
      repeat split; auto.
    + destruct (create_message _ _ _ _ _ _ _ _) as [[d m]|]; [|intros H; discriminate H].
      destruct (negb (Conversation.isMuted other)); [destruct (User.findById _ _)|];
        intros H; discriminate H.
  - destruct (create_message _ _ _ _ _ _ _ _) as [[d m]|]; [|intros H; discriminate H].
    destruct (negb (Conversation.isMuted other)); [destruct (User.findById _ _)|];
      intros H; discriminate H.
Qed.

Lemma payment_required_only_for_unrevealed_initiator_witness :
  exists conversation,
    MessageController.findActiveFor Samples.at_limit Samples.conversationId Samples.alice
    = Some conversation
    /\ Conversation.initiator conversation = Some Samples.alice.
Proof.
  destruct (payment_required_only_for_unrevealed_initiator
              Samples.at_limit Samples.at_limit Samples.alice Samples.conversationId
              "one more" text None 4000
              (mkPaymentRequired "message_limit_reached" 200 "₹2" 100 100 0 100
                                 Samples.conversationId))
    as (_ & c & Hc & Hi & _).
  - vm_compute. reflexivity.
  - exists c. split; assumption.
Defined.



End SendFacts.

(** ** Sending, rejecting and cancelling requests *)

Module RequestFacts.

Import MessageRequest ApiResponse.





(** At the case mapping of the letters A to Z the block is the one the
    handlers above run. *)
Lemma preferenceRejection_ascii recipientProfile senderProfile :
  Preferences.preferenceRejection toLowerCase recipientProfile senderProfile
  = RequestController.preferenceRejection recipientProfile senderProfile.
Proof. reflexivity. Qed.

(** X10. Who may message a recipient, whatever letters [toLowerCase] maps.
    With [allowFrom = 'anyone'] nobody is turned away.  With
    [allowFrom = 'restricted'] a sender who has a profile passes exactly when
    at least one enabled restriction matches: same college, same workplace or
    same city, each compared after [toLowerCase] on both sides and only when
    both sides have a non-empty value; so with no restriction enabled such a
    sender is always turned away.  A sender without a profile passes exactly
    when no restriction is enabled. *)
Theorem message_preferences (toLowerCase_ : string -> string)
        (recipientProfile sp : Profile.t) (msgPrefs : Profile.MessagePreferences) :
  Profile.messagePreferences recipientProfile = Some msgPrefs ->
  let matches flag (mine theirs : option string) :=
    flag && truthy mine && truthy theirs
    && match mine, theirs with
       | Some x, Some y => String.eqb (toLowerCase_ x) (toLowerCase_ y)
       | _, _ => false
       end in
  (Profile.allowFrom msgPrefs = Profile.anyone ->
   forall senderProfile,
     Preferences.preferenceRejection toLowerCase_ recipientProfile senderProfile = None)
  /\ (Profile.allowFrom msgPrefs = Profile.restricted ->
      (Preferences.preferenceRejection toLowerCase_ recipientProfile (Some sp) = None
       <-> matches (Profile.sameCollege msgPrefs) (Profile.college_name sp)
                   (Profile.college_name recipientProfile)
           || matches (Profile.sameWorkplace msgPrefs) (Profile.workplace_company sp)
                      (Profile.workplace_company recipientProfile)
           || matches (Profile.sameLocation msgPrefs) (Profile.location_city sp)
                      (Profile.location_city recipientProfile) = true)
      /\ (Preferences.preferenceRejection toLowerCase_ recipientProfile None = None
          <-> Profile.sameCollege msgPrefs = false
              /\ Profile.sameWorkplace msgPrefs = false
              /\ Profile.sameLocation msgPrefs = false)).
Proof.
  intros Hp matches. unfold Preferences.preferenceRejection. rewrite Hp.
  split.
  - intros Ha sender_. rewrite Ha. reflexivity.
  - intros Ha. rewrite Ha. cbv zeta. unfold Preferences.same_lowered.
    fold (matches (Profile.sameCollege msgPrefs)
      (Profile.college_name sp) (Profile.college_name recipientProfile)).
    split.
    + subst matches. cbv beta.
      match goal with |- context [negb ?b] => destruct b end; simpl.
      * split; auto.
      * split; [|discriminate]. intros H. exfalso. revert H.
        destruct (Profile.sameCollege msgPrefs), (Profile.sameWorkplace msgPrefs),
          (Profile.sameLocation msgPrefs); simpl; discriminate.
    + destruct (Profile.sameCollege msgPrefs), (Profile.sameWorkplace msgPrefs),
        (Profile.sameLocation msgPrefs); simpl; split; try discriminate; auto;
        intros (A & B & C); discriminate.
Qed.

(** Bob takes messages from his own college only; Alice wrote hers in
    capitals. *)
Lemma message_preferences_witness :
  Preferences.preferenceRejection
    toLowerCase
    (Profile.mk Samples.bob (Some "bob") false true
                (Some (Profile.mkPrefs Profile.restricted true false false))
                (Some "Mit") None None 0 0)
    (Some (Profile.mk Samples.alice (Some "alice") false true None (Some "MIT") None None
                      0 0))
  = None.
Proof.
  apply (proj1 (proj2 (message_preferences
                         toLowerCase
                         (Profile.mk Samples.bob (Some "bob") false true
                            (Some (Profile.mkPrefs Profile.restricted true false false))
                            (Some "Mit") None None 0 0)
                         (Profile.mk Samples.alice (Some "alice") false true None
                            (Some "MIT") None None 0 0)
                         (Profile.mkPrefs Profile.restricted true false false)
                         eq_refl) eq_refl)).
  reflexivity.
Defined.

End RequestFacts.

(** ** The life of a request *)

Module LifecycleFacts.

Import MessageRequest ApiResponse.

Lemma find_by_id_sender db r userId :
  NoDup (map _id (requests db)) -> In r (requests db) -> status r = pending ->
  find (fun q => (_id q =? _id r) && (sender q =? userId) && Status_eqb (status q) pending)
       (requests db)
  = if sender r =? userId then Some r else None.
Proof.
  intros Hnd Hin Hs.
  rewrite (ExpirySpec.find_pointwise _
             (fun q => (_id q =? _id r)
                       && ((sender q =? userId) && Status_eqb (status q) pending))).
  - rewrite (ExpirySpec.find_by_id (requests db) r
               (fun q => (sender q =? userId) && Status_eqb (status q) pending) Hnd Hin).
    rewrite Hs. simpl. rewrite andb_true_r. reflexivity.
  - intros q. simpl. rewrite andb_assoc. reflexivity.
Qed.

(** X11. Reject and cancel are bound to a role and to nothing else.  For a
    stored pending request (ids are unique), [rejectRequest] succeeds exactly
    for the recipient and [cancelRequest] exactly for the sender; anybody else
    gets the 404 and nothing changes.  Neither looks at [expiresAt]: a pending
    request past its expiry that was not swept yet is saved as rejected or
    cancelled, not as expired. *)
Theorem reject_and_cancel_roles (db : DB) (r : MessageRequest.t) (userId : ObjectId)
        (now : Date) :
  NoDup (map _id (requests db)) ->
  In r (requests db) ->
  status r = pending ->
  RequestController.rejectRequest db userId (_id r) now
  = (if recipient r =? userId
     then (save_request db (set_rejected now r), success "Request rejected")
     else (db, notFound "Request not found or already processed"))
  /\ RequestController.cancelRequest db userId (_id r) now
     = (if sender r =? userId
        then (save_request db (set_cancelled now r), success "Request cancelled")
        else (db, notFound "Request not found or cannot be cancelled")).
Proof.
  intros Hnd Hin Hs. split.
  - unfold RequestController.rejectRequest.
    rewrite (ExpirySpec.findPendingFor_unique db r userId Hnd Hin Hs).
    destruct (recipient r =? userId); reflexivity.
  - unfold RequestController.cancelRequest.
    rewrite (find_by_id_sender db r userId Hnd Hin Hs).
    destruct (sender r =? userId); [|reflexivity].
    unfold cancel. rewrite Hs. reflexivity.
Qed.

Lemma reject_and_cancel_roles_witness :
  snd (RequestController.rejectRequest Samples.asked Samples.bob 100 Samples.after_expiry)
  = success "Request rejected"
  /\ snd (RequestController.cancelRequest Samples.asked Samples.bob 100 Samples.after_expiry)
     = notFound "Request not found or cannot be cancelled".
Proof.
  assert (Hnd : NoDup (map _id (requests Samples.asked)))
    by (vm_compute; repeat constructor; simpl; tauto).
  assert (Hin : In (MessageRequest.mk 100 Samples.alice Samples.bob "hi there" pending true
                      search None 604801000 None None None false None false 1000)
                   (requests Samples.asked))
    by (vm_compute; left; reflexivity).
  destruct (reject_and_cancel_roles Samples.asked _ Samples.bob Samples.after_expiry
              Hnd Hin eq_refl) as (A & B).
  cbn [_id] in A, B.
  split; [rewrite A | rewrite B]; reflexivity.
Defined.

Lemma status_preSave r now : status r <> pending -> preSave r now = r.
Proof.
  unfold preSave. destruct (status r); intros H; try reflexivity. contradiction.
Qed.

Lemma kept_by_replace rs (r r0 r1 : MessageRequest.t) :
  NoDup (map _id rs) -> In r rs -> In r0 rs ->
  _id r1 = _id r0 ->
  (r = r0 -> same_outcome r r1) ->
  exists r', In r' (map (fun q => if _id q =? _id r1 then r1 else q) rs)
             /\ same_outcome r r'.
Proof.
  intros Hnd Hr Hr0 Hid Hsame.
  destruct (_id r =? _id r1) eqn:E.
  - apply Z.eqb_eq in E. rewrite Hid in E.
    assert (r = r0) as -> by (eapply RequestSpec.unique_by_id; eauto).
    exists r1. split; [|auto].
    apply in_map_iff. exists r0. rewrite Hid, Z.eqb_refl. auto.
  - exists r. split; [|repeat split; reflexivity].
    apply in_map_iff. exists r. rewrite E. auto.
Qed.

Lemma same_outcome_refl r : same_outcome r r.
Proof. repeat split; reflexivity. Qed.

(** X12. Accepted, rejected, cancelled and expired are final: whatever
    handler runs next, a stored request that is no longer pending is still
    stored afterwards with the same sender, recipient, status and conversation
    link (ids are unique and below the id counter, as in every reachable
    database). *)
Theorem settled_requests_stay_settled (env : Env) (db : DB) (now : Date) (a : Action)
        (r : MessageRequest.t) :
  db_inv db ->
  In r (requests db) ->
  status r <> pending ->
  exists r', In r' (requests (step env db now a)) /\ same_outcome r r'.
Proof.
  intros (Hnd & Hb & _) Hin Hs.
  assert (Hpending : forall r0 r1 : MessageRequest.t,
             In r0 (requests db) -> status r0 = pending -> _id r1 = _id r0 ->
             exists r', In r' (map (fun q => if _id q =? _id r1 then r1 else q) (requests db))
                        /\ same_outcome r r').
  { intros r0 r1 H0 Hp Hid. eapply kept_by_replace; eauto. intros ->. contradiction. }
  assert (Hsame : exists r', In r' (requests db) /\ same_outcome r r')
    by (exists r; split; [assumption | apply same_outcome_refl]).
  destruct a; cbn [step].
  - unfold RequestController.sendRequest, RequestController.sendRequest_checked.
    run_handler; RequestReachable.frames; try exact Hsame.
    all: exists r; split; [apply in_or_app; left; assumption | apply same_outcome_refl].
  - unfold RequestController.acceptRequest.
    run_handler; try exact Hsame;
      match goal with
      | E : RequestController.findPendingFor _ _ _ = Some _ |- _ =>
          apply RequestReachable.findPendingFor_in in E as (H0 & Hid & Hr & Hp)
      end; RequestReachable.frames; try exact Hsame.
    + eapply Hpending; eauto.
    + eapply Hpending; eauto.
  - unfold RequestController.rejectRequest.
    run_handler; try exact Hsame.
    match goal with
    | E : RequestController.findPendingFor _ _ _ = Some _ |- _ =>
        apply RequestReachable.findPendingFor_in in E as (H0 & Hid & Hr & Hp)
    end.
    RequestReachable.frames. eapply Hpending; eauto.
  - unfold RequestController.cancelRequest, cancel.
    run_handler; try exact Hsame.
    match goal with
    | E : find _ _ = Some ?q, E' : _ = Ok _ |- _ =>
        apply find_some in E as (H0 & E);
        apply andb_true_iff in E as (_ & E);
        rewrite E in E'; simpl in E'; injection E' as <-;
        assert (Hp : status q = pending) by (destruct (status q); try discriminate; reflexivity)
    end.
    RequestReachable.frames. eapply Hpending; eauto.
  - unfold RequestController.markAsRead, markAsRead.
    run_handler; try exact Hsame;
      match goal with
      | E : find _ _ = Some _ |- _ => apply find_some in E as (H0 & _)
      end; RequestReachable.frames.
    + eapply kept_by_replace; eauto.
      * match goal with |- context [preSave ?x now] =>
          destruct (RequestReachable.preSave_fields x now) as (A & _); exact A
        end.
      * intros ->. rewrite status_preSave by exact Hs. repeat split; reflexivity.
    + eapply kept_by_replace; eauto. intros ->. apply same_outcome_refl.
  - unfold RequestController.expireOldRequests, expireOldRequests, updateMany.
    autorewrite with frame. exists r. split; [|apply same_outcome_refl].
    apply in_map_iff. exists r. split; [|assumption].
    destruct (status r); try reflexivity. contradiction.
  - unfold MessageController.sendMessage. run_handler; RequestReachable.frames; exact Hsame.
  - unfold Socket.send_message. run_handler; RequestReachable.frames; exact Hsame.
  - unfold Socket.mark_read. run_handler; RequestReachable.frames; exact Hsame.
  - unfold Socket.mark_delivered. run_handler; RequestReachable.frames; exact Hsame.
  - unfold MessageController.getMessages. run_handler; RequestReachable.frames; exact Hsame.
  - unfold MessageController.muteConversation.
    run_handler; RequestReachable.frames; exact Hsame.
  - unfold MessageController.unmuteConversation.
    run_handler; RequestReachable.frames; exact Hsame.
  - unfold MessageController.archiveConversation.
    run_handler; RequestReachable.frames; exact Hsame.
  - unfold MessageController.unarchiveConversation.
    run_handler; RequestReachable.frames; exact Hsame.
  - unfold MessageController.requestReveal.
    run_handler; RequestReachable.frames; exact Hsame.
  - unfold MessageController.revealIdentity.
    run_handler; RequestReachable.frames; exact Hsame.
  - unfold PurchaseController.verifyMessagePayment.
    run_handler; RequestReachable.frames; exact Hsame.
Qed.

End LifecycleFacts.

Module AcceptFacts.

Import MessageRequest ApiResponse.

Lemma settled_requests_stay_settled_witness :
  exists r', In r' (requests (step Samples.env Samples.opened 9000
                                   (RejectRequest Samples.bob 100)))
             /\ status r' = accepted.
Proof.
  assert (Hinv : db_inv Samples.opened).
  { apply RequestReachable.run_inv, RequestReachable.fresh_inv. repeat split; reflexivity. }
  assert (Hin : In (MessageRequest.mk 100 Samples.alice Samples.bob "hi there" accepted true
                      search (Some 101) 604801000 (Some 2000) None None false None false 1000)
                   (requests Samples.opened))
    by (vm_compute; left; reflexivity).
  destruct (LifecycleFacts.settled_requests_stay_settled Samples.env Samples.opened 9000
              (RejectRequest Samples.bob 100) _ Hinv Hin)
    as (r' & Hr' & Hsame).
  - intros E. discriminate E.
  - exists r'. split; [exact Hr'|]. destruct Hsame as (_ & _ & _ & Hs & _). exact Hs.
Defined.

Lemma save_conversation_ids db c :
  conversation_ids (save_conversation db c) = conversation_ids db.
Proof.
  unfold conversation_ids, save_conversation. rewrite conversations_set_conversations, map_map.
  apply map_ext. intros q.
  destruct (Conversation._id q =? Conversation._id c) eqn:E;
    [apply Z.eqb_eq in E; congruence | reflexivity].
Qed.

Lemma replace_fresh (cs : list Conversation.t) (c c' : Conversation.t) :
  Forall (fun q => Conversation._id q < Conversation._id c) cs ->
  Conversation._id c' = Conversation._id c ->
  map (fun q => if Conversation._id q =? Conversation._id c' then c' else q) (cs ++ [c])
  = (cs ++ [c'])%list.
Proof.
  intros Hall Hid. rewrite map_app. simpl. rewrite Hid, Z.eqb_refl. f_equal.
  induction Hall as [|q l Hq _ IH]; simpl; [reflexivity|].
  rewrite IH. destruct (Conversation._id q =? Conversation._id c) eqn:E;
    [apply Z.eqb_eq in E; lia | reflexivity].
Qed.

Lemma updateLastMessage_fields c content senderId_ type now :
  let c' := Conversation.updateLastMessage c content senderId_ type now in
  Conversation.isAnonymous c' = Conversation.isAnonymous c
  /\ Conversation.messageCount c' = Conversation.messageCount c + 1
  /\ Conversation.initiatorPaidCycles c' = Conversation.initiatorPaidCycles c
  /\ Conversation.status c' = Conversation.status c
  /\ Conversation.lastMessage c'
     = Some (Conversation.mkLastMessage (substring 0 100 content) senderId_ now type).
Proof.
  unfold Conversation.updateLastMessage. simpl.
  destruct (Conversation.initiator c) as [i|]; simpl; [|auto].
  destruct (i =? senderId_); simpl; [|auto].
  destruct (find _ (Conversation.participants c)) as [q|]; simpl;
    [destruct (Conversation.isRevealed q)|]; simpl; auto.
Qed.

(** X13. What accepting stores.  When [acceptRequest] answers success in a
    database whose conversation ids are below the id counter, the accepted
    request was pending, addressed to the caller and not past its expiry;
    exactly one conversation was appended, between the request's sender and
    the caller in that order, initiated by the sender and anonymous exactly
    when the request was; the request's text was stored as its first message,
    from the sender to the caller; the initiator's counter starts at 1 for an
    anonymous request and at 0 otherwise; the caller's row is revealed and
    shows one unread message; and the request was saved as accepted with a
    link to that conversation. *)
Theorem acceptRequest_outcomes (db db' : DB) (userId id : ObjectId) (now : Date)
        (text_ : string) :
  Forall (fun i => i < nextId db) (conversation_ids db) ->
  RequestController.acceptRequest db userId id now = (db', success text_) ->
  exists request conversation first trimmed,
    RequestController.findPendingFor db id userId = Some request
    /\ recipient request = userId
    /\ now <= expiresAt request
    /\ conversations db' = (conversations db ++ [conversation])%list
    /\ identity conversation
       = (nextId db, [sender request; userId], Some (sender request), _id request)
    /\ Conversation.isAnonymous conversation = isAnonymous request
    /\ Conversation.initiatorMessageCount conversation
       = (if isAnonymous request then 1 else 0)
    /\ Conversation.messageCount conversation = 1
    /\ (sender request <> userId ->
        Conversation.participants conversation
        = [ Conversation.mkParticipant (sender request) (negb (isAnonymous request))
              None [] false None false None None 0;
            Conversation.mkParticipant userId true None [] false None false None None 1 ])
    /\ Message.validate (initialMessage request) text = Ok trimmed
    /\ messages db' = (messages db ++ [first])%list
    /\ first = Message.mk (nextId db + 1) (nextId db) (sender request) userId trimmed text
                          false None Message.sent None None now
    /\ requests db' = requests (save_request db (set_accepted now (nextId db) request))
    /\ nextId db' = nextId db + 2.
Proof.
  intros Hb H. unfold RequestController.acceptRequest in H.
  destruct (RequestController.findPendingFor db id userId) as [r|] eqn:Ef; [|discriminate H].
  destruct (expiresAt r <? now) eqn:Eexp; [discriminate H|].
  destruct (User.findById (users db) (sender r)) as [u|] eqn:Eu; [|discriminate H].
  assert (Hu : User._id u = sender r).
  { unfold User.findById in Eu. apply find_some in Eu as (_ & Eu). apply Z.eqb_eq, Eu. }
  rewrite Hu in H. cbv zeta in H. unfold create_message in H.
  destruct (Message.validate (initialMessage r) text) as [trimmed|e] eqn:Ev;
    [|discriminate H].
  injection H as <- _.
  apply RequestReachable.findPendingFor_in in Ef as Hr. destruct Hr as (_ & _ & Hrec & _).
  set (c := RequestController.newConversation (nextId db) r (sender r) userId).
  set (c' := Conversation.updateLastMessage c (initialMessage r) (sender r) text now).
  pose proof (ConversationFacts.identity_apply c now
                (ConversationOps.Send (initialMessage r) (sender r) text)) as Hident.
  cbn [ConversationOps.apply] in Hident. fold c' in Hident.
  destruct (updateLastMessage_fields c (initialMessage r) (sender r) text now)
    as (Hanon & Hcount & _).
  fold c' in Hanon, Hcount.
  exists r, c', (Message.mk (nextId db + 1) (nextId db) (sender r) userId trimmed text
                            false None Message.sent None None now), trimmed.
  split; [reflexivity|]. split; [exact Hrec|]. split; [apply Z.ltb_ge; exact Eexp|].
  split.
  { unfold save_request, save_conversation. autorewrite with frame.
    cbn [conversations set_messages set_conversations bump_id].
    apply replace_fresh; [|exact (f_equal (fun x => fst (fst (fst x))) Hident)].
    unfold conversation_ids in Hb. rewrite Forall_map in Hb. exact Hb. }
  split; [rewrite Hident; reflexivity|].
  split; [rewrite Hanon; reflexivity|].
  split.
  { subst c'. rewrite CounterSpec.updateLastMessage_count. subst c. simpl.
    rewrite !Z.eqb_refl. simpl.
    unfold Conversation.isUserRevealed, Conversation.getParticipantData. simpl.
    rewrite Z.eqb_refl. simpl. destruct (isAnonymous r); reflexivity. }
  split; [rewrite Hcount; reflexivity|].
  split.
  { intros Hne. subst c'. rewrite CounterFacts.participants_updateLastMessage.
    subst c. simpl. rewrite Z.eqb_refl. simpl.
    destruct (userId =? sender r) eqn:E; [apply Z.eqb_eq in E; congruence|reflexivity]. }
  split; [exact Ev|]. split; [reflexivity|]. split; [reflexivity|].
  split; [reflexivity|]. autorewrite with frame. lia.
Qed.

Lemma acceptRequest_outcomes_witness :
  exists conversation,
    conversations (fst (RequestController.acceptRequest Samples.asked Samples.bob 100 2000))
    = (conversations Samples.asked ++ [conversation])%list
    /\ identity conversation = (101, [Samples.alice; Samples.bob], Some Samples.alice, 100).
Proof.
  assert (Hb : Forall (fun i => i < nextId Samples.asked) (conversation_ids Samples.asked))
    by (vm_compute; constructor).
  destruct (acceptRequest_outcomes Samples.asked _ Samples.bob 100 2000 "Request accepted"
              Hb (surjective_pairing _))
    as (r & c & m & t_ & Hf & _ & _ & Hc & Hi & _).
  exists c. split; [exact Hc|].
  assert (Hr : r = MessageRequest.mk 100 Samples.alice Samples.bob "hi there" pending true
                     search None 604801000 None None None false None false 1000)
    by (vm_compute in Hf; injection Hf as <-; reflexivity).
  rewrite Hi, Hr. reflexivity.
Defined.

End AcceptFacts.

Module ConversationIds.

Lemma conversation_ids_frame db cs :
  conversations db = cs -> conversation_ids db = map Conversation._id cs.
Proof. intros <-. reflexivity. Qed.

Ltac created :=
  repeat match goal with
    | E : create_message _ _ _ _ _ _ _ _ = Ok (_, _) |- _ =>
        apply create_message_frame in E;
        destruct E as (? & _ & _ & _ & _ & ?)
    end.

Lemma save_request_ids db r :
  conversation_ids (save_request db r) = conversation_ids db.
Proof. unfold conversation_ids, save_request. autorewrite with frame. reflexivity. Qed.

(** Bring the goal down to the conversation ids and the id counter of the
    database the handler started from. *)
Ltac ids :=
  created; cbn [fst snd];
  repeat match goal with
    | E : conversations ?d = conversations ?d' |- _ =>
        apply (f_equal (map Conversation._id)) in E;
        change (conversation_ids d = conversation_ids d') in E
    end;
  repeat first
    [ rewrite save_request_ids
    | rewrite AcceptFacts.save_conversation_ids
    | match goal with
      | E : conversation_ids ?d = _ |- context [conversation_ids ?d] => rewrite E
      | E : nextId ?d = _ |- context [nextId ?d] => rewrite E
      end
    | progress (unfold save_request; autorewrite with frame) ];
  unfold conversation_ids; autorewrite with frame.

Ltac same := ids; left; split; [reflexivity | lia].

Lemma step_ids (env : Env) (db : DB) (now : Date) (a : Action) :
  (conversation_ids (step env db now a) = conversation_ids db
   /\ nextId db <= nextId (step env db now a))
  \/ (conversation_ids (step env db now a) = (conversation_ids db ++ [nextId db])%list
      /\ nextId db < nextId (step env db now a)
      /\ exists userId id, a = AcceptRequest userId id).
Proof.
  destruct a; cbn [step].
  - unfold RequestController.sendRequest, RequestController.sendRequest_checked.
    run_handler; same.
  - unfold RequestController.acceptRequest. run_handler; try same.
    + ids. right. rewrite map_app. simpl.
      split; [reflexivity|]. split; [lia | eauto].
    + ids. right. rewrite map_app. simpl.
      split; [reflexivity|]. split; [lia | eauto].
  - unfold RequestController.rejectRequest. run_handler; same.
  - unfold RequestController.cancelRequest. run_handler; same.
  - unfold RequestController.markAsRead. run_handler; same.
  - unfold RequestController.expireOldRequests. same.
  - unfold MessageController.sendMessage. run_handler; same.
  - unfold Socket.send_message. run_handler; same.
  - unfold Socket.mark_read. run_handler; same.
  - unfold Socket.mark_delivered. run_handler; same.
  - unfold MessageController.getMessages. run_handler; same.
  - unfold MessageController.muteConversation. run_handler; same.
  - unfold MessageController.unmuteConversation. run_handler; same.
  - unfold MessageController.archiveConversation. run_handler; same.
  - unfold MessageController.unarchiveConversation. run_handler; same.
  - unfold MessageController.requestReveal. run_handler; same.
  - unfold MessageController.revealIdentity. run_handler; same.
  - unfold PurchaseController.verifyMessagePayment. run_handler; same.
Qed.

Lemma step_conv_inv env db now a : conv_inv db -> conv_inv (step env db now a).
Proof.
  intros (Hnd & Hb).
  destruct (step_ids env db now a) as [(E & Hn)|(E & Hn & _)];
    unfold conv_inv; rewrite E.
  - split; [assumption|].
    eapply Forall_impl; [|exact Hb]. simpl. intros i Hi. lia.
  - split.
    + apply NoDup_app; [assumption | constructor; [intros []|constructor] |].
      intros i Hi [<-|[]]. rewrite Forall_forall in Hb. specialize (Hb _ Hi). lia.
    + apply Forall_app. split.
      * eapply Forall_impl; [|exact Hb]. simpl. intros i Hi. lia.
      * constructor; [lia|constructor].
Qed.

Lemma step_nextId env db now a : nextId db <= nextId (step env db now a).
Proof. destruct (step_ids env db now a) as [(_ & H)|(_ & H & _)]; lia. Qed.

Lemma fresh_conv_inv db : fresh db -> conv_inv db.
Proof.
  intros (_ & Hc & _). unfold conv_inv, conversation_ids. rewrite Hc. simpl.
  split; constructor.
Qed.

(** X14. No handler deletes a conversation, reorders the collection, changes
    a conversation's id or reuses an id: over any sequence of handler calls the
    list of conversation ids is the list before followed by ids that were
    still fresh at the start, and the ids stay pairwise distinct and below the
    id counter. *)
Theorem conversation_ids_only_grow (env : Env) (trace : list (Date * Action)) (db : DB) :
  conv_inv db ->
  exists new,
    conversation_ids (run env db trace) = (conversation_ids db ++ new)%list
    /\ Forall (fun i => nextId db <= i) new
    /\ nextId db <= nextId (run env db trace)
    /\ conv_inv (run env db trace).
Proof.
  revert db. induction trace as [|[now a] rest IH]; intros db H; simpl.
  - exists []. rewrite app_nil_r.
    split; [reflexivity|]. split; [constructor|]. split; [lia | exact H].
  - destruct (IH _ (step_conv_inv env db now a H)) as (new & E & Hnew & Hn & Hinv).
    pose proof (step_nextId env db now a) as Hle.
    destruct (step_ids env db now a) as [(Es & _)|(Es & Hlt & _)].
    + exists new. rewrite E, Es.
      split; [reflexivity|]. split; [|split; [lia | exact Hinv]].
      eapply Forall_impl; [|exact Hnew]. simpl. intros i Hi. lia.
    + exists (nextId db :: new). rewrite E, Es, <- app_assoc. simpl.
      split; [reflexivity|]. split; [|split; [lia | exact Hinv]].
      constructor; [lia|].
      eapply Forall_impl; [|exact Hnew]. simpl. intros i Hi. lia.
Qed.

Lemma conversation_ids_only_grow_witness :
  conv_inv Samples.db0
  /\ exists new,
       conversation_ids (run Samples.env Samples.db0 Samples.opening)
       = (conversation_ids Samples.db0 ++ new)%list
       /\ Forall (fun i => nextId Samples.db0 <= i) new.
Proof.
  assert (H : conv_inv Samples.db0).
  { split; vm_compute; constructor. }
  split; [exact H|].
  destruct (conversation_ids_only_grow Samples.env Samples.opening Samples.db0 H)
    as (new & E & Hnew & _).
  exists new. split; [exact E | exact Hnew].
Defined.

End ConversationIds.

(** ** Purchased packs: what a successful spend does *)

Module PackFacts.

Import PurchasedPack.

Section Spend.

Variables (userId : ObjectId) (now : Date).

Lemma conserved_refl q : 0 <= requestsRemaining q -> conserved userId now q q.
Proof. unfold conserved. intuition lia. Qed.

Lemma conserved_trans q q' q'' :
  conserved userId now q q' -> conserved userId now q' q'' -> conserved userId now q q''.
Proof.
  unfold conserved. intros (A1 & A2 & A3 & A4 & A5 & A6 & A7) (B1 & B2 & B3 & B4 & B5 & B6 & B7).
  repeat split; try congruence; try lia.
  intros Hu. specialize (A7 Hu). subst q'. auto.
Qed.

Lemma Forall2_conserved_refl ps :
  Forall (fun p => 0 <= requestsRemaining p) ps -> Forall2 (conserved userId now) ps ps.
Proof. induction 1; constructor; auto using conserved_refl. Qed.

Lemma Forall2_conserved_trans ps :
  forall ps' ps'',
    Forall2 (conserved userId now) ps ps' -> Forall2 (conserved userId now) ps' ps'' ->
    Forall2 (conserved userId now) ps ps''.
Proof.
  induction ps as [|q r IH]; intros ps' ps'' H1 H2; inversion H1; subst;
    inversion H2; subst; constructor; eauto using conserved_trans.
Qed.

(** The document [useRequests] saves. *)
Lemma useRequests_ok p n :
  status p = active -> 0 <= n <= requestsRemaining p ->
  useRequests p n
  = Ok (set_usage (requestsUsed p + n) (requestsRemaining p - n)
                  (if requestsRemaining p - n =? 0 then exhausted else active) p).
Proof.
  intros Hs Hn. unfold useRequests. rewrite Hs. simpl.
  destruct (requestsRemaining p <? n) eqn:E; [apply Z.ltb_lt in E; lia | reflexivity].
Qed.

Lemma usable_active p : usable userId now p = true -> status p = active.
Proof.
  unfold usable. intros H. apply andb_true_iff in H as (H & _).
  apply andb_true_iff in H as (_ & H). destruct (status p); try discriminate; reflexivity.
Qed.

Lemma save_absent st p' : ~ In (_id p') (map _id st) -> save st p' = st.
Proof.
  induction st as [|x r IH]; simpl; intros H; [reflexivity|].
  destruct (_id x =? _id p') eqn:E; [apply Z.eqb_eq in E; tauto|].
  f_equal. apply IH. tauto.
Qed.

Lemma save_other st p' q : In q st -> _id q <> _id p' -> In q (save st p').
Proof.
  intros Hq Hne. unfold save. apply in_map_iff. exists q.
  destruct (_id q =? _id p') eqn:E; [apply Z.eqb_eq in E; contradiction | auto].
Qed.

Lemma save_conserved st p p' :
  NoDup (map _id st) -> In p st -> Forall (fun q => 0 <= requestsRemaining q) st ->
  conserved userId now p p' -> Forall2 (conserved userId now) st (save st p').
Proof.
  intros Hnd Hp Hnn Hc.
  assert (Hid : _id p' = _id p) by apply Hc.
  induction st as [|x r IH]; simpl; [constructor|].
  inversion Hnd as [|? ? Hx Hr]; subst. inversion Hnn as [|? ? Hx0 Hr0]; subst.
  destruct (_id x =? _id p') eqn:E.
  - apply Z.eqb_eq in E.
    assert (x = p) as ->.
    { destruct Hp as [->|Hp]; [reflexivity|].
      exfalso. apply Hx. rewrite E, Hid. now apply in_map. }
    constructor; [exact Hc|].
    rewrite save_absent by (rewrite Hid; exact Hx).
    now apply Forall2_conserved_refl.
  - constructor; [now apply conserved_refl|].
    apply IH; try assumption.
    destruct Hp as [->|Hp]; [|assumption].
    apply Z.eqb_neq in E. congruence.
Qed.

Lemma total_absent st p' :
  ~ In (_id p') (map _id st) -> getTotalRemainingRequests (save st p') userId now
  = getTotalRemainingRequests st userId now.
Proof. intros H. now rewrite save_absent. Qed.

(** Saving a usable pack after taking [n] requests from it lowers the
    balance by [n]. *)
Lemma save_total st p n :
  NoDup (map _id st) -> In p st -> usable userId now p = true ->
  0 <= n <= requestsRemaining p ->
  getTotalRemainingRequests
    (save st (set_usage (requestsUsed p + n) (requestsRemaining p - n)
                        (if requestsRemaining p - n =? 0 then exhausted else active) p))
    userId now
  = getTotalRemainingRequests st userId now - n.
Proof.
  intros Hnd Hp Hu Hn.
  set (p' := set_usage _ _ _ p).
  assert (Hid : _id p' = _id p) by reflexivity.
  assert (Hp' : (if usable userId now p' then requestsRemaining p' else 0)
                = requestsRemaining p - n).
  { unfold usable in *. subst p'. simpl.
    apply andb_true_iff in Hu as (Hu & Hexp). apply andb_true_iff in Hu as (Huser & _).
    rewrite Huser, Hexp. simpl.
    destruct (requestsRemaining p - n =? 0) eqn:E; simpl;
      [apply Z.eqb_eq in E; lia | reflexivity]. }
  unfold getTotalRemainingRequests.
  induction st as [|x r IH]; [contradiction|].
  inversion Hnd as [|? ? Hx Hr]; subst.
  cbn [save map]. fold (save r p').
  destruct (_id x =? _id p') eqn:E.
  - apply Z.eqb_eq in E.
    assert (x = p) as ->.
    { destruct Hp as [->|Hp]; [reflexivity|].
      exfalso. apply Hx. rewrite E, Hid. now apply in_map. }
    rewrite save_absent by (rewrite Hid; exact Hx).
    cbn [filter]. rewrite Hu.
    destruct (usable userId now p'); cbn [fold_right]; lia.
  - destruct Hp as [->|Hp]; [apply Z.eqb_neq in E; congruence|].
    cbn [filter]. destruct (usable userId now x); cbn [fold_right];
      rewrite (IH Hr Hp); lia.
Qed.

(** The loop of [useFromPacks] over a snapshot [l] of usable packs that the
    collection still holds. *)
Lemma loop_spends (l : list PurchasedPack.t) :
  forall st remaining,
    NoDup (map _id st) -> NoDup (map _id l) ->
    Forall (fun q => 0 <= requestsRemaining q) st ->
    Forall (fun p => In p st /\ usable userId now p = true) l ->
    0 <= remaining ->
    exists st',
      useFromPacks_loop st l remaining = (st', Ok (Z.max 0 (remaining - sum_remaining l)))
      /\ Forall2 (conserved userId now) st st'
      /\ getTotalRemainingRequests st' userId now
         = getTotalRemainingRequests st userId now - Z.min remaining (sum_remaining l).
Proof.
  induction l as [|p r IH]; intros st remaining Hst Hl Hnn Hall Hrem.
  - exists st. simpl. split; [f_equal; f_equal; lia|].
    split; [now apply Forall2_conserved_refl | lia].
  - inversion Hl as [|? ? Hp Hr]; subst.
    inversion Hall as [|? ? (Hin & Hu) Hall']; subst.
    assert (Hpn : 0 <= requestsRemaining p).
    { rewrite Forall_forall in Hnn. now apply Hnn. }
    assert (Hrn : 0 <= sum_remaining r).
    { apply PackSpec.sum_remaining_nonneg. rewrite Forall_forall in *.
      intros q Hq. apply Hnn, Hall', Hq. }
    cbn [useFromPacks_loop sum_remaining fold_right].
    fold (sum_remaining r).
    destruct (remaining <=? 0) eqn:E.
    + apply Z.leb_le in E. exists st.
      split; [f_equal; f_equal; lia|].
      split; [now apply Forall2_conserved_refl | lia].
    + apply Z.leb_gt in E.
      set (toUse := Z.min remaining (requestsRemaining p)).
      assert (HtoUse : 0 <= toUse <= requestsRemaining p) by (subst toUse; lia).
      rewrite (useRequests_ok p toUse (usable_active p Hu) HtoUse).
      set (p' := set_usage _ _ _ p).
      assert (Hc : conserved userId now p p').
      { unfold conserved. subst p'. simpl. repeat split; try lia. congruence. }
      assert (Hsave : Forall2 (conserved userId now) st (save st p'))
        by exact (save_conserved st p p' Hst Hin Hnn Hc).
      destruct (IH (save st p') (remaining - toUse)) as (st' & Eloop & Hcons & Htot).
      * rewrite PackSpec.save_ids. exact Hst.
      * exact Hr.
      * clear - Hsave Hnn. induction Hsave; constructor.
        -- unfold conserved in H. lia.
        -- inversion Hnn; subst. auto.
      * rewrite Forall_forall in *. intros q Hq. destruct (Hall' q Hq) as (Hqin & Hqu).
        split; [|exact Hqu]. apply save_other; [exact Hqin|].
        change (_id p') with (_id p). intros Heq. apply Hp. rewrite <- Heq. now apply in_map.
      * lia.
      * exists st'. rewrite Eloop.
        split; [f_equal; f_equal; lia|].
        split; [exact (Forall2_conserved_trans _ _ _ Hsave Hcons)|].
        rewrite Htot. subst p'. rewrite (save_total st p toUse Hst Hin Hu HtoUse). lia.
Qed.

End Spend.

(** The loop as [useFromPacks] runs it, over the user's usable packs. *)
Lemma loop_on_active (ps : list PurchasedPack.t) (userId : ObjectId) (count : Z) (now : Date) :
  NoDup (map _id ps) ->
  Forall (fun p => 0 <= requestsRemaining p) ps ->
  0 <= count ->
  exists ps',
    useFromPacks_loop ps (getActivePacks ps userId now) count
    = (ps', Ok (Z.max 0 (count - getTotalRemainingRequests ps userId now)))
    /\ Forall2 (conserved userId now) ps ps'
    /\ getTotalRemainingRequests ps' userId now
       = getTotalRemainingRequests ps userId now
         - Z.min count (getTotalRemainingRequests ps userId now).
Proof.
  intros Hnd Hnn H0.
  assert (Hperm : Permutation (filter (usable userId now) ps) (getActivePacks ps userId now))
    by apply PackSpec.sort_by_expiry_perm.
  destruct (loop_spends userId now (getActivePacks ps userId now) ps count)
    as (ps' & E & Hc & Ht); try assumption.
  - apply (Permutation_NoDup (Permutation_map _id Hperm)), PackSpec.NoDup_ids_filter, Hnd.
  - rewrite Forall_forall. intros p Hp.
    apply (Permutation_in _ (Permutation_sym Hperm)) in Hp. now apply filter_In in Hp.
  - exists ps'. rewrite (PackSpec.total_is_sum ps userId now) in Ht |- *.
    split; [exact E|]. split; [exact Hc | exact Ht].
Qed.

(** X15. When the user's usable packs hold at least [count] requests
    ([count] not negative, pack ids unique, no stored count negative),
    [useFromPacks] returns [true], the user's balance drops by exactly
    [count], and every stored pack is the same purchase as before with its
    [requestsUsed + requestsRemaining] unchanged; packs the user could not
    use (other users', inactive or expired ones) are the same documents. *)
Theorem useFromPacks_spends_exactly (ps : list PurchasedPack.t) (userId : ObjectId)
        (count : Z) (now : Date) :
  NoDup (map _id ps) ->
  Forall (fun p => 0 <= requestsRemaining p) ps ->
  0 <= count <= getTotalRemainingRequests ps userId now ->
  exists ps',
    useFromPacks ps userId count now = (ps', Ok true)
    /\ getTotalRemainingRequests ps' userId now
       = getTotalRemainingRequests ps userId now - count
    /\ Forall2 (conserved userId now) ps ps'.
Proof.
  intros Hnd Hnn (H0 & Hle).
  destruct (loop_on_active ps userId count now Hnd Hnn H0) as (ps' & E & Hc & Ht).
  exists ps'. unfold useFromPacks. rewrite E.
  replace (Z.max 0 (count - getTotalRemainingRequests ps userId now)) with 0 by lia.
  simpl. split; [reflexivity|]. split; [lia | exact Hc].
Qed.

Lemma useFromPacks_spends_exactly_witness :
  0 <= 4 <= getTotalRemainingRequests Samples.two_packs Samples.alice 1000
  /\ exists ps',
       useFromPacks Samples.two_packs Samples.alice 4 1000 = (ps', Ok true)
       /\ getTotalRemainingRequests ps' Samples.alice 1000 = 1.
Proof.
  assert (Hnd : NoDup (map _id Samples.two_packs))
    by (simpl; repeat constructor; simpl; intuition discriminate).
  assert (Hnn : Forall (fun p => 0 <= requestsRemaining p) Samples.two_packs)
    by (repeat constructor; simpl; lia).
  assert (Hb : 0 <= 4 <= getTotalRemainingRequests Samples.two_packs Samples.alice 1000)
    by (vm_compute; split; discriminate).
  split; [exact Hb|].
  destruct (useFromPacks_spends_exactly Samples.two_packs Samples.alice 4 1000 Hnd Hnn Hb)
    as (ps' & E & Ht & _).
  exists ps'. split; [exact E | exact Ht].
Defined.

(** X16. The expiry sweep of packs never changes what a user can spend: at
    any time not before the sweep's clock, the usable packs of every user
    and the user's balance are the same with and without the sweep. *)
Theorem expireOldPacks_keeps_balance (ps : list PurchasedPack.t) (userId : ObjectId)
        (now now' : Date) :
  now <= now' ->
  getActivePacks (expireOldPacks ps now) userId now' = getActivePacks ps userId now'
  /\ getTotalRemainingRequests (expireOldPacks ps now) userId now'
     = getTotalRemainingRequests ps userId now'.
Proof.
  intros Hle.
  assert (E : filter (usable userId now') (expireOldPacks ps now)
              = filter (usable userId now') ps).
  { unfold expireOldPacks, updateMany.
    induction ps as [|p r IH]; simpl; [reflexivity|]. rewrite IH.
    destruct (Status_eqb (status p) active && (expiresAt p <? now)) eqn:Em; [|reflexivity].
    apply andb_true_iff in Em as (_ & Hx). apply Z.ltb_lt in Hx.
    unfold usable. simpl. rewrite andb_false_r. simpl.
    replace (now' <? expiresAt p) with false by (symmetry; apply Z.ltb_ge; lia).
    rewrite andb_false_r. reflexivity. }
  unfold getActivePacks, getTotalRemainingRequests. rewrite E. split; reflexivity.
Qed.

Lemma expireOldPacks_keeps_balance_witness :
  (6000 <= 7000)
  /\ getTotalRemainingRequests (expireOldPacks Samples.two_packs 6000) Samples.alice 7000
     = getTotalRemainingRequests Samples.two_packs Samples.alice 7000.
Proof.
  assert (H : 6000 <= 7000) by lia.
  split; [exact H|].
  exact (proj2 (expireOldPacks_keeps_balance Samples.two_packs Samples.alice 6000 7000 H)).
Defined.

End PackFacts.

(** ** Spending one request *)

Module UseRequestFacts.

Import PurchasedPack PurchaseController PurchaseRequests.

(** X17. [useRequest] takes the decision [canSendRequest] reports (pack ids
    unique, no stored count negative): premium and free sends touch no pack,
    a free send leaves one free request less than was reported; when
    [canSendRequest] reports [r] purchased requests, [useRequest] does not
    throw, takes exactly one request from the user's packs and the [r - 1] it
    returns is the balance the packs then hold; when the limit is reached
    nothing is spent. *)
Theorem useRequest_follows_canSendRequest (env : Env) (db : DB) (userId : ObjectId)
        (premium : bool) (now : Date) :
  NoDup (map _id (packs db)) ->
  Forall (fun p => 0 <= requestsRemaining p) (packs db) ->
  match canSendRequest env db userId premium now with
  | premium_ => useRequest env db userId premium now = (packs db, used_premium)
  | free r => 0 < r /\ useRequest env db userId premium now = (packs db, used_free (r - 1))
  | purchased r =>
      exists ps',
        useRequest env db userId premium now = (ps', used_purchased (r - 1))
        /\ getTotalRemainingRequests ps' userId now = r - 1
        /\ Forall2 (conserved userId now) (packs db) ps'
  | limit_reached =>
      useRequest env db userId premium now = (packs db, no_requests_available)
  end.
Proof.
  intros Hnd Hnn. unfold canSendRequest, useRequest.
  destruct premium; [reflexivity|]. cbv zeta.
  destruct (_ <? AppConfig.dailyFreeRequests _) eqn:Efree.
  - apply Z.ltb_lt in Efree. split; [lia | reflexivity].
  - destruct (0 <? getTotalRemainingRequests (packs db) userId now) eqn:Ep; [|reflexivity].
    apply Z.ltb_lt in Ep.
    destruct (PackFacts.loop_on_active (packs db) userId 1 now Hnd Hnn)
      as (ps' & E & Hc & Ht); [lia|].
    exists ps'. unfold useFromPacks. rewrite E.
    replace (Z.max 0 (1 - getTotalRemainingRequests (packs db) userId now)) with 0 by lia.
    simpl. split; [reflexivity|]. split; [lia | exact Hc].
Qed.

Lemma useRequest_follows_canSendRequest_witness :
  canSendRequest Samples.env Samples.quota_used Samples.alice false 2000
  = purchased 5
  /\ exists ps',
       useRequest Samples.env Samples.quota_used Samples.alice false 2000
       = (ps', used_purchased 4)
       /\ getTotalRemainingRequests ps' Samples.alice 2000 = 4.
Proof.
  assert (Hnd : NoDup (map _id (packs Samples.quota_used)))
    by (vm_compute; repeat constructor; intros []).
  assert (Hnn : Forall (fun p => 0 <= requestsRemaining p) (packs Samples.quota_used))
    by (vm_compute; repeat constructor; discriminate).
  pose proof (useRequest_follows_canSendRequest Samples.env Samples.quota_used Samples.alice
                false 2000 Hnd Hnn) as H.
  assert (E : canSendRequest Samples.env Samples.quota_used Samples.alice false 2000
              = purchased 5) by (vm_compute; reflexivity).
  split; [exact E|].
  rewrite E in H. destruct H as (ps' & Hu & Ht & _).
  exists ps'. split; [exact Hu | exact Ht].
Defined.

End UseRequestFacts.

(** ** Message documents: reactions, deletion, edits *)

Module MessageDocFacts.

Import MessageDoc.

Lemma NoDup_users_filter (f : Reaction -> bool) (rs : list Reaction) :
  NoDup (map user rs) -> NoDup (map user (filter f rs)).
Proof.
  induction rs as [|x l IH]; simpl; intros H; [constructor|].
  inversion H as [|? ? Hx Hl]; subst.
  destruct (f x); simpl; [|auto].
  constructor; [|auto]. intros Hin. apply Hx.
  apply in_map_iff in Hin as (q & Eq & Hq). apply filter_In in Hq as (Hq & _).
  rewrite <- Eq. now apply in_map.
Qed.

Lemma others_exclude (u : ObjectId) (rs : list Reaction) :
  ~ In u (map user (filter (fun r => negb (user r =? u)) rs)).
Proof.
  intros Hin. apply in_map_iff in Hin as (q & Eq & Hq).
  apply filter_In in Hq as (_ & Hq). rewrite Eq, Z.eqb_refl in Hq. discriminate.
Qed.

Lemma valid_filter (f : Reaction -> bool) (rs : list Reaction) :
  forallb valid_reaction rs = true -> forallb valid_reaction (filter f rs) = true.
Proof.
  rewrite !forallb_forall. intros H r Hr. apply filter_In in Hr as (Hr & _). auto.
Qed.

Lemma filter_absent (u : ObjectId) (rs : list Reaction) :
  ~ In u (map user rs) -> filter (fun r => negb (user r =? u)) rs = rs.
Proof.
  induction rs as [|x l IH]; simpl; intros H; [reflexivity|].
  destruct (user x =? u) eqn:E; [apply Z.eqb_eq in E; tauto|].
  simpl. f_equal. apply IH. tauto.
Qed.

Lemma set_reactions_same d : set_reactions (reactions d) d = d.
Proof. destruct d; reflexivity. Qed.

Lemma addReaction_ok d u e now :
  forallb valid_reaction (reactions d) = true ->
  valid_reaction (mkReaction u e now) = true ->
  addReaction d u e now
  = Ok (set_reactions (filter (fun r => negb (user r =? u)) (reactions d)
                       ++ [mkReaction u e now]) d).
Proof.
  intros Hv He. unfold addReaction, save_reactions. cbn [reactions set_reactions].
  rewrite forallb_app, (valid_filter _ _ Hv). cbn [forallb]. rewrite He. reflexivity.
Qed.

Lemma addReaction_invalid d u e now :
  valid_reaction (mkReaction u e now) = false ->
  addReaction d u e now = Err "Message validation failed".
Proof.
  intros He. unfold addReaction, save_reactions. cbn [reactions set_reactions].
  rewrite forallb_app. cbn [forallb]. rewrite He, andb_false_r. reflexivity.
Qed.

Lemma removeReaction_ok d u :
  forallb valid_reaction (reactions d) = true ->
  removeReaction d u
  = Ok (set_reactions (filter (fun r => negb (user r =? u)) (reactions d)) d).
Proof.
  intros Hv. unfold removeReaction, save_reactions. cbn [reactions set_reactions].
  rewrite (valid_filter _ _ Hv). reflexivity.
Qed.

Lemma react_ok d op :
  reactions_ok d -> reactions_ok (react d op) /\ set_reactions (reactions d) (react d op) = d.
Proof.
  intros (Hnd & Hv). destruct op as [u e now | u]; cbn [react].
  - destruct (valid_reaction (mkReaction u e now)) eqn:He.
    + rewrite (addReaction_ok d u e now Hv He). split; [|destruct d; reflexivity].
      split; cbn [reactions set_reactions].
      * rewrite map_app. apply NoDup_app.
        -- now apply NoDup_users_filter.
        -- constructor; [intros []|constructor].
        -- intros i Hi [<-|[]]. exact (others_exclude _ _ Hi).
      * rewrite forallb_app, (valid_filter _ _ Hv). cbn [forallb]. now rewrite He.
    + rewrite (addReaction_invalid d u e now He).
      split; [split; assumption | apply set_reactions_same].
  - rewrite (removeReaction_ok d u Hv). split; [|destruct d; reflexivity].
    split; cbn [reactions set_reactions];
      [now apply NoDup_users_filter | now apply valid_filter].
Qed.

(** X18. One reaction per user: on a message whose stored reactions pass
    the schema and where no user has two of them (a new message has none),
    after any sequence of [addReaction] and [removeReaction] calls still no
    user has two, every stored reaction passes the schema, and nothing of the
    message but its reactions has changed. *)
Theorem one_reaction_per_user (ops : list ReactionOp) (d : MessageDoc.t) :
  reactions_ok d ->
  reactions_ok (fold_left react ops d)
  /\ set_reactions (reactions d) (fold_left react ops d) = d.
Proof.
  revert d. induction ops as [|op rest IH]; intros d H; simpl.
  - split; [exact H | apply set_reactions_same].
  - destruct (react_ok d op H) as (H1 & E1).
    destruct (IH _ H1) as (H2 & E2). split; [exact H2|].
    revert E1 E2. generalize (fold_left react rest (react d op)) (react d op).
    intros f r E1 E2. destruct d, r, f. unfold set_reactions in *. simpl in *. congruence.
Qed.

Lemma one_reaction_per_user_witness :
  reactions_ok MessageSamples.first
  /\ reactions_ok (fold_left react
                     [AddReaction Samples.bob "ok" 3000;
                      AddReaction Samples.alice "hm" 3100;
                      AddReaction Samples.bob "no" 3200]
                     MessageSamples.first).
Proof.
  assert (H : reactions_ok MessageSamples.first) by (split; [constructor | reflexivity]).
  split; [exact H|].
  exact (proj1 (one_reaction_per_user
                  [AddReaction Samples.bob "ok" 3000;
                   AddReaction Samples.alice "hm" 3100;
                   AddReaction Samples.bob "no" 3200] MessageSamples.first H)).
Defined.

(** X19. Reacting replaces, and removing undoes.  On a message whose stored
    reactions pass the schema: an empty emoji, or one whose [length] is more
    than 10 (counted in UTF-16 code units, so a character outside the basic
    plane counts twice), is refused and nothing is saved; otherwise, after
    [addReaction] the user's only reaction is the new one, placed last, the
    reactions of the other users are the ones stored before, in their order,
    and, when the user had not reacted before, [removeReaction] gives back the
    document [addReaction] started from. *)
Theorem addReaction_replaces (d : MessageDoc.t) (u : ObjectId) (e : string) (now : Date) :
  forallb valid_reaction (reactions d) = true ->
  if negb (String.eqb e "") && (utf16_length e <=? 10) then
    exists d',
      addReaction d u e now = Ok d'
      /\ reactions d'
         = (filter (fun r => negb (user r =? u)) (reactions d) ++ [mkReaction u e now])%list
      /\ filter (fun r => user r =? u) (reactions d') = [mkReaction u e now]
      /\ (~ In u (map user (reactions d)) -> removeReaction d' u = Ok d)
  else addReaction d u e now = Err "Message validation failed".
Proof.
  intros Hv.
  change (negb (String.eqb e "") && (utf16_length e <=? 10))
    with (valid_reaction (mkReaction u e now)).
  destruct (valid_reaction (mkReaction u e now)) eqn:He.
  - eexists. split; [exact (addReaction_ok d u e now Hv He)|].
    cbn [reactions set_reactions]. split; [reflexivity|]. split.
    + rewrite filter_app. cbn [filter user]. rewrite Z.eqb_refl.
      replace (filter _ (filter _ (reactions d))) with (@nil Reaction); [reflexivity|].
      symmetry. clear Hv. induction (reactions d) as [|x l IH]; simpl; [reflexivity|].
      destruct (user x =? u) eqn:E; simpl; [exact IH|]. rewrite E. exact IH.
    + intros Habs. rewrite removeReaction_ok.
      * cbn [reactions set_reactions]. rewrite filter_app. cbn [filter user].
        rewrite Z.eqb_refl. cbn [negb]. rewrite app_nil_r.
        rewrite !(filter_absent u (reactions d) Habs). destruct d; reflexivity.
      * cbn [reactions set_reactions]. rewrite forallb_app, (valid_filter _ _ Hv).
        cbn [forallb]. now rewrite He.
  - exact (addReaction_invalid d u e now He).
Qed.

(** Bob reacts with three thumbs-up signs: 12 bytes, 6 code units. *)
Lemma addReaction_replaces_witness :
  forallb valid_reaction (reactions MessageSamples.first) = true
  /\ exists d',
       addReaction MessageSamples.first Samples.bob "👍👍👍" 3000 = Ok d'
       /\ removeReaction d' Samples.bob = Ok MessageSamples.first.
Proof.
  assert (H : forallb valid_reaction (reactions MessageSamples.first) = true)
    by reflexivity.
  split; [exact H|].
  pose proof (addReaction_replaces MessageSamples.first Samples.bob "👍👍👍" 3000 H) as R.
  change (negb (String.eqb "👍👍👍" "") && (utf16_length "👍👍👍" <=? 10)) with true in R.
  cbv iota in R. destruct R as (d' & E & _ & _ & Hundo).
  exists d'. split; [exact E|]. apply Hundo. intros [].
Defined.

Lemma findById_in store i d : findById store i = Some d -> In d store /\ _id d = i.
Proof.
  intros H. apply find_some in H as (H & E). apply Z.eqb_eq in E. auto.
Qed.

Lemma findById_save store i d d' :
  findById store i = Some d -> _id d' = _id d -> findById (save store d') i = Some d'.
Proof.
  unfold findById, save. intros Ef Hid'.
  induction store as [|x l IH]; simpl in *; [discriminate|].
  destruct (_id x =? i) eqn:E.
  - injection Ef as ->. rewrite Hid', Z.eqb_refl, Hid', E. reflexivity.
  - destruct (_id x =? _id d') eqn:E'.
    + apply find_some in Ef as (_ & Ed). apply Z.eqb_eq in E', Ed.
      apply Z.eqb_neq in E. congruence.
    + rewrite E. auto.
Qed.

Lemma unique_doc (store : list MessageDoc.t) (q r : MessageDoc.t) :
  NoDup (map _id store) -> In q store -> In r store -> _id q = _id r -> q = r.
Proof.
  induction store as [|x l IH]; simpl; intros Hnd Hq Hr E; [contradiction|].
  inversion Hnd as [|? ? Hx Hl]; subst.
  destruct Hq as [->|Hq], Hr as [->|Hr]; auto.
  - exfalso. apply Hx. rewrite E. now apply in_map.
  - exfalso. apply Hx. rewrite <- E. now apply in_map.
Qed.

(** A listing after a save: the saved document is judged in place of the
    stored one, every other document as before. *)
Lemma listing_after_save (store : list MessageDoc.t) (d d' : MessageDoc.t)
      (f : MessageDoc.t -> bool) :
  NoDup (map _id store) -> In d store -> _id d' = _id d ->
  (f d' = f d) ->
  map _id (filter f (save store d')) = map _id (filter f store).
Proof.
  intros Hnd Hd Hid Hf. unfold save.
  induction store as [|x l IH]; simpl; [reflexivity|].
  inversion Hnd as [|? ? Hx Hl]; subst.
  destruct (_id x =? _id d') eqn:E.
  - apply Z.eqb_eq in E.
    assert (x = d) as ->.
    { apply (unique_doc (x :: l)); simpl; auto. congruence. }
    rewrite Hf.
    assert (Hrest : map (fun q => if _id q =? _id d' then d' else q) l = l).
    { rewrite <- (map_id l) at 2. apply map_ext_in. intros q Hq.
      destruct (_id q =? _id d') eqn:Eq; [|reflexivity].
      apply Z.eqb_eq in Eq. exfalso. apply Hx. rewrite <- Hid, <- Eq. now apply in_map. }
    rewrite Hrest. destruct (f d); simpl; congruence.
  - destruct Hd as [->|Hd]; [apply Z.eqb_neq in E; congruence|].
    destruct (f x); simpl; rewrite (IH Hl Hd); reflexivity.
Qed.

Lemma deleteForUser_keeps m u :
  (base (deleteForUser m u), reactions (deleteForUser m u), isDeleted (deleteForUser m u))
  = (base m, reactions m, isDeleted m).
Proof. unfold deleteForUser. destruct (id_in (deletedFor m) u); reflexivity. Qed.

(** X20. Delete-for-me is private.  When [deleteMessage] without
    [forEveryone] answers success (message ids unique), the caller takes part
    in the message's conversation, the message no longer appears in what
    [getForConversation] finds for the caller, every other user finds the same
    messages as before, no message's content, sender or reactions changed,
    and repeating the call changes nothing more. *)
Theorem delete_for_me_is_private (db : DB) (store store' : list MessageDoc.t)
        (userId messageId : ObjectId) (now : Date) (text_ : string) :
  NoDup (map _id store) ->
  MessageActions.deleteMessage db store userId messageId false now
  = (store', ApiResponse.success text_) ->
  exists message,
    findById store messageId = Some message
    /\ MessageController.findFor db (Message.conversation (base message)) userId <> None
    /\ (forall c, ~ In messageId (map _id (getForConversation store' c userId)))
    /\ (forall c v, v <> userId ->
          map _id (getForConversation store' c v) = map _id (getForConversation store c v))
    /\ map (fun d => (base d, reactions d, isDeleted d)) store'
       = map (fun d => (base d, reactions d, isDeleted d)) store
    /\ forall now', MessageActions.deleteMessage db store' userId messageId false now'
                    = (store', ApiResponse.success text_).
Proof.
  intros Hnd H. unfold MessageActions.deleteMessage in H.
  destruct (findById store messageId) as [message|] eqn:Ef; [|discriminate].
  destruct (MessageController.findFor db _ userId) as [c0|] eqn:Ec; [|discriminate].
  injection H as <- <-.
  destruct (findById_in _ _ _ Ef) as (Hin & Hid).
  set (message' := deleteForUser message userId).
  assert (Hid' : _id message' = _id message).
  { unfold message', deleteForUser. destruct (id_in _ _); reflexivity. }
  assert (Hbase : base message' = base message).
  { unfold message', deleteForUser. destruct (id_in _ _); reflexivity. }
  assert (Hmine : id_in (deletedFor message') userId = true).
  { unfold message', deleteForUser. destruct (id_in (deletedFor message) userId) eqn:E;
      [exact E|]. cbn [deletedFor]. unfold id_in. rewrite existsb_app. simpl.
    rewrite Z.eqb_refl. apply orb_true_r. }
  assert (Hin' : In message' (save store message')).
  { unfold save. apply in_map_iff. exists message. rewrite Hid', Z.eqb_refl. auto. }
  exists message. split; [reflexivity|]. split; [congruence|]. split; [|split; [|split]].
  - intros c Hc. apply in_map_iff in Hc as (q & Eq & Hq).
    unfold getForConversation in Hq. apply filter_In in Hq as (Hq & Hf).
    unfold save in Hq. apply in_map_iff in Hq as (x & Ex & Hx).
    destruct (_id x =? _id message') eqn:E.
    + subst q. rewrite Hmine, andb_false_r in Hf. discriminate.
    + subst q. apply Z.eqb_neq in E. congruence.
  - intros c v Hv. unfold getForConversation.
    apply (listing_after_save store message message'); try assumption.
    rewrite Hbase. f_equal. f_equal.
    unfold message', deleteForUser. destruct (id_in (deletedFor message) userId); [reflexivity|].
    cbn [deletedFor]. unfold id_in. rewrite existsb_app. simpl.
    destruct (v =? userId) eqn:E; [apply Z.eqb_eq in E; contradiction|].
    rewrite !orb_false_r. reflexivity.
  - unfold save. rewrite map_map.
    apply map_ext_in. intros q Hq. destruct (_id q =? _id message') eqn:E; [|reflexivity].
    apply Z.eqb_eq in E.
    assert (q = message) as -> by (apply (unique_doc store); auto; congruence).
    apply deleteForUser_keeps.
  - intros now'. unfold MessageActions.deleteMessage.
    assert (Ef' : findById (save store message') messageId = Some message').
    { exact (findById_save store messageId message message' Ef Hid'). }
    rewrite Ef', Hbase, Ec.
    assert (Hsame : deleteForUser message' userId = message').
    { unfold deleteForUser at 1. rewrite Hmine. reflexivity. }
    rewrite Hsame. f_equal.
    unfold save. rewrite map_map. apply map_ext_in. intros q Hq.
    destruct (_id q =? _id message') eqn:E; [rewrite Z.eqb_refl; reflexivity|].
    rewrite E. reflexivity.
Qed.

Lemma delete_for_me_is_private_witness :
  NoDup (map _id MessageSamples.store)
  /\ exists message,
       findById MessageSamples.store Samples.first_message = Some message
       /\ forall c, ~ In Samples.first_message
                      (map _id (getForConversation
                                  (save MessageSamples.store
                                        (deleteForUser MessageSamples.first Samples.bob))
                                  c Samples.bob)).
Proof.
  assert (H : NoDup (map _id MessageSamples.store))
    by (repeat constructor; intros []).
  split; [exact H|].
  destruct (delete_for_me_is_private Samples.opened MessageSamples.store
              (save MessageSamples.store (deleteForUser MessageSamples.first Samples.bob))
              Samples.bob Samples.first_message 5000 "Message deleted" H eq_refl)
    as (message & Ef & _ & Hhid & _).
  exists message. split; [exact Ef | exact Hhid].
Defined.

(** X21. Delete-for-everyone belongs to the sender, for one hour.  For a
    stored message of a conversation the caller takes part in (message ids
    unique), [deleteMessage] with [forEveryone] succeeds exactly when the
    caller sent the message and at most 3 600 000 ms have passed since it was
    created.  Then the stored content is replaced by the placeholder and the
    message is marked deleted at [now], its sender, reactions, edit history
    and per-user deletions are kept, and it stays listed for every user who
    had it listed.  Otherwise the answer is a 400 and nothing is stored. *)
Theorem delete_for_everyone_rule (db : DB) (store : list MessageDoc.t)
        (userId messageId : ObjectId) (now : Date) (message : MessageDoc.t)
        (c : Conversation.t) :
  NoDup (map _id store) ->
  findById store messageId = Some message ->
  MessageController.findFor db (Message.conversation (base message)) userId = Some c ->
  if (Message.sender (base message) =? userId)
     && (now - Message.createdAt (base message) <=? 3600000)
  then
    let deleted :=
      mk (set_content "This message was deleted" (base message)) (reactions message)
         true (Some now) (deletedFor message) (isEdited message) (editedAt message)
         (originalContent message) in
    MessageActions.deleteMessage db store userId messageId true now
    = (save store deleted, ApiResponse.success "Message deleted")
    /\ findById (save store deleted) messageId = Some deleted
    /\ forall conversationId v,
         map _id (getForConversation (save store deleted) conversationId v)
         = map _id (getForConversation store conversationId v)
  else
    exists e, MessageActions.deleteMessage db store userId messageId true now
              = (store, ApiResponse.badRequest e).
Proof.
  intros Hnd Ef Ec. unfold MessageActions.deleteMessage. rewrite Ef, Ec.
  unfold deleteForEveryone.
  destruct (Message.sender (base message) =? userId) eqn:Es; cbn [negb andb];
    [|eexists; reflexivity].
  change (60 * 60 * 1000) with 3600000.
  destruct (now - Message.createdAt (base message) <=? 3600000) eqn:Et.
  - apply Z.leb_le in Et.
    replace (3600000 <? now - Message.createdAt (base message)) with false
      by (symmetry; apply Z.ltb_ge; lia).
    cbv zeta. split; [reflexivity|]. split.
    + apply (findById_save store messageId message); [exact Ef | reflexivity].
    + intros conversationId v. unfold getForConversation.
      destruct (findById_in _ _ _ Ef) as (Hin & _).
      apply (listing_after_save store message); auto.
  - apply Z.leb_gt in Et.
    replace (3600000 <? now - Message.createdAt (base message)) with true
      by (symmetry; apply Z.ltb_lt; lia).
    eexists; reflexivity.
Qed.

Lemma delete_for_everyone_rule_witness :
  NoDup (map _id MessageSamples.store)
  /\ MessageActions.deleteMessage Samples.opened MessageSamples.store Samples.alice
       Samples.first_message true 5000
     = (save MessageSamples.store
             (mk (set_content "This message was deleted" (base MessageSamples.first))
                 [] true (Some 5000) [] false None None),
        ApiResponse.success "Message deleted").
Proof.
  assert (H : NoDup (map _id MessageSamples.store))
    by (repeat constructor; intros []).
  split; [exact H|].
  destruct (MessageController.findFor Samples.opened
              (Message.conversation (base MessageSamples.first)) Samples.alice)
    as [c|] eqn:Ec; [|vm_compute in Ec; discriminate Ec].
  exact (proj1 (delete_for_everyone_rule Samples.opened MessageSamples.store Samples.alice
                  Samples.first_message 5000 MessageSamples.first c H eq_refl Ec)).
Defined.

(** What [originalContent] should read: the stored original once the message
    was edited, the current content before. *)
Lemma edit_steps requesterId d e :
  edit requesterId d e = d
  \/ (isEdited (edit requesterId d e) = true
      /\ originalContent (edit requesterId d e)
         = (if isEdited d then originalContent d else Some (Message.content (base d)))
      /\ Message.sender (base (edit requesterId d e)) = Message.sender (base d)
      /\ Message.sender (base d) = requesterId
      /\ snd e - Message.createdAt (base d) <= 900000).
Proof.
  unfold edit, editContent.
  destruct (Message.sender (base d) =? requesterId) eqn:Es; cbn [negb]; [|now left].
  change (15 * 60 * 1000) with 900000.
  destruct (900000 <? snd e - Message.createdAt (base d)) eqn:Et; [now left|].
  destruct (Message.validate _ _); [|now left].
  right. cbn [isEdited originalContent base]. apply Z.eqb_eq in Es. apply Z.ltb_ge in Et.
  destruct (isEdited d); auto.
Qed.

(** X22. The original content is kept once and for all.  Over any sequence
    of edit attempts on a message that was never edited, either no attempt
    was accepted and the message is as it was, or the message is marked
    edited and [originalContent] is the content it had before the first
    edit, whatever was written since.  Attempts by anybody but the sender
    never change the message. *)
Theorem original_content_is_first (requesterId : ObjectId) (edits : list (string * Date))
        (d : MessageDoc.t) :
  isEdited d = false ->
  (Message.sender (base d) <> requesterId -> fold_left (edit requesterId) edits d = d)
  /\ (fold_left (edit requesterId) edits d = d
      \/ (isEdited (fold_left (edit requesterId) edits d) = true
          /\ originalContent (fold_left (edit requesterId) edits d)
             = Some (Message.content (base d)))).
Proof.
  intros Hne. split.
  - intros Hs. induction edits as [|e rest IH]; simpl; [reflexivity|].
    destruct (edit_steps requesterId d e) as [->|(_ & _ & _ & Hreq & _)];
      [exact IH | contradiction].
  - assert (Hgen : forall l x o,
               (if isEdited x then originalContent x else Some (Message.content (base x))) = o ->
               fold_left (edit requesterId) l x = x
               \/ (isEdited (fold_left (edit requesterId) l x) = true
                   /\ originalContent (fold_left (edit requesterId) l x) = o)).
    { induction l as [|e rest IH]; intros x o Ho; simpl; [now left|].
      destruct (edit_steps requesterId x e) as [->|(He & Ho' & _)]; [now apply IH|].
      right. destruct (IH (edit requesterId x e) o) as [->|H]; auto.
      - rewrite He, Ho'. exact Ho.
      - rewrite Ho', <- Ho. split; [exact He | reflexivity]. }
    apply Hgen. rewrite Hne. reflexivity.
Qed.

Lemma original_content_is_first_witness :
  isEdited MessageSamples.first = false
  /\ originalContent (fold_left (edit Samples.alice)
                                [("hello", 3000); ("hello Bob", 4000)]
                                MessageSamples.first)
     = Some "hi there".
Proof.
  assert (H : isEdited MessageSamples.first = false) by reflexivity.
  split; [exact H|].
  destruct (proj2 (original_content_is_first Samples.alice
                     [("hello", 3000); ("hello Bob", 4000)] MessageSamples.first H))
    as [E|(_ & E)].
  - vm_compute in E. discriminate E.
  - exact E.
Defined.

(** X23. The socket path reacts without the participant check.  For a
    stored message (its stored reactions passing the schema) whose
    conversation the caller does not take part in, the HTTP [addReaction]
    answers 403 and stores nothing, while [socket.on('add_reaction')] with a
    valid emoji saves the caller's reaction on the message and broadcasts it
    to the conversation. *)
Theorem socket_reaction_skips_participant_check (db : DB) (store : list MessageDoc.t)
        (userId messageId : ObjectId) (emoji_ : string) (now : Date)
        (message : MessageDoc.t) :
  findById store messageId = Some message ->
  MessageController.findFor db (Message.conversation (base message)) userId = None ->
  forallb valid_reaction (reactions message) = true ->
  valid_reaction (mkReaction userId emoji_ now) = true ->
  MessageActions.addReaction db store userId messageId emoji_ now
  = (store, ApiResponse.forbidden "Not authorized")
  /\ MessageActions.add_reaction store userId messageId emoji_ now
     = (save store
             (set_reactions
                (filter (fun r => negb (user r =? userId)) (reactions message)
                 ++ [mkReaction userId emoji_ now]) message),
        MessageActions.message_reaction messageId userId emoji_).
Proof.
  intros Ef Ec Hv He. unfold MessageActions.addReaction, MessageActions.add_reaction.
  rewrite Ef, Ec, (addReaction_ok message userId emoji_ now Hv He). split; reflexivity.
Qed.

Lemma socket_reaction_skips_participant_check_witness :
  MessageActions.addReaction Samples.opened MessageSamples.store Samples.carol
    Samples.first_message "ok" 3000
  = (MessageSamples.store, ApiResponse.forbidden "Not authorized")
  /\ MessageActions.add_reaction MessageSamples.store Samples.carol
       Samples.first_message "ok" 3000
     = (save MessageSamples.store
             (set_reactions [mkReaction Samples.carol "ok" 3000] MessageSamples.first),
        MessageActions.message_reaction Samples.first_message Samples.carol "ok").
Proof.
  exact (socket_reaction_skips_participant_check Samples.opened MessageSamples.store
           Samples.carol Samples.first_message "ok" 3000 MessageSamples.first
           eq_refl eq_refl eq_refl eq_refl).
Defined.

End MessageDocFacts.

(** ** Revealing: what it changes for later calls *)

Module RevealFacts.

Import ApiResponse.

Lemma find_update_nth_found (f : Conversation.Participant -> bool)
      (g : Conversation.Participant -> Conversation.Participant)
      (l : list Conversation.Participant) :
  (forall p, f (g p) = f p) ->
  forall i, findIndex f l = Some i -> find f (update_nth i g l) = option_map g (find f l).
Proof.
  intros Hg. induction l as [|x r IH]; simpl; intros i H; [discriminate|].
  destruct (f x) eqn:E.
  - injection H as <-. simpl. rewrite Hg, E. reflexivity.
  - destruct (findIndex f r) as [j|]; simpl in H; [|discriminate].
    injection H as <-. simpl. rewrite E. apply IH. reflexivity.
Qed.

Lemma revealIdentity_reveals c u fields now c1 :
  Conversation.revealIdentity c u fields now = Ok c1 ->
  Conversation.isUserRevealed c1 u = true
  /\ Conversation._id c1 = Conversation._id c
  /\ Conversation.initiator c1 = Conversation.initiator c
  /\ map Conversation.user (Conversation.participants c1)
     = map Conversation.user (Conversation.participants c).
Proof.
  unfold Conversation.revealIdentity.
  destruct (findIndex _ (Conversation.participants c)) as [i|] eqn:Ei; [|discriminate].
  cbv zeta. intros H. injection H as <-.
  assert (Hfind : find (fun p => Conversation.user p =? u)
                       (update_nth i (Conversation.set_revealed now fields)
                                   (Conversation.participants c))
                  = option_map (Conversation.set_revealed now fields)
                               (find (fun p => Conversation.user p =? u)
                                     (Conversation.participants c))).
  { apply find_update_nth_found; [intros p; reflexivity | exact Ei]. }
  rewrite (ConversationFacts.findIndex_find _ _ _ Ei) in Hfind.
  destruct (ConversationFacts.findIndex_some _ _ _ Ei) as (x & Hx & _).
  rewrite Hx in Hfind. simpl in Hfind.
  assert (Hmap : map Conversation.user
                     (update_nth i (Conversation.set_revealed now fields)
                                 (Conversation.participants c))
                 = map Conversation.user (Conversation.participants c))
    by (apply ConversationFacts.map_user_update_nth; intros p; reflexivity).
  destruct (forallb _ _); unfold Conversation.isUserRevealed, Conversation.getParticipantData;
    simpl; rewrite Hfind; simpl; auto.
Qed.

Lemma updateLastMessage_revealed c content senderId_ type now u :
  Conversation.isUserRevealed (Conversation.updateLastMessage c content senderId_ type now) u
  = Conversation.isUserRevealed c u.
Proof.
  unfold Conversation.isUserRevealed, Conversation.getParticipantData.
  rewrite CounterFacts.participants_updateLastMessage, CounterFacts.find_map_keeps.
  - destruct (find _ (Conversation.participants c)) as [p|]; simpl; [|reflexivity].
    destruct (negb (Conversation.user p =? senderId_)); reflexivity.
  - intros p. destruct (negb (Conversation.user p =? senderId_)); reflexivity.
Qed.

Lemma identity_updateLastMessage c content senderId_ type now :
  identity (Conversation.updateLastMessage c content senderId_ type now) = identity c.
Proof.
  exact (ConversationFacts.identity_apply c now (ConversationOps.Send content senderId_ type)).
Qed.

Lemma existsb_map_user c1 c u :
  map Conversation.user (Conversation.participants c1)
  = map Conversation.user (Conversation.participants c) ->
  existsb (fun p => Conversation.user p =? u) (Conversation.participants c1)
  = existsb (fun p => Conversation.user p =? u) (Conversation.participants c).
Proof.
  intros H.
  assert (E : forall l, existsb (fun p => Conversation.user p =? u) l
                        = existsb (fun i => i =? u) (map Conversation.user l)).
  { induction l as [|x r IH]; simpl; [reflexivity | now rewrite IH]. }
  rewrite !E, H. reflexivity.
Qed.

Lemma saved_is_unique db c q :
  In q (conversations (save_conversation db c)) ->
  Conversation._id q = Conversation._id c -> q = c.
Proof.
  unfold save_conversation. rewrite conversations_set_conversations.
  intros Hin Hid. apply in_map_iff in Hin as (x & Ex & _).
  destruct (Conversation._id x =? Conversation._id c) eqn:E; [congruence|].
  apply Z.eqb_neq in E. congruence.
Qed.

Lemma find_after_save (g : Conversation.t -> bool) (cs : list Conversation.t)
      (cid : ObjectId) (c c' : Conversation.t) :
  find (fun q => (Conversation._id q =? cid) && g q) cs = Some c ->
  Conversation._id c' = cid -> g c' = true ->
  find (fun q => (Conversation._id q =? cid) && g q)
       (map (fun q => if Conversation._id q =? Conversation._id c' then c' else q) cs)
  = Some c'.
Proof.
  intros Hf Hid Hg. induction cs as [|x r IH]; simpl in *; [discriminate|].
  destruct (Conversation._id x =? Conversation._id c') eqn:E.
  - rewrite Hid, Z.eqb_refl, Hg. reflexivity.
  - rewrite Hid in E. rewrite E in *. simpl in *. auto.
Qed.

(** The 402 of the HTTP send path is only ever given to a caller whose row
    is not revealed. *)
Lemma paymentRequired_unrevealed db db' userId conversationId content type replyTo now
      payload :
  MessageController.sendMessage db userId conversationId content type replyTo now
  = (db', paymentRequired payload) ->
  exists conversation,
    MessageController.findActiveFor db conversationId userId = Some conversation
    /\ Conversation.isUserRevealed conversation userId = false.
Proof.
  unfold MessageController.sendMessage.
  destruct (MessageController.findActiveFor db conversationId userId) as [c|];
    [|discriminate].
  destruct (Conversation.getOtherParticipant c userId) as [other|]; [|discriminate].
  destruct (Block.hasBlockBetween _ _ _); [discriminate|].
  destruct (Conversation.initiator c) as [i|] eqn:Ei; [|discriminate].
  cbv zeta.
  destruct ((i =? userId)
            && negb match Conversation.getParticipantData c i with
                    | Some p => Conversation.isRevealed p
                    | None => false
                    end) eqn:Egate.
  - intros _. exists c. split; [reflexivity|].
    apply andb_true_iff in Egate as (E1 & E2). apply Z.eqb_eq in E1. subst i.
    apply negb_true_iff in E2. exact E2.
  - destruct (create_message _ _ _ _ _ _ _ _) as [[d m]|]; [|intros H; discriminate H].
    destruct (negb (Conversation.isMuted other)); [destruct (User.findById _ _)|];
      intros H; discriminate H.
Qed.

(** X24. Revealing ends the payment gate.  Once [revealIdentity] has
    answered success, the HTTP send path never answers 402 to that user in
    that conversation, whatever the counters hold, and a second
    [revealIdentity] is refused with 'Identity already revealed' and stores
    nothing. *)
Theorem reveal_ends_payment (db db' : DB) (userId conversationId : ObjectId)
        (fields : list string) (now : Date) (text_ : string) :
  MessageController.revealIdentity db userId conversationId fields now
  = (db', success text_) ->
  (forall content type replyTo now' db'' payload,
      MessageController.sendMessage db' userId conversationId content type replyTo now'
      <> (db'', paymentRequired payload))
  /\ (forall fields' now',
        MessageController.revealIdentity db' userId conversationId fields' now'
        = (db', badRequest "Identity already revealed")).
Proof.
  intros H. unfold MessageController.revealIdentity in H.
  destruct (MessageController.findFor db conversationId userId) as [c|] eqn:Ec;
    [|discriminate].
  destruct (Conversation.initiator c) as [i|] eqn:Ei; [|discriminate].
  destruct (negb (i =? userId)) eqn:Eiu; [discriminate|].
  apply negb_false_iff, Z.eqb_eq in Eiu. subst i.
  destruct (Conversation.isUserRevealed c userId) eqn:Er; [discriminate|].
  destruct (Conversation.revealIdentity c userId fields now) as [c1|] eqn:E1;
    [|discriminate].
  cbv zeta in H.
  destruct (Conversation.getOtherParticipant c1 userId) as [o|]; [|discriminate].
  destruct (create_message _ _ _ _ _ _ _ _) as [[db2 m]|] eqn:Em; [|discriminate].
  injection H as <- _.
  apply create_message_frame in Em. destruct Em as (Hcs & _).
  destruct (revealIdentity_reveals _ _ _ _ _ E1) as (Hrev & Hid1 & Hin1 & Hus1).
  pose proof (updateLastMessage_revealed c1 "Identity revealed" userId reveal now userId)
    as Hrev2.
  pose proof (identity_updateLastMessage c1 "Identity revealed" userId reveal now) as Hi.
  remember (Conversation.updateLastMessage c1 "Identity revealed" userId reveal now) as c2
    eqn:Ec2.
  clear Ec2. rewrite Hrev in Hrev2.
  assert (Hcid : Conversation._id c = conversationId).
  { unfold MessageController.findFor in Ec. apply find_some in Ec as (_ & Ec).
    apply andb_true_iff in Ec as (Ec & _). now apply Z.eqb_eq in Ec. }
  assert (Hid2 : Conversation._id c2 = conversationId).
  { unfold identity in Hi. injection Hi as Hi _ _ _. congruence. }
  assert (Hin2 : Conversation.initiator c2 = Some userId).
  { unfold identity in Hi. injection Hi as _ _ Hi _. congruence. }
  split.
  - intros content type replyTo now' db'' payload Hs.
    apply paymentRequired_unrevealed in Hs as (c' & Hc' & Hr').
    unfold MessageController.findActiveFor in Hc'. apply find_some in Hc' as (Hc' & Hp).
    apply andb_true_iff in Hp as (Hp & _). apply andb_true_iff in Hp as (Hp & _).
    apply Z.eqb_eq in Hp.
    assert (c' = c2) as -> by (apply (saved_is_unique db2 c2 c' Hc'); congruence).
    congruence.
  - intros fields' now'. unfold MessageController.revealIdentity.
    assert (Hf : MessageController.findFor (save_conversation db2 c2) conversationId userId
                 = Some c2).
    { unfold MessageController.findFor, save_conversation.
      rewrite conversations_set_conversations, Hcs.
      unfold save_conversation. rewrite conversations_set_conversations.
      apply (find_after_save (fun q => MessageController.is_participant q userId) _
                             conversationId c1 c2).
      - apply (find_after_save (fun q => MessageController.is_participant q userId) _
                               conversationId c c1).
        + exact Ec.
        + unfold MessageController.findFor in Ec. apply find_some in Ec as (_ & Ec).
          apply andb_true_iff in Ec as (Ec & _). apply Z.eqb_eq in Ec. congruence.
        + unfold MessageController.findFor in Ec. apply find_some in Ec as (_ & Ec).
          apply andb_true_iff in Ec as (_ & Ec).
          unfold MessageController.is_participant in *.
          rewrite (existsb_map_user c1 c userId Hus1). exact Ec.
      - exact Hid2.
      - unfold Conversation.isUserRevealed, Conversation.getParticipantData in Hrev2.
        unfold MessageController.is_participant.
        destruct (find _ (Conversation.participants c2)) as [p|] eqn:Ef; [|discriminate].
        apply find_some in Ef. apply existsb_exists. exists p. exact Ef. }
    rewrite Hf, Hin2, Z.eqb_refl. cbn [negb]. rewrite Hrev2. reflexivity.
Qed.

Lemma reveal_ends_payment_witness :
  MessageController.revealIdentity Samples.opened Samples.alice Samples.conversationId
    ["name"] 3000
  = (fst (MessageController.revealIdentity Samples.opened Samples.alice
            Samples.conversationId ["name"] 3000),
     success "Identity revealed successfully")
  /\ MessageController.revealIdentity
       (fst (MessageController.revealIdentity Samples.opened Samples.alice
               Samples.conversationId ["name"] 3000))
       Samples.alice Samples.conversationId ["name"; "photos"] 4000
     = (fst (MessageController.revealIdentity Samples.opened Samples.alice
               Samples.conversationId ["name"] 3000),
        badRequest "Identity already revealed").
Proof.
  assert (H : MessageController.revealIdentity Samples.opened Samples.alice
                Samples.conversationId ["name"] 3000
              = (fst (MessageController.revealIdentity Samples.opened Samples.alice
                        Samples.conversationId ["name"] 3000),
                 success "Identity revealed successfully"))
    by (vm_compute; reflexivity).
  split; [exact H|].
  exact (proj2 (reveal_ends_payment Samples.opened _ Samples.alice Samples.conversationId
                  ["name"] 3000 "Identity revealed successfully" H)
               ["name"; "photos"] 4000).
Defined.

End RevealFacts.

(** ** The pending list *)

Module ListingFacts.

Import MessageRequest.

Lemma id_in_app (l l' : list ObjectId) (i : ObjectId) :
  id_in (l ++ l') i = id_in l i || id_in l' i.
Proof. apply existsb_app. Qed.

Lemma dedupe_in (ids : list ObjectId) :
  forall seen i, id_in seen i = false -> (In i (BlockQueries.dedupe seen ids) <-> In i ids).
Proof.
  induction ids as [|x r IH]; intros seen i Hs; simpl; [tauto|].
  destruct (id_in seen x) eqn:Ex.
  - rewrite (IH seen i Hs). split; [tauto|]. intros [->|H]; [congruence | exact H].
  - simpl. destruct (Z.eq_dec x i) as [->|Hne]; [tauto|].
    rewrite (IH (seen ++ [x])%list i); [tauto|].
    rewrite id_in_app, Hs. simpl.
    destruct (i =? x) eqn:E; [apply Z.eqb_eq in E; congruence | reflexivity].
Qed.

Lemma id_in_iff ids i : id_in ids i = true <-> In i ids.
Proof.
  unfold id_in. rewrite existsb_exists. split.
  - intros (x & Hx & E). apply Z.eqb_eq in E. now subst.
  - intros H. exists i. split; [exact H | apply Z.eqb_refl].
Qed.

(** The ids the listing hides are those of the users with a block in either
    direction. *)
Lemma related_iff_block (bs : list Block.t) (userId other : ObjectId) :
  id_in (BlockQueries.getAllBlockRelatedUserIds bs userId) other
  = Block.hasBlockBetween bs userId other.
Proof.
  apply eq_true_iff_eq. rewrite id_in_iff.
  unfold BlockQueries.getAllBlockRelatedUserIds.
  rewrite (dedupe_in _ [] other eq_refl), in_app_iff.
  unfold BlockQueries.getBlockedUserIds, BlockQueries.getBlockersOfUser,
    Block.hasBlockBetween.
  rewrite existsb_exists, !in_map_iff. split.
  - intros [(b & <- & Hb)|(b & <- & Hb)]; apply filter_In in Hb as (Hb & E);
      exists b; (split; [exact Hb|]); rewrite E, Z.eqb_refl; simpl;
      [reflexivity | apply orb_true_r].
  - intros (b & Hb & E). apply orb_true_iff in E as [E|E];
      apply andb_true_iff in E as (E1 & E2).
    + left. exists b. apply Z.eqb_eq in E2. split; [exact E2|]. apply filter_In. auto.
    + right. exists b. apply Z.eqb_eq in E1. split; [exact E1|]. apply filter_In. auto.
Qed.

(** X25. The pending list shows only what can still be accepted.  Every
    request the query of [getPendingRequests] returns (request ids unique) is
    addressed to the caller, comes from a user with no block in either
    direction, and [acceptRequest] at the same instant finds it and does not
    refuse it as expired: the answer is success, or the 500 of a missing
    sender or a failed creation.  The expiry sweep plays no part: at any time
    not before the sweep's clock the query returns the same requests with and
    without it. *)
Theorem pending_list_is_acceptable (db : DB) (userId : ObjectId) (now : Date)
        (r : MessageRequest.t) :
  NoDup (map _id (requests db)) ->
  In r (RequestListing.pendingQuery db userId now) ->
  recipient r = userId
  /\ Block.hasBlockBetween (blocks db) userId (sender r) = false
  /\ RequestController.findPendingFor db (_id r) userId = Some r
  /\ (snd (RequestController.acceptRequest db userId (_id r) now)
      = ApiResponse.success "Request accepted"
      \/ snd (RequestController.acceptRequest db userId (_id r) now)
         = ApiResponse.error "Error accepting request")
  /\ forall swept, swept <= now ->
       RequestListing.pendingQuery (RequestController.expireOldRequests db swept) userId now
       = RequestListing.pendingQuery db userId now.
Proof.
  intros Hnd Hin. unfold RequestListing.pendingQuery in Hin.
  apply filter_In in Hin as (Hin & Hf).
  apply andb_true_iff in Hf as (Hf & Hb). apply andb_true_iff in Hf as (Hf & He).
  apply andb_true_iff in Hf as (Hr & Hs).
  apply Z.eqb_eq in Hr. apply Z.ltb_lt in He. apply negb_true_iff in Hb.
  rewrite related_iff_block in Hb.
  assert (Hfind : RequestController.findPendingFor db (_id r) userId = Some r).
  { rewrite (ExpirySpec.findPendingFor_unique db r userId Hnd Hin).
    - rewrite Hr, Z.eqb_refl. reflexivity.
    - destruct (status r); try discriminate; reflexivity. }
  split; [exact Hr|]. split; [exact Hb|]. split; [exact Hfind|]. split.
  - unfold RequestController.acceptRequest. rewrite Hfind.
    replace (expiresAt r <? now) with false by (symmetry; apply Z.ltb_ge; lia).
    destruct (User.findById _ _) as [u|]; [|now right]. cbv zeta.
    destruct (create_message _ _ _ _ _ _ _ _) as [[d m]|]; [now left | now right].
  - intros swept Hle. unfold RequestListing.pendingQuery, RequestController.expireOldRequests.
    cbn [blocks requests set_requests].
    unfold MessageRequest.expireOldRequests, updateMany.
    generalize (BlockQueries.getAllBlockRelatedUserIds (blocks db) userId). intros ids.
    clear - Hle. induction (requests db) as [|q l IH]; simpl; [reflexivity|]. rewrite IH.
    destruct (Status_eqb (status q) pending && (expiresAt q <? swept)) eqn:Em; [|reflexivity].
    apply andb_true_iff in Em as (_ & Hx). apply Z.ltb_lt in Hx.
    simpl. rewrite andb_false_r. simpl.
    replace (now <? expiresAt q) with false by (symmetry; apply Z.ltb_ge; lia).
    rewrite andb_false_r. reflexivity.
Qed.

Lemma pending_list_is_acceptable_witness :
  NoDup (map _id (requests Samples.asked))
  /\ exists r,
       In r (RequestListing.pendingQuery Samples.asked Samples.bob 2000)
       /\ recipient r = Samples.bob
       /\ RequestController.findPendingFor Samples.asked (_id r) Samples.bob = Some r.
Proof.
  assert (Hnd : NoDup (map _id (requests Samples.asked)))
    by (vm_compute; repeat constructor; intros []).
  split; [exact Hnd|].
  destruct (RequestListing.pendingQuery Samples.asked Samples.bob 2000) as [|r l] eqn:E;
    [vm_compute in E; discriminate E|].
  assert (Hin : In r (RequestListing.pendingQuery Samples.asked Samples.bob 2000))
    by (rewrite E; now left).
  destruct (pending_list_is_acceptable Samples.asked Samples.bob 2000 r Hnd Hin)
    as (Hr & _ & Hf & _).
  exists r. split; [now left|]. split; [exact Hr | exact Hf].
Defined.

End ListingFacts.

(** ** Conversations and accepted requests correspond *)

Module LinkFacts.

Import MessageRequest.

(** *** Stored request texts pass the message schema *)

Lemma trim_left_head s :
  trim_left s = EmptyString
  \/ exists c r, trim_left s = String c r /\ is_space c = false.
Proof.
  induction s as [|c r IH]; simpl; [now left|].
  destruct (is_space c) eqn:E; [exact IH|]. right. eauto.
Qed.

Lemma trim_right_head c r :
  is_space c = false -> exists r', trim_right (String c r) = String c r'.
Proof.
  intros E. simpl. destruct (trim_right r); [rewrite E|]; eauto.
Qed.

Lemma trim_right_cons c r :
  trim_right (String c r)
  = match trim_right r with
    | EmptyString => if is_space c then EmptyString else String c EmptyString
    | r' => String c r'
    end.
Proof. reflexivity. Qed.

Lemma trim_right_idem s : trim_right (trim_right s) = trim_right s.
Proof.
  induction s as [|c r IH]; simpl; [reflexivity|].
  destruct (trim_right r) as [|d t] eqn:E.
  - destruct (is_space c) eqn:Ec; simpl; [reflexivity|]. rewrite Ec. reflexivity.
  - rewrite trim_right_cons, IH. reflexivity.
Qed.

Lemma trim_idem s : trim (trim s) = trim s.
Proof.
  unfold trim.
  assert (H : trim_left (trim_right (trim_left s)) = trim_right (trim_left s)).
  { destruct (trim_left_head s) as [->|(c & r & -> & E)]; [reflexivity|].
    destruct (trim_right_head c r E) as (r' & ->). simpl. rewrite E. reflexivity. }
  rewrite H. apply trim_right_idem.
Qed.

Lemma validate_stored message m :
  MessageRequest.validate message = Ok m ->
  trim m = m /\ m <> EmptyString /\ str_length m <= 500.
Proof.
  unfold MessageRequest.validate.
  destruct (trim message) as [|c r] eqn:E; [discriminate|].
  destruct (500 <? str_length (String c r)) eqn:El; [discriminate|].
  intros H. injection H as <-. apply Z.ltb_ge in El.
  split; [rewrite <- E; apply trim_idem|]. split; [discriminate | exact El].
Qed.

Lemma stored_text_creates r :
  stored_text r -> Message.validate (initialMessage r) text = Ok (initialMessage r).
Proof.
  intros (Ht & Hne & Hl). unfold Message.validate. rewrite Ht.
  destruct (initialMessage r) as [|c s] eqn:E; [contradiction|].
  replace (2000 <? str_length (String c s)) with false; [reflexivity|].
  symmetry. apply Z.ltb_ge. lia.
Qed.

(** *** Handlers other than [acceptRequest] keep every conversation's identity *)

Lemma identity_read c u now : identity (Conversation.markAsRead c u now) = identity c.
Proof. exact (ConversationFacts.identity_apply c now (ConversationOps.Read u)). Qed.
Lemma identity_mute c u d now : identity (Conversation.muteForUser c u d now) = identity c.
Proof. exact (ConversationFacts.identity_apply c now (ConversationOps.Mute u d)). Qed.
Lemma identity_unmute c u : identity (MessageController.unmute c u) = identity c.
Proof. exact (ConversationFacts.identity_apply c 0 (ConversationOps.Unmute u)). Qed.
Lemma identity_archive c u now : identity (Conversation.archiveForUser c u now) = identity c.
Proof. exact (ConversationFacts.identity_apply c now (ConversationOps.Archive u)). Qed.
Lemma identity_unarchive c u : identity (MessageController.unarchive c u) = identity c.
Proof. exact (ConversationFacts.identity_apply c 0 (ConversationOps.Unarchive u)). Qed.
Lemma identity_payment c p o a now :
  identity (Conversation.recordMessagePayment c p o a now) = identity c.
Proof. exact (ConversationFacts.identity_apply c now (ConversationOps.Payment p o a)). Qed.
Lemma identity_ask c u now : identity (Conversation.set_revealRequest u now c) = identity c.
Proof. exact (ConversationFacts.identity_apply c now (ConversationOps.AskReveal u)). Qed.
Lemma identity_reveal c u fields now c1 :
  Conversation.revealIdentity c u fields now = Ok c1 -> identity c1 = identity c.
Proof.
  intros H. rewrite (revealIdentity_apply _ _ _ _ _ H).
  apply ConversationFacts.identity_apply.
Qed.

Lemma unique_conversation (cs : list Conversation.t) (q r : Conversation.t) :
  NoDup (map Conversation._id cs) -> In q cs -> In r cs ->
  Conversation._id q = Conversation._id r -> q = r.
Proof.
  induction cs as [|x l IH]; simpl; intros Hnd Hq Hr E; [contradiction|].
  inversion Hnd as [|? ? Hx Hl]; subst.
  destruct Hq as [->|Hq], Hr as [->|Hr]; auto.
  - exfalso. apply Hx. rewrite E. now apply in_map.
  - exfalso. apply Hx. rewrite <- E. now apply in_map.
Qed.

Lemma identity_id c c' : identity c' = identity c -> Conversation._id c' = Conversation._id c.
Proof. unfold identity. intros H. injection H as H _ _ _. exact H. Qed.

(** Saving a changed version of a stored conversation. *)
Lemma save_found db d c c' (f : Conversation.t -> bool) :
  NoDup (conversation_ids db) ->
  conversations d = conversations db ->
  find f (conversations db) = Some c ->
  identity c' = identity c ->
  identities (save_conversation d c') = identities db.
Proof.
  intros Hnd Hd Hf Hi. apply find_some in Hf as (Hin & _).
  unfold identities, save_conversation. rewrite conversations_set_conversations, Hd, map_map.
  apply map_ext_in. intros q Hq.
  destruct (Conversation._id q =? Conversation._id c') eqn:E; [|reflexivity].
  apply Z.eqb_eq in E. rewrite (identity_id _ _ Hi) in E.
  rewrite (unique_conversation _ q c Hnd Hq Hin E). exact Hi.
Qed.

(** Saving once more the conversation that was just saved. *)
Lemma save_again d1 d c1 c2 :
  conversations d = conversations (save_conversation d1 c1) ->
  identity c2 = identity c1 ->
  identities (save_conversation d c2) = identities (save_conversation d1 c1).
Proof.
  intros Hd Hi.
  unfold identities. unfold save_conversation at 1.
  rewrite conversations_set_conversations, Hd, map_map.
  apply map_ext_in. intros q Hq.
  destruct (Conversation._id q =? Conversation._id c2) eqn:E; [|reflexivity].
  apply Z.eqb_eq in E. rewrite (identity_id _ _ Hi) in E.
  rewrite (RevealFacts.saved_is_unique d1 c1 q Hq E). exact Hi.
Qed.

Ltac created :=
  repeat match goal with
    | E : create_message _ _ _ _ _ _ _ _ = Ok (_, _) |- _ =>
        apply create_message_frame in E;
        destruct E as (? & ? & _ & _ & _ & _)
    end.

Ltac same_identity :=
  repeat first
    [ reflexivity
    | rewrite RevealFacts.identity_updateLastMessage
    | rewrite identity_read | rewrite identity_mute | rewrite identity_unmute
    | rewrite identity_archive | rewrite identity_unarchive | rewrite identity_payment
    | rewrite identity_ask
    | match goal with
      | E : Conversation.revealIdentity _ _ _ _ = Ok ?c1 |- context [identity ?c1] =>
          rewrite (identity_reveal _ _ _ _ _ E)
      end ].

Ltac frame_eq :=
  first [ eassumption | reflexivity
        | autorewrite with frame; first [eassumption | reflexivity] ].

Ltac kept Hnd :=
  created;
  unfold MessageController.findActiveFor, MessageController.findFor,
    MessageController.findById in *;
  autorewrite with frame in *;
  first
    [ reflexivity
    | unfold identities, save_request; autorewrite with frame; reflexivity
    | eapply save_found; [exact Hnd | frame_eq | eassumption | same_identity]
    | etransitivity;
      [ eapply save_again; [frame_eq | same_identity]
      | eapply save_found; [exact Hnd | frame_eq | eassumption | same_identity] ] ].

Lemma step_identities env db now a :
  conv_inv db -> (forall u i, a <> AcceptRequest u i) ->
  identities (step env db now a) = identities db.
Proof.
  intros (Hnd & _) Ha. destruct a; cbn [step].
  - unfold RequestController.sendRequest, RequestController.sendRequest_checked.
    run_handler; kept Hnd.
  - exfalso. exact (Ha _ _ eq_refl).
  - unfold RequestController.rejectRequest. run_handler; kept Hnd.
  - unfold RequestController.cancelRequest. run_handler; kept Hnd.
  - unfold RequestController.markAsRead. run_handler; kept Hnd.
  - unfold RequestController.expireOldRequests. kept Hnd.
  - unfold MessageController.sendMessage. run_handler; kept Hnd.
  - unfold Socket.send_message. run_handler; kept Hnd.
  - unfold Socket.mark_read. run_handler; kept Hnd.
  - unfold Socket.mark_delivered. run_handler; kept Hnd.
  - unfold MessageController.getMessages. run_handler; kept Hnd.
  - unfold MessageController.muteConversation. run_handler; kept Hnd.
  - unfold MessageController.unmuteConversation. run_handler; kept Hnd.
  - unfold MessageController.archiveConversation. run_handler; kept Hnd.
  - unfold MessageController.unarchiveConversation. run_handler; kept Hnd.
  - unfold MessageController.requestReveal. run_handler; kept Hnd.
  - unfold MessageController.revealIdentity. run_handler; kept Hnd.
  - unfold PurchaseController.verifyMessagePayment. run_handler; kept Hnd.
Qed.

(** *** Handlers other than [acceptRequest] keep the accepted requests *)

Lemma same_accepted_refl rs : same_accepted rs rs.
Proof.
  split; intros r Hr _; exists r; (split; [exact Hr | apply LifecycleFacts.same_outcome_refl]).
Qed.

Lemma same_accepted_append rs r :
  status r <> accepted -> same_accepted rs (rs ++ [r]).
Proof.
  intros Hs. split.
  - intros q Hq _. exists q. split; [apply in_or_app; now left|].
    apply LifecycleFacts.same_outcome_refl.
  - intros q Hq Ha. apply in_app_or in Hq as [Hq|[<-|[]]]; [|contradiction].
    exists q. split; [exact Hq | apply LifecycleFacts.same_outcome_refl].
Qed.

Lemma same_accepted_replace rs r0 r1 :
  NoDup (map _id rs) -> In r0 rs ->
  _id r1 = _id r0 -> sender r1 = sender r0 -> recipient r1 = recipient r0 ->
  (status r1 = status r0 /\ conversation r1 = conversation r0)
  \/ (status r0 = pending /\ status r1 <> accepted) ->
  same_accepted rs (map (fun q => if _id q =? _id r1 then r1 else q) rs).
Proof.
  intros Hnd H0 Hid Hs Hr Hst. split.
  - intros r Hin Ha.
    destruct (_id r =? _id r1) eqn:E.
    + apply Z.eqb_eq in E. rewrite Hid in E.
      assert (r = r0) as -> by (eapply RequestSpec.unique_by_id; eauto).
      exists r1. split; [apply in_map_iff; exists r0; rewrite Hid, Z.eqb_refl; auto|].
      destruct Hst as [(A & B)|(A & _)]; [|congruence].
      repeat split; assumption.
    + exists r. split; [|apply LifecycleFacts.same_outcome_refl].
      apply in_map_iff. exists r. rewrite E. auto.
  - intros r' Hin Ha. apply in_map_iff in Hin as (q & Eq & Hq).
    destruct (_id q =? _id r1) eqn:E.
    + subst r'. apply Z.eqb_eq in E. rewrite Hid in E.
      assert (q = r0) as -> by (eapply RequestSpec.unique_by_id; eauto).
      exists r0. split; [exact H0|].
      destruct Hst as [(A & B)|(_ & B)]; [|contradiction].
      repeat split; assumption.
    + subst r'. exists q. split; [exact Hq | apply LifecycleFacts.same_outcome_refl].
Qed.

Lemma same_accepted_sweep rs now : same_accepted rs (expireOldRequests rs now).
Proof.
  unfold expireOldRequests, updateMany. split.
  - intros r Hr Ha. exists r. split; [|apply LifecycleFacts.same_outcome_refl].
    apply in_map_iff. exists r. rewrite Ha. auto.
  - intros r' Hin Ha. apply in_map_iff in Hin as (q & Eq & Hq).
    destruct (Status_eqb (status q) pending && (expiresAt q <? now)).
    + subst r'. discriminate Ha.
    + subst r'. exists q. split; [exact Hq | apply LifecycleFacts.same_outcome_refl].
Qed.

Lemma stored_replace rs r0 r1 :
  In r0 rs -> initialMessage r1 = initialMessage r0 ->
  Forall stored_text rs ->
  Forall stored_text (map (fun q => if _id q =? _id r1 then r1 else q) rs).
Proof.
  intros H0 Hm Hall. rewrite Forall_forall in *. intros r' Hin.
  apply in_map_iff in Hin as (q & <- & Hq).
  destruct (_id q =? _id r1); [|auto].
  unfold stored_text. rewrite Hm. exact (Hall r0 H0).
Qed.

Lemma stored_sweep rs now :
  Forall stored_text rs -> Forall stored_text (expireOldRequests rs now).
Proof.
  unfold expireOldRequests, updateMany. intros Hall. rewrite Forall_forall in *.
  intros r' Hin. apply in_map_iff in Hin as (q & <- & Hq).
  destruct (Status_eqb (status q) pending && (expiresAt q <? now)); [|auto].
  exact (Hall q Hq).
Qed.

(** What [pre('save')] leaves alone. *)
Lemma preSave_keeps r now :
  _id (preSave r now) = _id r /\ sender (preSave r now) = sender r
  /\ recipient (preSave r now) = recipient r
  /\ initialMessage (preSave r now) = initialMessage r
  /\ conversation (preSave r now) = conversation r
  /\ (status (preSave r now) = status r
      \/ (status r = pending /\ status (preSave r now) = expired)).
Proof.
  unfold preSave.
  destruct (Status_eqb (status r) pending && (expiresAt r <? now)) eqn:E; [|auto 10].
  apply andb_true_iff in E as (E & _).
  repeat split; try reflexivity. right. split; [|reflexivity].
  destruct (status r); try discriminate; reflexivity.
Qed.

Lemma kept_refl rs :
  same_accepted rs rs /\ (Forall stored_text rs -> Forall stored_text rs).
Proof. split; [apply same_accepted_refl | auto]. Qed.

Lemma kept_replace rs r0 r1 :
  NoDup (map _id rs) -> In r0 rs ->
  _id r1 = _id r0 -> sender r1 = sender r0 -> recipient r1 = recipient r0 ->
  initialMessage r1 = initialMessage r0 ->
  (status r1 = status r0 /\ conversation r1 = conversation r0)
  \/ (status r0 = pending /\ status r1 <> accepted) ->
  same_accepted rs (map (fun q => if _id q =? _id r1 then r1 else q) rs)
  /\ (Forall stored_text rs ->
      Forall stored_text (map (fun q => if _id q =? _id r1 then r1 else q) rs)).
Proof.
  intros. split; [now apply same_accepted_replace with (r0 := r0)|].
  now apply stored_replace with (r0 := r0).
Qed.

(** A found request after one field assignment and [pre('save')]. *)
Lemma kept_transition rs r0 x now :
  NoDup (map _id rs) -> In r0 rs ->
  _id x = _id r0 -> sender x = sender r0 -> recipient x = recipient r0 ->
  initialMessage x = initialMessage r0 ->
  (status x = status r0 /\ conversation x = conversation r0)
  \/ (status r0 = pending /\ status x <> accepted /\ status x <> pending) ->
  same_accepted rs (map (fun q => if _id q =? _id (preSave x now) then preSave x now else q) rs)
  /\ (Forall stored_text rs ->
      Forall stored_text
        (map (fun q => if _id q =? _id (preSave x now) then preSave x now else q) rs)).
Proof.
  intros Hnd H0 Hid Hs Hr Hm Hst.
  destruct (preSave_keeps x now) as (A & B & C & D & E & F).
  apply kept_replace with (r0 := r0); try congruence.
  destruct Hst as [(S1 & S2)|(S1 & S2 & S3)].
  - destruct F as [F|(F1 & F2)]; [left; split; congruence|].
    right. split; [congruence|]. rewrite F2. discriminate.
  - right. split; [exact S1|]. destruct F as [F|(F1 & F2)]; congruence.
Qed.

Lemma step_requests env db now a :
  db_inv db -> (forall u i, a <> AcceptRequest u i) ->
  kept_requests db (step env db now a).
Proof.
  intros (Hnd & Hb & _) Ha. unfold kept_requests. destruct a; cbn [step].
  - unfold RequestController.sendRequest, RequestController.sendRequest_checked.
    run_handler; RequestReachable.frames; try apply kept_refl.
    all: split; [apply same_accepted_append; discriminate|].
    all: intros Hall; apply Forall_app; split; [exact Hall|].
    all: constructor; [|constructor].
    all: match goal with
         | E : MessageRequest.validate _ = Ok _ |- _ => exact (validate_stored _ _ E)
         end.
  - exfalso. exact (Ha _ _ eq_refl).
  - unfold RequestController.rejectRequest.
    run_handler; RequestReachable.frames; try apply kept_refl.
    match goal with
    | E : RequestController.findPendingFor _ _ _ = Some _ |- _ =>
        apply RequestReachable.findPendingFor_in in E as (H0 & Hid & Hr & Hp)
    end.
    unfold reject. match goal with H : In ?q (requests db) |- _ => apply kept_transition with (r0 := q) end; auto.
    right. split; [exact Hp|]. split; discriminate.
  - unfold RequestController.cancelRequest, cancel.
    run_handler; RequestReachable.frames; try apply kept_refl.
    match goal with
    | E : find _ _ = Some ?q, E' : _ = Ok _ |- _ =>
        apply find_some in E as (H0 & E);
        apply andb_true_iff in E as (_ & E);
        rewrite E in E'; simpl in E'; injection E' as <-;
        assert (Hp : status q = pending) by (destruct (status q); try discriminate; reflexivity)
    end.
    match goal with H : In ?q (requests db) |- _ => apply kept_transition with (r0 := q) end; auto.
    right. split; [exact Hp|]. split; discriminate.
  - unfold RequestController.markAsRead, markAsRead.
    run_handler; RequestReachable.frames; try apply kept_refl;
      match goal with
      | E : find _ _ = Some _ |- _ => apply find_some in E as (H0 & _)
      end.
    + match goal with H : In ?q (requests db) |- _ => apply kept_transition with (r0 := q) end; auto.
    + match goal with H : In ?q (requests db) |- _ => apply kept_replace with (r0 := q) end; auto.
  - unfold RequestController.expireOldRequests. autorewrite with frame.
    split; [apply same_accepted_sweep | apply stored_sweep].
  - unfold MessageController.sendMessage.
    run_handler; RequestReachable.frames; apply kept_refl.
  - unfold Socket.send_message. run_handler; RequestReachable.frames; apply kept_refl.
  - unfold Socket.mark_read. run_handler; RequestReachable.frames; apply kept_refl.
  - unfold Socket.mark_delivered. run_handler; RequestReachable.frames; apply kept_refl.
  - unfold MessageController.getMessages.
    run_handler; RequestReachable.frames; apply kept_refl.
  - unfold MessageController.muteConversation.
    run_handler; RequestReachable.frames; apply kept_refl.
  - unfold MessageController.unmuteConversation.
    run_handler; RequestReachable.frames; apply kept_refl.
  - unfold MessageController.archiveConversation.
    run_handler; RequestReachable.frames; apply kept_refl.
  - unfold MessageController.unarchiveConversation.
    run_handler; RequestReachable.frames; apply kept_refl.
  - unfold MessageController.requestReveal.
    run_handler; RequestReachable.frames; apply kept_refl.
  - unfold MessageController.revealIdentity.
    run_handler; RequestReachable.frames; apply kept_refl.
  - unfold PurchaseController.verifyMessagePayment.
    run_handler; RequestReachable.frames; apply kept_refl.
Qed.

(** *** The correspondence is an invariant *)

Lemma opened_by_same r r' c c' :
  same_outcome r r' -> identity c' = identity c -> opened_by r c -> opened_by r' c'.
Proof.
  intros (A & B & C & D & E) Hi (H1 & H2 & H3).
  pose proof (identity_id _ _ Hi) as Hid.
  unfold opened_by. rewrite A, B, C, D, E, Hi, Hid. auto.
Qed.

Lemma in_identities db c :
  In c (conversations db) -> In (identity c) (identities db).
Proof. intros H. unfold identities. now apply in_map. Qed.

Lemma identities_in db i :
  In i (identities db) -> exists c, In c (conversations db) /\ identity c = i.
Proof.
  unfold identities. intros H. apply in_map_iff in H as (c & E & Hc). eauto.
Qed.

Lemma linked_kept db db' :
  identities db' = identities db ->
  same_accepted (requests db) (requests db') ->
  linked db -> linked db'.
Proof.
  intros Hi (Hfwd & Hbwd) (L1 & L2). split.
  - intros c' Hc'. apply in_identities in Hc'. rewrite Hi in Hc'.
    apply identities_in in Hc' as (c & Hc & E).
    destruct (L1 c Hc) as (r & Hr & Ho).
    destruct (Hfwd r Hr (proj1 Ho)) as (r' & Hr' & Hs).
    exists r'. split; [exact Hr'|]. exact (opened_by_same r r' c c' Hs (eq_sym E) Ho).
  - intros r' Hr' Ha. destruct (Hbwd r' Hr' Ha) as (r & Hr & Hs).
    assert (Har : status r = accepted) by (destruct Hs as (_ & _ & _ & S & _); congruence).
    destruct (L2 r Hr Har) as (c & Hc & Ho).
    apply in_identities in Hc. rewrite <- Hi in Hc.
    apply identities_in in Hc as (c' & Hc' & E).
    exists c'. split; [exact Hc'|]. exact (opened_by_same r r' c c' Hs E Ho).
Qed.

Lemma findById_id us id u : User.findById us id = Some u -> User._id u = id.
Proof.
  unfold User.findById. intros H. apply find_some in H as (_ & H). now apply Z.eqb_eq in H.
Qed.

Lemma acceptRequest_well_formed db u i now :
  well_formed db -> well_formed (fst (RequestController.acceptRequest db u i now)).
Proof.
  intros (Hdb & Hcv & Hl & Hst).
  split; [exact (RequestReachable.step_inv Samples.env db now (AcceptRequest u i) Hdb)|].
  split; [exact (ConversationIds.step_conv_inv Samples.env db now (AcceptRequest u i) Hcv)|].
  destruct Hdb as (Hnd & Hb & _). destruct Hcv as (Hcnd & Hcb).
  unfold RequestController.acceptRequest.
  destruct (RequestController.findPendingFor db i u) as [request|] eqn:Ef;
    [|split; assumption].
  apply RequestReachable.findPendingFor_in in Ef as (Hin & Hid & Hr & Hp).
  assert (Htext : stored_text request) by (rewrite Forall_forall in Hst; auto).
  destruct (expiresAt request <? now) eqn:Ee.
  - (* saved as expired *)
    cbn [fst].
    assert (K : same_accepted (requests db)
                  (requests (save_request db
                               (preSave (set_status expired request) now)))
                /\ (Forall stored_text (requests db) ->
                    Forall stored_text
                      (requests (save_request db
                                   (preSave (set_status expired request) now))))).
    { unfold save_request. autorewrite with frame.
      apply kept_transition with (r0 := request); auto.
      right. split; [exact Hp|]. split; discriminate. }
    split; [|apply K, Hst].
    apply (linked_kept db); [|apply K|exact Hl].
    unfold identities, save_request. autorewrite with frame. reflexivity.
  - destruct (User.findById (users db) (sender request)) as [s|] eqn:Es;
      [|split; assumption].
    apply findById_id in Es. cbv zeta.
    unfold create_message. autorewrite with frame. rewrite Es.
    rewrite (stored_text_creates request Htext). cbn [fst].
    set (conv0 := RequestController.newConversation (nextId db) request
                           (sender request) u).
    set (conv1 := Conversation.updateLastMessage conv0
                            (initialMessage request) (sender request) text now).
    set (r1 := accept request (Conversation._id conv0) now).
    assert (Er1 : r1 = set_accepted now (nextId db) request) by reflexivity.
    assert (Hi' : identity conv1
                  = (nextId db, [sender request; u], Some (sender request), _id request)).
    { unfold conv1. rewrite RevealFacts.identity_updateLastMessage. reflexivity. }
    assert (Hcs : conversations
                    (save_request
                       (save_conversation
                          (bump_id
                             (set_messages
                                (messages
                                   (bump_id
                                      (set_conversations
                                         (conversations db ++ [conv0]) db))
                                 ++ [Message.mk (nextId db + 1)
                                       (Conversation._id conv0) (sender request) u
                                       (initialMessage request) text false None
                                       Message.sent None None now])
                                (bump_id
                                   (set_conversations
                                      (conversations db ++ [conv0]) db))))
                          conv1) r1)
                  = (conversations db ++ [conv1])%list).
    { unfold save_request, save_conversation. autorewrite with frame.
      apply (AcceptFacts.replace_fresh (conversations db) conv0 conv1).
      - unfold conversation_ids in Hcb. rewrite Forall_map in Hcb. exact Hcb.
      - apply identity_id. unfold conv1.
        apply RevealFacts.identity_updateLastMessage. }
    assert (Hrs : requests
                    (save_request
                       (save_conversation
                          (bump_id
                             (set_messages
                                (messages
                                   (bump_id
                                      (set_conversations
                                         (conversations db ++ [conv0]) db))
                                 ++ [Message.mk (nextId db + 1)
                                       (Conversation._id conv0) (sender request) u
                                       (initialMessage request) text false None
                                       Message.sent None None now])
                                (bump_id
                                   (set_conversations
                                      (conversations db ++ [conv0]) db))))
                          conv1) r1)
                  = map (fun q => if _id q =? _id r1 then r1 else q) (requests db)).
    { unfold save_request, save_conversation. autorewrite with frame. reflexivity. }
    assert (Ho : opened_by r1 conv1).
    { assert (Hcid : Conversation._id conv1 = nextId db).
      { unfold identity in Hi'. injection Hi' as E _ _ _. exact E. }
      unfold opened_by. rewrite Hi', Hcid, Er1.
      change (status (set_accepted now (nextId db) request)) with accepted.
      change (MessageRequest.conversation (set_accepted now (nextId db) request))
        with (Some (nextId db)).
      change (sender (set_accepted now (nextId db) request)) with (sender request).
      change (recipient (set_accepted now (nextId db) request)) with (recipient request).
      change (_id (set_accepted now (nextId db) request)) with (_id request).
      rewrite Hr. auto. }
    assert (Hkeep : forall r, In r (requests db) -> status r = accepted ->
                              In r (map (fun q => if _id q =? _id r1 then r1 else q)
                                        (requests db))).
    { intros r Hrin Ha. apply in_map_iff. exists r. split; [|exact Hrin].
      destruct (_id r =? _id r1) eqn:E; [|reflexivity].
      apply Z.eqb_eq in E. rewrite Er1 in E. cbn in E.
      assert (r = request) as -> by (eapply RequestSpec.unique_by_id; eauto).
      congruence. }
    destruct Hl as (L1 & L2).
    split; [split|].
    + intros c Hc. rewrite Hcs in Hc. rewrite Hrs.
      apply in_app_or in Hc as [Hc|[<-|[]]].
      * destruct (L1 c Hc) as (r & Hrin & Hor). exists r.
        split; [apply Hkeep; [exact Hrin | apply Hor] | exact Hor].
      * exists r1. split; [|exact Ho].
        apply in_map_iff. exists request. rewrite Er1. cbn. rewrite Z.eqb_refl. auto.
    + intros r' Hr' Ha. rewrite Hrs in Hr'. rewrite Hcs.
      apply in_map_iff in Hr' as (q & Eq & Hq).
      destruct (_id q =? _id r1) eqn:E.
      * subst r'. exists conv1. split; [apply in_or_app; right; now left | exact Ho].
      * subst r'. destruct (L2 q Hq Ha) as (c & Hc & Hoc).
        exists c. split; [apply in_or_app; now left | exact Hoc].
    + rewrite Hrs. apply stored_replace with (r0 := request); [exact Hin| |exact Hst].
      rewrite Er1. reflexivity.
Qed.

Lemma step_well_formed env db now a : well_formed db -> well_formed (step env db now a).
Proof.
  intros H.
  assert (Hacc : (exists u i, a = AcceptRequest u i) \/ (forall u i, a <> AcceptRequest u i)).
  { destruct a; try (right; intros ? ? E; discriminate E). left. eauto. }
  destruct Hacc as [(u & i & ->)|Hn].
  - cbn [step]. apply acceptRequest_well_formed, H.
  - destruct H as (Hdb & Hcv & Hl & Hst).
    destruct (step_requests env db now a Hdb Hn) as (Hsame & Htext).
    split; [now apply RequestReachable.step_inv|].
    split; [now apply ConversationIds.step_conv_inv|].
    split; [|now apply Htext].
    apply (linked_kept db); [now apply step_identities | exact Hsame | exact Hl].
Qed.

Lemma run_well_formed env trace :
  forall db, well_formed db -> well_formed (run env db trace).
Proof.
  induction trace as [|[now a] rest IH]; intros db H; simpl; [assumption|].
  apply IH, step_well_formed, H.
Qed.

Lemma fresh_well_formed db : fresh db -> well_formed db.
Proof.
  intros H. split; [now apply RequestReachable.fresh_inv|].
  split; [now apply ConversationIds.fresh_conv_inv|].
  destruct H as (Hr & Hc & _). unfold linked. rewrite Hr, Hc.
  split; [split; intros ? []|constructor].
Qed.

Lemma at_most_one (rs : list MessageRequest.t) (x y : MessageRequest.t) :
  (List.length rs <= 1)%nat -> In x rs -> In y rs -> x = y.
Proof.
  destruct rs as [|a [|b l]]; simpl; intros Hlen Hx Hy; try contradiction.
  - destruct Hx as [<-|[]], Hy as [<-|[]]. reflexivity.
  - lia.
Qed.

Lemma opened_between a b r c :
  opened_by r c -> is_between a b c -> between a b r && is_active r = true.
Proof.
  intros (Hs & _ & Hi) Hb. unfold identity in Hi. injection Hi as Hp _ _.
  unfold is_active. rewrite Hs. simpl. rewrite andb_true_r.
  unfold between. destruct Hb as [Hb|Hb]; rewrite Hp in Hb; injection Hb as -> ->;
    rewrite !Z.eqb_refl; simpl; [reflexivity | apply orb_true_r].
Qed.

(** In a well-formed database two users share at most one conversation. *)
Lemma one_conversation_per_pair db a b c1 c2 :
  well_formed db ->
  In c1 (conversations db) -> In c2 (conversations db) ->
  is_between a b c1 -> is_between a b c2 -> c1 = c2.
Proof.
  intros ((Hnd & _ & Hone) & (Hcnd & _) & (L1 & L2) & _) H1 H2 B1 B2.
  destruct (L1 c1 H1) as (r1 & Hr1 & O1). destruct (L1 c2 H2) as (r2 & Hr2 & O2).
  assert (r1 = r2).
  { apply (at_most_one (active_between (requests db) a b));
      [apply Hone | |]; unfold active_between; apply filter_In; split; auto;
        eapply opened_between; eauto. }
  subst r2. destruct O1 as (_ & C1 & _). destruct O2 as (_ & C2 & _).
  apply (unique_conversation (conversations db)); auto.
  congruence.
Qed.




End LinkFacts.

(** ** Buying a pack, and the three views of the message payment gate *)

Module PurchaseFacts.

Import ApiResponse Purchases.

Lemma find_app_last {A : Type} (f : A -> bool) (l : list A) (x : A) :
  find f l = None -> find f (l ++ [x]) = if f x then Some x else None.
Proof.
  induction l as [|y r IH]; simpl; intros H; [reflexivity|].
  destruct (f y); [discriminate | auto].
Qed.

Lemma total_app_last ps p userId t :
  PurchasedPack.getTotalRemainingRequests (ps ++ [p]) userId t
  = PurchasedPack.getTotalRemainingRequests ps userId t
    + (if PurchasedPack.usable userId t p then PurchasedPack.requestsRemaining p else 0).
Proof.
  unfold PurchasedPack.getTotalRemainingRequests. rewrite filter_app. simpl.
  induction (filter (PurchasedPack.usable userId t) ps) as [|q l IH]; simpl.
  - destruct (PurchasedPack.usable userId t p); simpl; lia.
  - rewrite IH. lia.
Qed.

(** X27. A payment buys a pack, and is recognised again only while that pack
    is active.  When [purchasePack] answers 'Pack purchased successfully!',
    exactly one pack was added for the caller: active, holding the catalogue
    entry's [requestCount] unused requests, stamped with the order and
    payment ids and expiring 30 days later; the caller's balance is higher by
    that count for those 30 days.  With the configuration unchanged,
    presenting the same payment again answers 'Pack already purchased with
    this payment' and stores nothing in every database that holds an active
    pack of the caller with that payment id, as the one returned does.  Once
    no such pack is active any more (the pack was used up, or the sweep
    marked it expired) the same payment, presented with a valid payment
    method, is credited again: one more pack is added. *)
Theorem purchasePack_replay (env : Env) (catalogue : list RequestPack) (db db1 : DB)
        (userId : ObjectId) (packId_ orderId paymentId signature paymentMethod : string)
        (now : Date) :
  purchasePack env catalogue db userId packId_ orderId paymentId signature paymentMethod now
  = (db1, success "Pack purchased successfully!") ->
  exists pack,
    find (fun p => String.eqb (packId p) packId_ && isActive p) catalogue = Some pack
    /\ packs db1
       = (packs db
          ++ [PurchasedPack.mk (nextId db) userId (packId pack) (requestCount pack) 0
                               (requestCount pack) (priceInPaisa pack) orderId paymentId
                               PurchasedPack.active (now + 2592000000) now])%list
    /\ (forall t, t < now + 2592000000 ->
          PurchasedPack.getTotalRemainingRequests (packs db1) userId t
          = PurchasedPack.getTotalRemainingRequests (packs db) userId t + requestCount pack)
    /\ (forall later method' now' p,
          config later = config db ->
          In p (packs later) ->
          PurchasedPack.user p = userId ->
          PurchasedPack.paymentId p = paymentId ->
          PurchasedPack.status p = PurchasedPack.active ->
          purchasePack env catalogue later userId packId_ orderId paymentId signature method'
                       now'
          = (later, success "Pack already purchased with this payment"))
    /\ (forall later method' now',
          config later = config db ->
          valid_paymentMethod method' = true ->
          (forall p, In p (packs later) ->
                     PurchasedPack.user p = userId ->
                     PurchasedPack.paymentId p = paymentId ->
                     PurchasedPack.status p <> PurchasedPack.active) ->
          purchasePack env catalogue later userId packId_ orderId paymentId signature method'
                       now'
          = (bump_id
               (set_packs
                  (packs later
                   ++ [PurchasedPack.mk (nextId later) userId (packId pack)
                                        (requestCount pack) 0 (requestCount pack)
                                        (priceInPaisa pack) orderId paymentId
                                        PurchasedPack.active (now' + 2592000000) now'])%list
                  later),
             success "Pack purchased successfully!")).
Proof.
  unfold purchasePack.
  destruct (String.eqb orderId "" || String.eqb paymentId "" || String.eqb signature "")
    eqn:E1; [intros H; discriminate H|].
  destruct (negb (AppConfig.packsEnabled (AppConfig.microPayments (config db)))) eqn:E2;
    [intros H; discriminate H|].
  destruct (find _ catalogue) as [pack|] eqn:E3; [|intros H; discriminate H].
  destruct (negb (PaymentProvider.verifyPayment _ _ _ _)) eqn:E4; [intros H; discriminate H|].
  destruct (PaymentProvider.getPaymentDetails _ _) as [details|] eqn:E5;
    [|intros H; discriminate H].
  destruct (negb (String.eqb (PaymentProvider.status details) "captured")
            && negb (String.eqb (PaymentProvider.status details) "authorized")) eqn:E6;
    [intros H; discriminate H|].
  destruct (negb (PaymentProvider.amount details =? priceInPaisa pack)) eqn:E7;
    [intros H; discriminate H|].
  destruct (find _ (packs db)) as [existing|] eqn:E8; [intros H; discriminate H|].
  destruct (negb (valid_paymentMethod paymentMethod)) eqn:E9; [intros H; discriminate H|].
  cbv zeta. intros H. injection H as <-.
  change (30 * 24 * 60 * 60 * 1000) with 2592000000.
  exists pack. split; [reflexivity|]. split; [reflexivity|]. split; [|split].
  - intros t Ht. cbn [packs bump_id set_packs]. rewrite total_app_last.
    unfold PurchasedPack.usable. cbn. rewrite Z.eqb_refl.
    replace (t <? now + 2592000000) with true by (symmetry; apply Z.ltb_lt; lia).
    reflexivity.
  - intros later method' now' p Hcfg Hin Hu Hp Hs. rewrite Hcfg, ?E1, ?E2, ?E3, ?E4, ?E5, ?E6, ?E7.
    destruct (find (fun q => (PurchasedPack.user q =? userId)
                             && String.eqb (PurchasedPack.paymentId q) paymentId
                             && PurchasedPack.Status_eqb (PurchasedPack.status q)
                                                         PurchasedPack.active)
                   (packs later)) eqn:Ef; [reflexivity|].
    pose proof (find_none _ _ Ef p Hin) as Hno. cbv beta in Hno.
    rewrite Hu, Hp, Hs, Z.eqb_refl, String.eqb_refl in Hno. discriminate Hno.
  - intros later method' now' Hcfg Hm Hnone. rewrite Hcfg, ?E1, ?E2, ?E3, ?E4, ?E5, ?E6, ?E7, Hm.
    destruct (find (fun q => (PurchasedPack.user q =? userId)
                             && String.eqb (PurchasedPack.paymentId q) paymentId
                             && PurchasedPack.Status_eqb (PurchasedPack.status q)
                                                         PurchasedPack.active)
                   (packs later)) as [q|] eqn:Ef; [|reflexivity].
    exfalso. apply find_some in Ef as (Hin & Hq).
    apply andb_true_iff in Hq as (Hq & Hs). apply andb_true_iff in Hq as (Hu & Hp).
    apply Z.eqb_eq in Hu. apply String.eqb_eq in Hp.
    apply (Hnone q Hin Hu Hp). destruct (PurchasedPack.status q); try discriminate Hs.
    reflexivity.
Qed.

(** Bob buys ten requests, spends them all, and presents the payment again. *)
Lemma purchasePack_replay_witness :
  let catalogue := [mkRequestPack "pack_10" "Ten" 10 200 "Rs 2" true] in
  let bought :=
    fst (purchasePack Samples.env catalogue Samples.db0 Samples.bob "pack_10" "order_9"
                      "pay_9" "sig_ok" "upi" 5000) in
  let spent :=
    set_packs (fst (PurchasedPack.useFromPacks (packs bought) Samples.bob 10 6000)) bought in
  purchasePack Samples.env catalogue bought Samples.bob "pack_10" "order_9" "pay_9" "sig_ok"
               "card" 5500
  = (bought, success "Pack already purchased with this payment")
  /\ PurchasedPack.getTotalRemainingRequests (packs spent) Samples.bob 7000 = 0
  /\ exists again,
      purchasePack Samples.env catalogue spent Samples.bob "pack_10" "order_9" "pay_9"
                   "sig_ok" "card" 7000
      = (again, success "Pack purchased successfully!")
      /\ PurchasedPack.getTotalRemainingRequests (packs again) Samples.bob 7000 = 10.
Proof.
  intros catalogue bought spent.
  assert (H : purchasePack Samples.env catalogue Samples.db0 Samples.bob "pack_10" "order_9"
                           "pay_9" "sig_ok" "upi" 5000
              = (bought, success "Pack purchased successfully!"))
    by (vm_compute; reflexivity).
  destruct (purchasePack_replay _ _ _ _ _ _ _ _ _ _ _ H) as (pack & Hfind & Hp & _ & A & B).
  vm_compute in Hfind. injection Hfind as <-.
  split; [|split].
  - eapply (A bought "card" 5500 _ eq_refl).
    + rewrite Hp. apply in_or_app. right. left. reflexivity.
    + reflexivity.
    + reflexivity.
    + reflexivity.
  - vm_compute. reflexivity.
  - eexists. split.
    + apply (B spent "card" 7000 eq_refl eq_refl).
      intros p Hin Hu _. vm_compute in Hin.
      destruct Hin as [<-|[<-|[]]]; [discriminate Hu | intros E; discriminate E].
    + vm_compute. reflexivity.
Defined.

(** X28. The three views of the message payment gate agree.  For the
    initiator of an active conversation, with unrevealed-chat payment
    configured and enabled: [getMessagePaymentStatus] reports as [needsToPay]
    the value of [initiatorNeedsToPay]; [createMessageOrder] asks the provider
    for an order of the configured price exactly when that value is true and
    otherwise answers 'Payment is not required at this time'; and the HTTP
    send path (other participant present, no block) answers 402 exactly when
    it is true. *)
Theorem gate_views_agree (createOrder : Z -> result Order) (db : DB)
        (userId conversationId : ObjectId) (conversation : Conversation.t)
        (unrevealedPayment : AppConfig.UnrevealedChatPayment)
        (otherParticipant : Conversation.Participant)
        (content : string) (type : MessageType) (replyTo : option ObjectId) (now : Date) :
  MessageController.findActiveFor db conversationId userId = Some conversation ->
  Conversation.initiator conversation = Some userId ->
  AppConfig.unrevealedChatPayment (AppConfig.microPayments (config db))
  = Some unrevealedPayment ->
  AppConfig.isEnabled unrevealedPayment = true ->
  Conversation.getOtherParticipant conversation userId = Some otherParticipant ->
  Block.hasBlockBetween (blocks db) userId (Conversation.user otherParticipant) = false ->
  let needs :=
    Conversation.initiatorNeedsToPay
      conversation (or_else (AppConfig.freeMessageLimit unrevealedPayment) 100) in
  (exists stats,
      getMessagePaymentStatus db userId conversationId
      = status_report stats (AppConfig.pricePerMessageInPaisa unrevealedPayment)
                      (AppConfig.priceDisplay unrevealedPayment)
      /\ Conversation.needsToPay stats = needs)
  /\ createMessageOrder createOrder db userId conversationId
     = (if needs then
          match createOrder (AppConfig.pricePerMessageInPaisa unrevealedPayment) with
          | Err e => order_refused (error (if String.eqb e "" then "Error creating order"
                                           else e))
          | Ok order =>
              order_created order (AppConfig.priceDisplay unrevealedPayment)
                            (or_else (AppConfig.freeMessageLimit unrevealedPayment) 100)
          end
        else order_refused (badRequest "Payment is not required at this time"))
  /\ (needs = true <->
      exists payload,
        MessageController.sendMessage db userId conversationId content type replyTo now
        = (db, paymentRequired payload)).
Proof.
  intros Hfind Hinit Hcfg Hen Hother Hblock needs.
  split; [|split].
  - unfold getMessagePaymentStatus. rewrite Hfind, Hinit, Z.eqb_refl, Hcfg, Hen.
    cbn [negb]. cbv zeta.
    unfold needs, Conversation.getInitiatorMessageStats, Conversation.initiatorNeedsToPay.
    rewrite Hinit. cbv zeta.
    destruct (match find _ (Conversation.participants conversation) with
              | Some p => Conversation.isRevealed p
              | None => false
              end); eexists; split; reflexivity.
  - unfold createMessageOrder. rewrite Hfind, Hinit, Z.eqb_refl, Hcfg, Hen.
    cbn [negb]. cbv zeta. fold needs. destruct needs; reflexivity.
  - unfold MessageController.sendMessage.
    rewrite Hfind, Hother, Hblock, Hinit, Z.eqb_refl. cbv zeta.
    unfold needs, Conversation.initiatorNeedsToPay. rewrite Hinit. cbv zeta.
    unfold Conversation.getParticipantData.
    destruct (match find _ (Conversation.participants conversation) with
              | Some p => Conversation.isRevealed p
              | None => false
              end) eqn:Erev; cbn [negb andb].
    + split; [intros H; discriminate H|]. intros (payload & H).
      destruct (create_message _ _ _ _ _ _ _ _) as [[d m]|]; [|discriminate H].
      destruct (negb (Conversation.isMuted otherParticipant));
        [destruct (User.findById _ _)|]; discriminate H.
    + unfold MessageController.paymentCheck. rewrite Hcfg, Hen. cbv zeta.
      destruct (_ <=? _) eqn:Ele.
      * split; [intros _; eexists; reflexivity | reflexivity].
      * split; [intros H; discriminate H|]. intros (payload & H).
        destruct (create_message _ _ _ _ _ _ _ _) as [[d m]|]; [|discriminate H].
        destruct (negb (Conversation.isMuted otherParticipant));
          [destruct (User.findById _ _)|]; discriminate H.
Qed.

Lemma gate_views_agree_witness :
  exists payload,
    MessageController.sendMessage Samples.at_limit Samples.alice Samples.conversationId
      "one more" text None 4000
    = (Samples.at_limit, paymentRequired payload).
Proof.
  destruct (MessageController.findActiveFor Samples.at_limit Samples.conversationId
              Samples.alice) as [c|] eqn:Hfind; [|vm_compute in Hfind; discriminate Hfind].
  assert (Hc := Hfind). vm_compute in Hc. injection Hc as Hc. subst c.
  match type of Hfind with
  | _ = Some ?c =>
      destruct (Conversation.getOtherParticipant c Samples.alice) as [o|] eqn:Eo;
        [|vm_compute in Eo; discriminate Eo];
      apply (proj2 (proj2 (gate_views_agree (fun _ => Err "") Samples.at_limit Samples.alice
                             Samples.conversationId c AppConfig.defaultUnrevealed o
                             "one more" text None 4000
                             Hfind eq_refl eq_refl eq_refl Eo eq_refl)))
  end.
  vm_compute. reflexivity.
Defined.

End PurchaseFacts.

(** ** Blocking *)

Module BlockFacts.

Import ApiResponse BlockController.

Lemma hasBlockBetween_sym bs a b :
  Block.hasBlockBetween bs a b = Block.hasBlockBetween bs b a.
Proof.
  unfold Block.hasBlockBetween. induction bs as [|x r IH]; simpl; [reflexivity|].
  rewrite IH. f_equal. apply orb_comm.
Qed.

Lemma hasBlockBetween_added bs a b :
  Block.hasBlockBetween (bs ++ [Block.mk a b]) a b = true.
Proof.
  unfold Block.hasBlockBetween. rewrite existsb_app. simpl.
  rewrite !Z.eqb_refl. simpl. apply orb_true_r.
Qed.

(** A 201 of [sendRequest] passed the block check and found no pending or
    accepted request between the two users. *)
Lemma sendRequest_created_guards env db db' s r m src anon now t :
  RequestController.sendRequest env db s r m src anon now = (db', created t) ->
  Block.hasBlockBetween (blocks db) s r = false
  /\ MessageRequest.existsBetweenUsers (requests db) s r = None.
Proof.
  unfold RequestController.sendRequest.
  destruct (s =? r); [intros H; discriminate H|].
  destruct (User.findById (users db) r) as [u|]; [|intros H; discriminate H].
  destruct (negb (User.is_active u)); [intros H; discriminate H|].
  destruct (Profile.findOne (profiles db) r) as [rp|]; [|intros H; discriminate H].
  destruct (Profile.isBanned rp); [intros H; discriminate H|].
  destruct (Block.hasBlockBetween (blocks db) s r); [intros H; discriminate H|].
  cbv zeta.
  destruct (MessageRequest.existsBetweenUsers (requests db) s r) as [e|] eqn:Ee;
    [|auto].
  apply RequestReachable.existing_is_active in Ee. unfold MessageRequest.is_active in Ee.
  destruct (MessageRequest.status e); try discriminate Ee; intros H; discriminate H.
Qed.

(** A 201 of the HTTP send path passed the block check. *)
Lemma sendMessage_created_guards db db' u cid content type replyTo now t :
  MessageController.sendMessage db u cid content type replyTo now = (db', created t) ->
  exists c o,
    MessageController.findActiveFor db cid u = Some c
    /\ Conversation.getOtherParticipant c u = Some o
    /\ Block.hasBlockBetween (blocks db) u (Conversation.user o) = false.
Proof.
  unfold MessageController.sendMessage.
  destruct (MessageController.findActiveFor db cid u) as [c|] eqn:Ec;
    [|intros H; discriminate H].
  destruct (Conversation.getOtherParticipant c u) as [o|] eqn:Eo; [|intros H; discriminate H].
  destruct (Block.hasBlockBetween _ _ _) eqn:Eb; [intros H; discriminate H|].
  intros _. exists c, o. auto.
Qed.

(** X29. A block closes both directions.  [blockUser] is the call as the
    route hands it over (the id of the user to block is the text of the
    request body), run with no operation of another call between its own.
    When it answers success, that text is 24 hexadecimal digits and is not
    the caller's printed id; exactly one block was added, from the caller to
    the user the text names; requests and messages are untouched; the first
    active conversation with both users among its participants, if there is
    one, was saved with status [blocked] and stamped with the caller and the
    time, every other conversation being left alone.  A block between the
    two is then stored, and in every database
    where one is stored neither user gets a 201 from [sendRequest] towards
    the other, nor from the HTTP send path in a conversation whose other
    participant is the other user.  The ids are compared as text only, so
    the user named may be the caller. *)
Theorem blockUser_closes_both_directions (db db' : DB) (me : ObjectId) (userId : string)
        (reason : string) (additionalNotes : option string) (source : string) (now : Date)
        (stamp : option Stamp) (text_ : string) :
  complete (Async.blockUser me userId reason additionalNotes source now) db
  = (db', (stamp, success text_)) ->
  userId <> ObjectIdText.toString me
  /\ exists blocked_,
      ObjectIdText.cast userId = Some blocked_
      /\ blocks db' = (blocks db ++ [Block.mk me blocked_])%list
      /\ requests db' = requests db
      /\ messages db' = messages db
      /\ match find (fun c => has_both me blocked_ c && MessageController.is_active c)
                    (conversations db) with
         | Some c =>
             stamp = Some (stamp_blocked (Conversation._id c) me now)
             /\ conversations db'
                = map (fun q => if Conversation._id q =? Conversation._id c
                                then set_status Conversation.blocked c else q)
                      (conversations db)
         | None => stamp = None /\ conversations db' = conversations db
         end
      /\ Block.hasBlockBetween (blocks db') me blocked_ = true
      /\ forall later,
          Block.hasBlockBetween (blocks later) me blocked_ = true ->
          (forall env a b recipientId m src anon now' db'' t,
              (a = me /\ b = blocked_) \/ (a = blocked_ /\ b = me) ->
              ObjectIdText.cast recipientId = Some b ->
              complete (Async.sendRequest env a recipientId m src anon now') later
              <> (db'', created t))
          /\ (forall a b cid content type replyTo now' db'' t,
                (a = me /\ b = blocked_) \/ (a = blocked_ /\ b = me) ->
                MessageController.sendMessage later a cid content type replyTo now'
                = (db'', created t) ->
                exists c o,
                  MessageController.findActiveFor later cid a = Some c
                  /\ Conversation.getOtherParticipant c a = Some o
                  /\ Conversation.user o <> b).
Proof.
  unfold Async.blockUser.
  destruct (String.eqb userId (ObjectIdText.toString me)) eqn:Eself;
    [intros H; discriminate H|].
  apply String.eqb_neq in Eself.
  destruct (ObjectIdText.cast userId) as [u|]; [|intros H; discriminate H].
  cbn [complete query].
  destruct (User.findById (users db) u); [|intros H; discriminate H]. cbn [complete query].
  destruct (findBlock (blocks db) me u) eqn:Ebl; [intros H; discriminate H|].
  cbn [complete]. destruct (negb _); [intros H; discriminate H|].
  rewrite Ebl. cbn [complete query].
  change (conversations (set_blocks (blocks db ++ [Block.mk me u]) db))
    with (conversations db).
  assert (Hlater : forall later,
            Block.hasBlockBetween (blocks later) me u = true ->
            (forall env a b recipientId m src anon now' db'' t,
                (a = me /\ b = u) \/ (a = u /\ b = me) ->
                ObjectIdText.cast recipientId = Some b ->
                complete (Async.sendRequest env a recipientId m src anon now') later
                <> (db'', created t))
            /\ (forall a b cid content type replyTo now' db'' t,
                  (a = me /\ b = u) \/ (a = u /\ b = me) ->
                  MessageController.sendMessage later a cid content type replyTo now'
                  = (db'', created t) ->
                  exists c o,
                    MessageController.findActiveFor later cid a = Some c
                    /\ Conversation.getOtherParticipant c a = Some o
                    /\ Conversation.user o <> b)).
  { intros later Hl.
    assert (Hb : forall a b, (a = me /\ b = u) \/ (a = u /\ b = me) ->
                             Block.hasBlockBetween (blocks later) a b = true).
    { intros a b [(-> & ->)|(-> & ->)]; [|rewrite hasBlockBetween_sym]; exact Hl. }
    split.
    - intros env a b raw m src anon now' db'' t Hab Hcast Hs.
      apply AsyncFacts.sendRequest_call in Hs
        as [(_ & Hn)|(r & _ & _ & _ & Hr & Hs & _)]; [exact (Hn t eq_refl)|].
      rewrite Hcast in Hr. injection Hr as <-.
      rewrite (Hb a b Hab) in Hs. discriminate Hs.
    - intros a b cid content type replyTo now' db'' t Hab Hs.
      apply sendMessage_created_guards in Hs as (c & o & Hc & Ho & Hs).
      exists c, o. split; [exact Hc|]. split; [exact Ho|].
      intros E. rewrite E, (Hb a b Hab) in Hs. discriminate Hs. }
  destruct (find _ (conversations db)) as [c|] eqn:Ec; cbn [complete write];
    intros H; injection H as <- <- _;
    (split; [exact Eself|]); exists u; rewrite Ec;
    (split; [reflexivity|]); (split; [reflexivity|]); (split; [reflexivity|]);
    (split; [reflexivity|]); (split; [split; reflexivity|]);
    (split; [apply hasBlockBetween_added | exact Hlater]).
Qed.

(** Bob blocks Alice in the database where he had accepted her request. *)
Lemma blockUser_closes_both_directions_witness :
  exists db' stamp blocked_,
    complete (Async.blockUser Samples.bob (ObjectIdText.toString Samples.alice) "spam" None
                              "chat" 5000) Samples.opened
    = (db', (stamp, success "User blocked successfully"))
    /\ ObjectIdText.cast (ObjectIdText.toString Samples.alice) = Some blocked_
    /\ Block.hasBlockBetween (blocks db') Samples.bob blocked_ = true
    /\ forall db'' t,
         complete (Async.sendRequest Samples.env Samples.alice
                                     (ObjectIdText.toString Samples.bob) "again"
                                     MessageRequest.search false 6000) db'
         <> (db'', created t).
Proof.
  destruct (complete (Async.blockUser Samples.bob (ObjectIdText.toString Samples.alice)
                                      "spam" None "chat" 5000) Samples.opened)
    as [db' [stamp response]] eqn:E.
  assert (Hr : response = success "User blocked successfully").
  { assert (E' := E). vm_compute in E'. injection E' as _ _ <-. reflexivity. }
  subst response.
  destruct (blockUser_closes_both_directions _ _ _ _ _ _ _ _ _ _ E)
    as (_ & u & Hcast & _ & _ & _ & _ & Hstored & Hlater).
  exists db', stamp, u. split; [reflexivity|]. split; [exact Hcast|].
  split; [exact Hstored|].
  intros db'' t.
  apply (proj1 (Hlater db' Hstored) Samples.env Samples.alice Samples.bob).
  - right. split; [|reflexivity].
    vm_compute in Hcast. injection Hcast as <-. reflexivity.
  - reflexivity.
Defined.

(** Erin blocks her own id written in capital letters. *)
Example blockUser_own_id_in_capitals :
  exists db',
    complete (Async.blockUser AsyncSamples.erin "0000000000000000000000AB" "other" None
                              "profile" 5000) AsyncSamples.db1
    = (db', (None, success "User blocked successfully"))
    /\ blocks db' = [Block.mk AsyncSamples.erin AsyncSamples.erin].
Proof.
  eexists. split; vm_compute; reflexivity.
Qed.

Lemma is_participant_users c u :
  MessageController.is_participant c u
  = existsb (fun i => i =? u) (map Conversation.user (Conversation.participants c)).
Proof.
  unfold MessageController.is_participant.
  induction (Conversation.participants c) as [|x r IH]; simpl; [reflexivity | now rewrite IH].
Qed.

Lemma between_has_both a b c : is_between a b c -> has_both a b c = true.
Proof.
  unfold has_both. rewrite !is_participant_users.
  intros [H|H]; rewrite H; simpl; rewrite !Z.eqb_refl; simpl;
    rewrite ?orb_true_r; reflexivity.
Qed.

Lemma has_both_between a b c x y :
  map Conversation.user (Conversation.participants c) = [x; y] ->
  has_both a b c = true -> a <> b -> is_between a b c.
Proof.
  unfold has_both, is_between. rewrite !is_participant_users. intros -> H Hne.
  simpl in H. rewrite !orb_false_r in H.
  apply andb_true_iff in H as (Ha & Hb).
  apply orb_true_iff in Ha as [Ha|Ha]; apply orb_true_iff in Hb as [Hb|Hb];
    apply Z.eqb_eq in Ha, Hb; subst; auto; contradiction.
Qed.

Lemma find_not_none {A : Type} (f : A -> bool) (l : list A) (x : A) :
  In x l -> f x = true -> find f l <> None.
Proof.
  intros Hin Hf Hnone. pose proof (find_none f l Hnone x Hin) as H. congruence.
Qed.

Lemma delete_first_app_last bs a b :
  findBlock bs a b = None -> delete_first a b (bs ++ [Block.mk a b]) = bs.
Proof.
  unfold findBlock. induction bs as [|x r IH]; simpl; intros H.
  - rewrite !Z.eqb_refl. reflexivity.
  - destruct ((Block.blocker x =? a) && (Block.blocked x =? b)); [discriminate|].
    f_equal. auto.
Qed.

Lemma findBlock_app_last bs a b :
  findBlock bs a b = None -> findBlock (bs ++ [Block.mk a b]) a b = Some (Block.mk a b).
Proof.
  unfold findBlock. intros H. rewrite (PurchaseFacts.find_app_last _ _ _ H). simpl.
  rewrite !Z.eqb_refl. reflexivity.
Qed.

(** X30. Unblocking does not reopen the conversation.  In a well-formed
    database (as every reachable one is) let two users share an active
    conversation, and let one of them block the other and then unblock them.
    The block stamped that conversation as blocked; the unblock succeeds and
    leaves the block collection as it was before the block; but the
    conversation stays blocked, so both send paths answer 'Conversation not
    found' to either user, and, the accepted request between the two being
    still there, neither user gets a 201 from [sendRequest] towards the
    other. *)
Theorem unblock_does_not_reopen (env : Env) (db db1 : DB) (a b : ObjectId)
        (c : Conversation.t) (reason : string) (additionalNotes : option string)
        (source : string) (now : Date) (stamp : option Stamp) (text_ : string) :
  well_formed db ->
  In c (conversations db) -> is_between a b c -> MessageController.is_active c = true ->
  blockUser db a b reason additionalNotes source now = (db1, stamp, success text_) ->
  let db2 := fst (unblockUser db1 a b) in
  stamp = Some (stamp_blocked (Conversation._id c) a now)
  /\ unblockUser db1 a b = (db2, success "User unblocked successfully")
  /\ blocks db2 = blocks db
  /\ (forall u content type replyTo now', u = a \/ u = b ->
        MessageController.sendMessage db2 u (Conversation._id c) content type replyTo now'
        = (db2, notFound "Conversation not found")
        /\ Socket.send_message db2 u (Conversation._id c) content type replyTo now'
           = (db2, Socket.error "Conversation not found"))
  /\ (forall s r m src anon now' db'' t,
        (s = a /\ r = b) \/ (s = b /\ r = a) ->
        RequestController.sendRequest env db2 s r m src anon now' <> (db'', created t)).
Proof.
  intros Hwf Hc Hbetween Hactive Hblock db2.
  unfold blockUser in Hblock.
  destruct (b =? a) eqn:Eself; [discriminate Hblock|]. apply Z.eqb_neq in Eself.
  destruct (User.findById (users db) b) as [ub|]; [|discriminate Hblock].
  destruct (findBlock (blocks db) a b) as [b0|] eqn:Ebl; [discriminate Hblock|].
  destruct (negb _); [discriminate Hblock|].
  cbv zeta in Hblock.
  change (conversations (set_blocks (blocks db ++ [Block.mk a b]) db))
    with (conversations db) in Hblock.
  destruct (find (fun q => has_both a b q && MessageController.is_active q)
                 (conversations db)) as [c0|] eqn:Ec0.
  2: { exfalso. apply (find_not_none _ _ c Hc) in Ec0; [exact Ec0|].
       rewrite (between_has_both a b c Hbetween), Hactive. reflexivity. }
  assert (c0 = c) as ->.
  { pose proof Hwf as (_ & _ & (L1 & _) & _).
    apply find_some in Ec0 as (Hin0 & Hp0). apply andb_true_iff in Hp0 as (Hboth & _).
    destruct (L1 c0 Hin0) as (r0 & _ & (_ & _ & Hi0)).
    unfold identity in Hi0. injection Hi0 as Hu0 _ _.
    apply (LinkFacts.one_conversation_per_pair db a b c0 c Hwf Hin0 Hc); [|exact Hbetween].
    apply (has_both_between a b c0 _ _ Hu0 Hboth). congruence. }
  injection Hblock as <- <- _.
  set (db1 := save_conversation (set_blocks (blocks db ++ [Block.mk a b]) db)
                                (set_status Conversation.blocked c)) in *.
  assert (Hun : unblockUser db1 a b
                = (set_blocks (blocks db) db1, success "User unblocked successfully")).
  { unfold unblockUser.
    change (blocks db1) with (blocks db ++ [Block.mk a b])%list.
    rewrite (findBlock_app_last _ _ _ Ebl), (delete_first_app_last _ _ _ Ebl).
    reflexivity. }
  assert (Edb2 : db2 = set_blocks (blocks db) db1) by (unfold db2; rewrite Hun; reflexivity).
  assert (Hnone : forall u, MessageController.findActiveFor db2 (Conversation._id c) u = None).
  { intros u. unfold MessageController.findActiveFor. apply ExpirySpec.find_all_false.
    intros q Hq. rewrite Edb2 in Hq.
    change (conversations (set_blocks (blocks db) db1)) with (conversations db1) in Hq.
    destruct (Conversation._id q =? Conversation._id c) eqn:E; [|reflexivity].
    apply Z.eqb_eq in E.
    rewrite (RevealFacts.saved_is_unique _ (set_status Conversation.blocked c) q Hq E).
    simpl. apply andb_false_r. }
  split; [reflexivity|]. split; [rewrite Edb2; exact Hun|].
  split; [rewrite Edb2; reflexivity|]. split.
  - intros u content type replyTo now' _.
    unfold MessageController.sendMessage, Socket.send_message. rewrite Hnone.
    split; reflexivity.
  - intros s r m src anon now' db'' t Hsr Hs.
    apply sendRequest_created_guards in Hs as (_ & Hs).
    pose proof Hwf as (_ & _ & (L1 & _) & _).
    destruct (L1 c Hc) as (r0 & Hr0 & Ho).
    pose proof (LinkFacts.opened_between a b r0 c Ho Hbetween) as Hact.
    assert (Hreq : requests db2 = requests db) by (rewrite Edb2; reflexivity).
    rewrite Hreq in Hs. unfold MessageRequest.existsBetweenUsers in Hs.
    apply (find_not_none _ _ r0 Hr0) in Hs; [exact Hs|].
    destruct Hsr as [(-> & ->)|(-> & ->)]; [exact Hact|].
    rewrite RequestSpec.between_sym. exact Hact.
Qed.

Lemma unblock_does_not_reopen_witness :
  well_formed Samples.opened
  /\ let db1 := fst (fst (blockUser Samples.opened Samples.bob Samples.alice "spam" None
                                    "chat" 5000)) in
     let db2 := fst (unblockUser db1 Samples.bob Samples.alice) in
     blocks db2 = blocks Samples.opened
     /\ MessageController.sendMessage db2 Samples.alice Samples.conversationId "hello" text
          None 7000
        = (db2, notFound "Conversation not found").
Proof.
  assert (Hwf : well_formed Samples.opened).
  { apply LinkFacts.run_well_formed, LinkFacts.fresh_well_formed.
    repeat split; reflexivity. }
  split; [exact Hwf|].
  destruct (conversations Samples.opened) as [|c l] eqn:Ecs;
    [vm_compute in Ecs; discriminate Ecs|].
  assert (Hc := Ecs). vm_compute in Hc. injection Hc as Hc Hl.
  assert (Hin : In c (conversations Samples.opened)) by (rewrite Ecs; now left).
  assert (Hb : is_between Samples.bob Samples.alice c) by (subst c; right; reflexivity).
  assert (Ha : MessageController.is_active c = true) by (subst c; reflexivity).
  assert (Hid : Conversation._id c = Samples.conversationId) by (subst c; reflexivity).
  clear Hc Hl Ecs.
  assert (Hblock : blockUser Samples.opened Samples.bob Samples.alice "spam" None "chat" 5000
                   = (fst (fst (blockUser Samples.opened Samples.bob Samples.alice "spam"
                                          None "chat" 5000)),
                      snd (fst (blockUser Samples.opened Samples.bob Samples.alice "spam"
                                          None "chat" 5000)),
                      success "User blocked successfully"))
    by (vm_compute; reflexivity).
  destruct (unblock_does_not_reopen Samples.env Samples.opened _ Samples.bob Samples.alice c
              "spam" None "chat" 5000 _ _ Hwf Hin Hb Ha Hblock)
    as (_ & _ & Hblocks & Hsend & _).
  cbv zeta. split; [exact Hblocks|].
  rewrite <- Hid. exact (proj1 (Hsend Samples.alice "hello" text None 7000 (or_intror eq_refl))).
Defined.

End BlockFacts.
